(** * TCAD Tcl command generator: a shallow embedding of script_v22_modified.py

    The script reads its request interactively and returns a list of Tcl
    command lines.  Strings are modelled as [string] over ASCII characters
    (Python's Unicode case mapping and Unicode white space are outside the
    model); integers that count or number things are [nat] or [Z]; Python
    exceptions are values of [exn]; the interactive input is an explicit list of
    events that [input()] consumes.  Output written by [print] is not part of
    the returned value and is not modelled. *)

From Stdlib Require Import String Ascii List Arith ZArith Lia Bool Permutation.
From Stdlib Require Decimal DecimalNat DecimalString.
Import ListNotations.

Open Scope string_scope.
Open Scope list_scope.

Infix "+:+" := String.append (at level 60, right associativity).

(** ** Python exceptions and results *)

Inductive exn : Type :=
| ValueError
| KeyboardInterrupt
| EOFError
| IndexError
| ZeroDivisionError.

Inductive outcome (A : Type) : Type :=
| Ret (a : A)
| Raise (e : exn).

Arguments Ret {A} a.
Arguments Raise {A} e.

Definition bind {A B : Type} (m : outcome A) (k : A -> outcome B) : outcome B :=
  match m with
  | Ret a => k a
  | Raise e => Raise e
  end.

Notation "x <- m ;; k" := (bind m (fun x => k))
  (at level 61, m at next level, right associativity).

(** ** Python string primitives (ASCII) *)

Definition in_range (lo hi : nat) (c : ascii) : bool :=
  let n := nat_of_ascii c in Nat.leb lo n && Nat.leb n hi.

Definition is_upper_ascii (c : ascii) : bool := in_range 65 90 c.
Definition is_lower_ascii (c : ascii) : bool := in_range 97 122 c.
Definition is_digit (c : ascii) : bool := in_range 48 57 c.

(** [str.isspace] on ASCII: TAB, LF, VT, FF, CR, FS, GS, RS, US and space. *)
Definition is_space (c : ascii) : bool :=
  in_range 9 13 c || in_range 28 32 c.

Definition ascii_upper (c : ascii) : ascii :=
  if is_lower_ascii c then ascii_of_nat (nat_of_ascii c - 32) else c.

Definition ascii_lower (c : ascii) : ascii :=
  if is_upper_ascii c then ascii_of_nat (nat_of_ascii c + 32) else c.

Fixpoint str_map (f : ascii -> ascii) (s : string) : string :=
  match s with
  | EmptyString => EmptyString
  | String c r => String (f c) (str_map f r)
  end.

(** [s.upper()] and [s.lower()] *)
Definition upper (s : string) : string := str_map ascii_upper s.
Definition lower (s : string) : string := str_map ascii_lower s.

Fixpoint str_forall (p : ascii -> bool) (s : string) : bool :=
  match s with
  | EmptyString => true
  | String c r => p c && str_forall p r
  end.

Definition is_digits (s : string) : bool := str_forall is_digit s.
Definition all_space (s : string) : bool := str_forall is_space s.

(** Truth value of a string: non-empty. *)
Definition truthy (s : string) : bool :=
  match s with
  | EmptyString => false
  | String _ _ => true
  end.

Fixpoint str_rev (s : string) : string :=
  match s with
  | EmptyString => EmptyString
  | String c r => str_rev r +:+ String c EmptyString
  end.

Fixpoint startswith (p s : string) : bool :=
  match p with
  | EmptyString => true
  | String a p' =>
      match s with
      | EmptyString => false
      | String b s' => Ascii.eqb a b && startswith p' s'
      end
  end.

(** [s.endswith(suf)] *)
Definition endswith (suf s : string) : bool :=
  startswith (str_rev suf) (str_rev s).

Fixpoint repeat_char (c : ascii) (n : nat) : string :=
  match n with
  | O => EmptyString
  | S k => String c (repeat_char c k)
  end.

Definition is_sign (c : ascii) : bool :=
  Ascii.eqb c "+"%char || Ascii.eqb c "-"%char.

(** [s.zfill(width)]: left fill with zeros, kept behind a leading sign. *)
Definition zfill (width : nat) (s : string) : string :=
  if Nat.leb width (String.length s) then s
  else
    let fill := repeat_char "0"%char (width - String.length s) in
    match s with
    | String c r => if is_sign c then String c (fill +:+ r) else fill +:+ s
    | EmptyString => fill
    end.

(** [s.split(sep)] for a one-character separator: never the empty list. *)
Fixpoint split (sep : ascii) (s : string) : list string :=
  match s with
  | EmptyString => [EmptyString]
  | String c r =>
      if Ascii.eqb c sep then EmptyString :: split sep r
      else
        match split sep r with
        | h :: t => String c h :: t
        | [] => [String c EmptyString]
        end
  end.

Fixpoint lstrip (s : string) : string :=
  match s with
  | EmptyString => EmptyString
  | String c r => if is_space c then lstrip r else s
  end.

Fixpoint rstrip (s : string) : string :=
  match s with
  | EmptyString => EmptyString
  | String c r =>
      match rstrip r with
      | EmptyString => if is_space c then EmptyString else String c EmptyString
      | r' => String c r'
      end
  end.

(** [s.strip()] *)
Definition strip (s : string) : string := rstrip (lstrip s).

Definition starts_with_space (s : string) : bool :=
  match s with
  | EmptyString => false
  | String c _ => is_space c
  end.

Fixpoint ends_with_space (s : string) : bool :=
  match s with
  | EmptyString => false
  | String c EmptyString => is_space c
  | String _ r => ends_with_space r
  end.

Definition has_no (sep : ascii) (s : string) : bool :=
  str_forall (fun c => negb (Ascii.eqb c sep)) s.

(** [s.replace(old, new)] for non-empty [old]: every non-overlapping
    occurrence, scanning from the left.  [skip] counts the characters of a
    matched occurrence still to be dropped. *)
Fixpoint replace_scan (old new : string) (skip : nat) (s : string) : string :=
  match s with
  | EmptyString => EmptyString
  | String c r =>
      match skip with
      | S k => replace_scan old new k r
      | O =>
          if startswith old s
          then new +:+ replace_scan old new (String.length old - 1) r
          else String c (replace_scan old new 0 r)
      end
  end.

Definition replace (old new s : string) : string := replace_scan old new 0 s.

(** [sep.join(l)] *)
Definition join (sep : string) (l : list string) : string := String.concat sep l.

(** [str(n)] for a non-negative integer. *)
Definition str_of_nat (n : nat) : string := DecimalString.NilZero.string_of_uint (Nat.to_uint n).

(** [x in l] for a list (or set) of strings. *)
Definition str_in (x : string) (l : list string) : bool := existsb (String.eqb x) l.

(** [enumerate(l, start)] *)
Definition enumerate {A : Type} (start : nat) (l : list A) : list (nat * A) :=
  combine (seq start (List.length l)) l.

(** [l[0]] *)
Definition first {A : Type} (l : list A) : outcome A :=
  match l with
  | x :: _ => Ret x
  | [] => Raise IndexError
  end.

(** [l[i]] for [i >= 0] *)
Definition item {A : Type} (l : list A) (i : nat) : outcome A :=
  match nth_error l i with
  | Some x => Ret x
  | None => Raise IndexError
  end.

(** [l[-1]] *)
Definition last_item {A : Type} (l : list A) : outcome A :=
  match List.rev l with
  | x :: _ => Ret x
  | [] => Raise IndexError
  end.

(** [for x in l: s = body(s, x)] where the body may raise. *)
Fixpoint for_each {A S : Type} (l : list A) (body : S -> A -> outcome S) (s : S)
  : outcome S :=
  match l with
  | [] => Ret s
  | x :: r => s' <- body s x ;; for_each r body s'
  end.

(** ** Iteration order of a Python set

    [list(a_set)] enumerates the elements in an order fixed by the
    interpreter (string hashing), not by the program; the model takes that
    order as a component. *)

Class SetOrder : Type := {
  set_iter : list string -> list string;
  set_iter_perm : forall l, Permutation (set_iter l) l
}.

(** The order in which the elements were listed: one possible order, used
    to run the model on concrete requests. *)
Definition listed_order : SetOrder := {|
  set_iter := fun l => l;
  set_iter_perm := fun l => Permutation_refl l
|}.

(** [a - b] on sets of strings, the left set given by its elements. *)
Definition set_diff (a b : list string) : list string :=
  filter (fun x => negb (str_in x b)) a.

(** ** Naming utility *)

(** The axis letters a caller may pass, in either case. *)
Definition axis_letters : list string := ["x"; "y"; "z"; "X"; "Y"; "Z"]%string.

Definition all_axes : list string := ["X"; "Y"; "Z"]%string.

Definition get_axis_mapping `{SetOrder} (cutplane_axis cutline_axis : string)
  : outcome string :=
  let removed_axes := [upper cutplane_axis; upper cutline_axis] in
  first (set_iter (set_diff all_axes removed_axes)).

Definition get_export_variables `{SetOrder} (cutplane_axis cutline_axis parameter : string)
  : outcome (list string) :=
  axis_x <- get_axis_mapping cutplane_axis cutline_axis ;;
  Ret [axis_x; parameter].

Definition format_tdr_code (user_input : string) : string :=
  "00" +:+ zfill 2 user_input.

Definition parse_parameters (param_string : string) : list string :=
  map strip (filter (fun param => truthy (strip param)) (split ","%char param_string)).

(** The specification's reading of the two operations above. *)

(** [zeroPad(s, width)]: zeros in front until the width is reached. *)
Definition zeroPad_spec (width : nat) (s : string) : string :=
  repeat_char "0"%char (width - String.length s) +:+ s.

(** parseParameterList: split on commas, trim each segment, drop the empty ones. *)
Definition parseParameterList_spec (raw : string) : list string :=
  filter truthy (map strip (split ","%char raw)).

(** ** Interactive input

    Each [input()] consumes the next event: a line typed by the user, or an
    interrupt (Ctrl-C), which raises [KeyboardInterrupt]; at the end of the
    input [input()] raises [EOFError]. *)

Inductive event : Type :=
| Line (s : string)
| Interrupt.

Definition io (A : Type) : Type := list event -> outcome (A * list event).

Definition io_ret {A : Type} (a : A) : io A := fun inp => Ret (a, inp).

Definition io_bind {A B : Type} (m : io A) (k : A -> io B) : io B :=
  fun inp =>
    match m inp with
    | Ret (a, rest) => k a rest
    | Raise e => Raise e
    end.

Notation "x <~ m ;; k" := (io_bind m (fun x => k))
  (at level 61, m at next level, right associativity).

Definition io_lift {A : Type} (m : outcome A) : io A :=
  fun inp =>
    match m with
    | Ret a => Ret (a, inp)
    | Raise e => Raise e
    end.

Definition input : io string :=
  fun inp =>
    match inp with
    | [] => Raise EOFError
    | Interrupt :: _ => Raise KeyboardInterrupt
    | Line s :: rest => Ret (s, rest)
    end.

(** An action never hands back more input than it was given. *)
Definition consumes {A : Type} (m : io A) : Prop :=
  forall inp a rest, m inp = Ret (a, rest) -> List.length rest <= List.length inp.

(** [n] successive [input()] calls, results in order. *)
Fixpoint input_times (n : nat) : io (list string) :=
  match n with
  | O => io_ret []
  | S k => x <~ input ;; xs <~ input_times k ;; io_ret (x :: xs)
  end.

(** [for _ in l: pos = input(); positions.append(pos)] *)
Definition input_each {A : Type} (l : list A) : io (list string) :=
  input_times (List.length l).

Definition digit_value (c : ascii) : Z := Z.of_nat (nat_of_ascii c - 48).

(** The white space [int] skips around a number: TAB, LF, VT, FF, CR and
    space.  The separators FS, GS, RS and US, which [str.strip] removes, are
    not among them. *)
Definition is_c_space (c : ascii) : bool :=
  in_range 9 13 c || Ascii.eqb c " "%char.

Fixpoint skip_c_space (s : string) : string :=
  match s with
  | EmptyString => EmptyString
  | String c r => if is_c_space c then skip_c_space r else s
  end.

(** Decimal digits with single underscores allowed between digits, then
    white space up to the end: the value and the number of digits read. *)
Fixpoint int_digits (s : string) (acc : Z) (digits : nat) (after_digit : bool)
  : option (Z * nat) :=
  match s with
  | EmptyString => if after_digit then Some (acc, digits) else None
  | String c r =>
      if is_digit c then int_digits r (10 * acc + digit_value c)%Z (S digits) true
      else if Ascii.eqb c "_"%char
           then (if after_digit then int_digits r acc digits false else None)
           else if after_digit && str_forall is_c_space (String c r)
                then Some (acc, digits)
                else None
  end.

(** The interpreter's default limit on the number of digits [int] converts
    ([sys.get_int_max_str_digits()]); leading zeros count, the sign and
    underscores do not. *)
Definition int_max_str_digits : nat := 4300.

(** [int(s)] on ASCII text: white space around, an optional sign, decimal
    digits; [ValueError] for any other text and for a numeral of more digits
    than the limit. *)
Definition py_int (s : string) : outcome Z :=
  let parsed :=
    match skip_c_space s with
    | String c r =>
        if Ascii.eqb c "-"%char
        then option_map (fun zd : Z * nat => (Z.opp (fst zd), snd zd))
                        (int_digits r 0%Z 0 false)
        else if Ascii.eqb c "+"%char then int_digits r 0%Z 0 false
        else int_digits (String c r) 0%Z 0 false
    | EmptyString => None
    end in
  match parsed with
  | Some (z, digits) =>
      if Nat.leb digits int_max_str_digits then Ret z else Raise ValueError
  | None => Raise ValueError
  end.

(** [range(n)] has [Z.to_nat n] elements (none when [n <= 0]). *)
Definition range_len (n : Z) : nat := Z.to_nat n.

(** [p = input(...); if not p.endswith('/'): p += '/'] *)
Definition with_slash (p : string) : string :=
  if endswith "/" p then p else p +:+ "/".

(** The handler [except (ValueError, KeyboardInterrupt): return []] around a
    generator body; any other exception leaves the generator. *)
Definition handle (body : outcome (list string)) : outcome (list string) :=
  match body with
  | Raise ValueError => Ret []
  | Raise KeyboardInterrupt => Ret []
  | other => other
  end.

(** ** Cutplane/cutline sets, as collected by Modes 1 and 3 *)

Definition parameters : list string :=
  [ "ConductionBandEnergy"; "ConductionCurrentDensity"; "DopingConcentration";
    "EffectiveIntrinsicDensity"; "ElectricField"; "ElectrostaticPotential";
    "EquilibriumPotential"; "Impactionization"; "IntrinsicDensity";
    "LatticeTemperature"; "QuasiFermiPotential"; "SpaceCharge";
    "ValenceBandEnergy"; "eAlphaAvalanche"; "eCurrentDensity"; "eDensity";
    "eMobility"; "eQuasiFermiPotential"; "hAlphaAvalanche"; "hCurrentDensity";
    "hDensity"; "hMobility"; "hQuasiFermiPotential" ]%string.

(** The dictionary appended to [cutplane_cutline_sets]; the key
    ['parameters'] is the field [set_parameters]. *)
Record cutset : Type := {
  cutplane_axis : string;
  cutplane_position : string;
  cutline_axis : string;
  cutline_positions : list string;
  set_parameters : list string
}.

Definition is_axis (s : string) : bool := str_in s ["x"; "y"; "z"]%string.

(** [a = input(..).lower(); while a not in {'x','y','z'}: a = input(..).lower()] *)
Fixpoint read_axis (inp : list event) : outcome (string * list event) :=
  match inp with
  | [] => Raise EOFError
  | Interrupt :: _ => Raise KeyboardInterrupt
  | Line s :: rest =>
      if is_axis (lower s) then Ret (lower s, rest) else read_axis rest
  end.

(** What one pass through the body of the [while True] loop decides. *)
Inductive entry : Type :=
| SameAxis                                   (* [return []] *)
| NotListed (invalid_params : list string)   (* [continue] *)
| Accepted (c : cutset).                     (* appended *)

Definition read_entry (tdr_codes : list string) : io entry :=
  cutplane_axis <~ read_axis ;;
  cutplane_position <~ input ;;
  cutline_axis <~ read_axis ;;
  if String.eqb cutline_axis cutplane_axis then io_ret SameAxis
  else
    cutline_positions <~ input_each tdr_codes ;;
    param_input <~ input ;;
    let param_list := parse_parameters param_input in
    let invalid_params := filter (fun p => negb (str_in p parameters)) param_list in
    match invalid_params with
    | _ :: _ => io_ret (NotListed invalid_params)
    | [] =>
        io_ret (Accepted {| cutplane_axis := cutplane_axis;
                            cutplane_position := cutplane_position;
                            cutline_axis := cutline_axis;
                            cutline_positions := cutline_positions;
                            set_parameters := param_list |})
    end.

(** The [while True] loop.  Every pass consumes at least one event, so the
    number of remaining events bounds the number of passes; with no event left
    the first [input()] of a pass raises [EOFError].  [None] is the early
    [return []]. *)
Fixpoint collect_sets_loop (passes : nat) (tdr_codes : list string)
    (cutplane_cutline_sets : list cutset) : io (option (list cutset)) :=
  match passes with
  | O => fun _ => Raise EOFError
  | S passes' =>
      e <~ read_entry tdr_codes ;;
      match e with
      | SameAxis => io_ret None
      | NotListed _ => collect_sets_loop passes' tdr_codes cutplane_cutline_sets
      | Accepted c =>
          let sets' := cutplane_cutline_sets ++ [c] in
          more <~ input ;;
          if negb (str_in (lower more) ["yes"; "y"]%string)
          then io_ret (Some sets')
          else collect_sets_loop passes' tdr_codes sets'
      end
  end.

Definition collect_sets (tdr_codes : list string) (acc : list cutset)
  : io (option (list cutset)) :=
  fun inp => collect_sets_loop (List.length inp) tdr_codes acc inp.

(** What holds of every set the loop appends: both axes are among x, y, z and
    differ, there is one cutline position per TDR code, and every parameter
    is in the enumeration. *)
Definition accepted_set (tdr_codes : list string) (c : cutset) : Prop :=
  is_axis (cutplane_axis c) = true
  /\ is_axis (cutline_axis c) = true
  /\ cutline_axis c <> cutplane_axis c
  /\ List.length (cutline_positions c) = List.length tdr_codes
  /\ Forall (fun p => In p parameters) (set_parameters c).

(** [y = input(..).lower() or 'log'; if y not in {'linear','log'}: y = 'log'] *)
Definition read_y_axis_type : io string :=
  s <~ input ;;
  let y := if truthy (lower s) then lower s else "log"%string in
  io_ret (if str_in y ["linear"; "log"]%string then y else "log"%string).

(** [index_mod l i] is [l[i % len(l)]]. *)
Definition index_mod {A : Type} (l : list A) (i : nat) : outcome A :=
  match List.length l with
  | O => Raise ZeroDivisionError
  | S _ => item l (i mod List.length l)
  end.

Definition banner : list string :=
  [ "################################################";
    "# Sentaurus Visual Console - Tcl version 8.6.6 #";
    "################################################" ]%string.

(** The eight lines emitted for a loaded TDR file (Modes 1 and 3). *)
Definition load_cmds (base_path file_base : string) : list string :=
  let fname := file_base +:+ "_des.tdr" in
  let dset := file_base +:+ "_des" in
  let plot := "Plot_" +:+ dset in
  [ "load_file " +:+ base_path +:+ fname +:+ " -fod";
    "create_plot -dataset " +:+ dset;
    "select_plots {" +:+ plot +:+ "}";
    "# " +:+ plot; ""; "# " +:+ plot; ""; "# " +:+ dset ]%string.

(** A line that creates a 1D plot: [create_plot ... -1d]. *)
Definition is_plot1d_cmd (line : string) : bool :=
  startswith "create_plot " line && endswith " -1d" line.

Definition count_plot1d (cmds : list string) : nat :=
  List.length (filter is_plot1d_cmd cmds).

(** Keyword counting on emitted lines: the lines that start with [kw] and a space. *)
Definition count_cmd (kw : string) (cmds : list string) : nat :=
  List.length (filter (startswith (kw +:+ " ")) cmds).

(** ** Mode 1: many nodes with user TDRs and an optional last TDR *)

Module Mode1.

(** The values [generate_mode1_commands] has collected when it starts to
    build [cmds]. *)
Record request : Type := {
  node_names : list string;
  tdr_codes : list string;
  need_last_tdr : string;
  base_path : string;
  current_value : string;
  cutplane_cutline_sets : list cutset;
  y_axis_type : string;
  csv_export_path : string;
  csv_filename : string
}.

Definition collect : io (option request) :=
  n <~ input ;;
  num_nodes <~ io_lift (py_int n) ;;
  node_names <~ input_times (range_len num_nodes) ;;
  t <~ input ;;
  no_of_tdrs <~ io_lift (py_int t) ;;
  codes <~ input_times (range_len no_of_tdrs) ;;
  let tdr_codes := map format_tdr_code codes in
  need <~ input ;;
  let need_last_tdr := lower need in
  bp <~ input ;;
  let base_path := with_slash bp in
  current_value <~ input ;;
  sets <~ collect_sets tdr_codes [] ;;
  match sets with
  | None => io_ret None
  | Some cutplane_cutline_sets =>
      y_axis_type <~ read_y_axis_type ;;
      cp <~ input ;;
      let csv_export_path := with_slash cp in
      csv_filename <~ input ;;
      io_ret (Some {| node_names := node_names;
                      tdr_codes := tdr_codes;
                      need_last_tdr := need_last_tdr;
                      base_path := base_path;
                      current_value := current_value;
                      cutplane_cutline_sets := cutplane_cutline_sets;
                      y_axis_type := y_axis_type;
                      csv_export_path := csv_export_path;
                      csv_filename := csv_filename |})
  end.

Definition header : list string := banner ++ ["# "%string].

(** [f"{current_value}_{parameter}_{code}"] *)
Definition file_base_of (current_value parameter code : string) : string :=
  current_value +:+ "_" +:+ parameter +:+ "_" +:+ code.

Definition plot_of (file_base : string) : string := "Plot_" +:+ file_base +:+ "_des".

(** [f"C{set_idx}({file_base}_des)"] *)
Definition cutplane_dset (set_idx : nat) (file_base : string) : string :=
  "C" +:+ str_of_nat set_idx +:+ "(" +:+ file_base +:+ "_des)".

(** [f"C1(C{set_idx}({file_base}_des))"] *)
Definition cutline_dset (set_idx : nat) (file_base : string) : string :=
  "C1(C" +:+ str_of_nat set_idx +:+ "(" +:+ file_base +:+ "_des))".

Definition link_cmds (file_bases_for_param : list string) (first_plot : string)
  : list string :=
  let all_plots_for_param := map plot_of file_bases_for_param in
  let all_plots_str := join " " all_plots_for_param in
  [ "select_plots {" +:+ first_plot +:+ "}";
    "# " +:+ first_plot;
    "select_plots {" +:+ all_plots_str +:+ "}";
    "# " +:+ all_plots_str;
    "link_plots {" +:+ all_plots_str +:+ "}";
    "# 1" ]%string.

Definition field_cmds (parameter last_plot : string) : list string :=
  let last_dset := replace "Plot_" "" last_plot in
  [ "set_field_prop " +:+ parameter +:+ " -plot " +:+ last_plot
      +:+ " -geom " +:+ last_dset +:+ " -show_bands";
    "# 0" ]%string.

Definition cutplane_cmds (set_idx : nat) (cp_axis cp_pos file_base : string)
  : list string :=
  let plot := plot_of file_base in
  [ "select_plots {" +:+ plot +:+ "}";
    "# " +:+ plot;
    "create_cutplane -plot " +:+ plot +:+ " -type " +:+ cp_axis +:+ " -at " +:+ cp_pos;
    "# " +:+ cutplane_dset set_idx file_base ]%string.

Definition cutplane_plot_cmds (set_idx : nat) (file_base : string) : list string :=
  let cp_dset := cutplane_dset set_idx file_base in
  let plot := plot_of file_base in
  [ "create_plot -dataset " +:+ cp_dset +:+ " -ref_plot " +:+ plot;
    "select_plots {Plot_" +:+ cp_dset +:+ "}";
    "# Plot_" +:+ cp_dset; ""; "# Plot_" +:+ cp_dset ]%string.

Definition cutline_cmds (set_idx : nat) (cl_axis cl_pos file_base : string)
  : list string :=
  let cp_plot := "Plot_" +:+ cutplane_dset set_idx file_base in
  [ "select_plots {" +:+ cp_plot +:+ "}";
    "# " +:+ cp_plot;
    "create_cutline -plot " +:+ cp_plot +:+ " -type " +:+ cl_axis +:+ " -at " +:+ cl_pos;
    "# " +:+ cutline_dset set_idx file_base ]%string.

(** [for i, file_base in enumerate(file_bases_for_param)]: the cutlines, with
    [cl_pos = cl_positions[i % len(cl_positions)]]. *)
Definition cutline_loop (set_idx : nat) (cl_axis : string) (cl_positions : list string)
    (file_bases_for_param : list string) (cmds : list string) : outcome (list string) :=
  for_each (enumerate 0 file_bases_for_param)
    (fun cmds '(i, file_base) =>
       cl_pos <- index_mod cl_positions i ;;
       Ret (cmds ++ cutline_cmds set_idx cl_axis cl_pos file_base))
    cmds.

(** [f"Plot_C1(C{set_idx}({file_bases_for_param[0]}_des))_S{set_idx}P{param_idx}"] *)
Definition unified_plot_name (set_idx param_idx : nat) (fb0 : string) : string :=
  "Plot_" +:+ cutline_dset set_idx fb0 +:+ "_S" +:+ str_of_nat set_idx
    +:+ "P" +:+ str_of_nat param_idx.

Definition plot1d_cmds (first_cl_dset unified_1d_plot : string) : list string :=
  [ "create_plot -dataset " +:+ first_cl_dset +:+ " -1d";
    "select_plots {" +:+ unified_1d_plot +:+ "}";
    "# " +:+ unified_1d_plot; ""; "# " +:+ unified_1d_plot ]%string.

Definition curve_cmds (axis_x parameter cl_dset unified_1d_plot y_axis_type : string)
    (curve_counter : nat) : list string :=
  [ "create_curve -axisX " +:+ axis_x +:+ " -axisY " +:+ parameter
      +:+ " -dataset {" +:+ cl_dset +:+ "} -plot " +:+ unified_1d_plot;
    "# Curve_" +:+ str_of_nat curve_counter;
    "set_axis_prop -plot " +:+ unified_1d_plot +:+ " -axis y -type " +:+ y_axis_type;
    "set_axis_prop -plot " +:+ unified_1d_plot +:+ " -axis x -range {-0.9 9.0}";
    "# 0" ]%string.

(** The curve loop threads [cmds], [curves_for_this_plot] and [curve_counter]. *)
Definition curve_loop (set_idx : nat) (axis_x parameter unified_1d_plot y_axis_type : string)
    (file_bases_for_param : list string) (cmds : list string) (curve_counter : nat)
  : list string * list string * nat :=
  fold_left
    (fun '(cmds, curves_for_this_plot, curve_counter) file_base =>
       let cl_dset := cutline_dset set_idx file_base in
       (cmds ++ curve_cmds axis_x parameter cl_dset unified_1d_plot y_axis_type curve_counter,
        curves_for_this_plot ++ ["Curve_" +:+ str_of_nat curve_counter],
        S curve_counter))
    file_bases_for_param (cmds, [], curve_counter).

(** [f"{csv_export_path}{csv_filename}_set{set_idx}_param_{parameter}.csv"] *)
Definition csv_path_of (csv_export_path csv_filename : string) (set_idx : nat)
    (parameter : string) : string :=
  csv_export_path +:+ csv_filename +:+ "_set" +:+ str_of_nat set_idx
    +:+ "_param_" +:+ parameter +:+ ".csv".

Definition export_cmds (curves_for_this_plot : list string)
    (unified_1d_plot csv_full_path : string) : list string :=
  let curve_names := join " " curves_for_this_plot in
  [ "select_plots {" +:+ unified_1d_plot +:+ "}";
    "# " +:+ unified_1d_plot;
    "export_curves {" +:+ curve_names +:+ "} -plot " +:+ unified_1d_plot
      +:+ " -filename " +:+ csv_full_path +:+ " -format csv";
    "# " +:+ csv_full_path ]%string.

(** The file bases of one parameter before the optional last TDR:
    [for node in node_names: for code in tdr_codes]. *)
Definition node_file_bases (r : request) (parameter : string) : list string :=
  flat_map (fun _node => map (file_base_of (current_value r) parameter) (tdr_codes r))
           (node_names r).

(** [file_bases_for_param], or the [IndexError] of [node_names[0]]. *)
Definition file_bases (r : request) (parameter : string) : outcome (list string) :=
  if str_in (need_last_tdr r) ["yes"; "y"]%string then
    node0 <- first (node_names r) ;;
    last_prefix <- first (split "_"%char node0) ;;
    Ret (node_file_bases r parameter
           ++ [current_value r +:+ "_" +:+ parameter +:+ "_" +:+ last_prefix])
  else Ret (node_file_bases r parameter).

(** The loop state: [cmds], [unified_1d_plots] and [curve_counter]. *)
Definition state : Type := (list string * list string * nat)%type.

(** The body of [for param_idx, parameter in enumerate(parameters_list)]. *)
Definition process_parameter (r : request) (set_idx : nat) (cutset : cutset)
    (axis_x : string) (st : state) (ip : nat * string) : outcome state :=
  let '(cmds, unified_1d_plots, curve_counter) := st in
  let '(param_idx, parameter) := ip in
  let cp_axis := cutplane_axis cutset in
  let cp_pos := cutplane_position cutset in
  let cl_axis := cutline_axis cutset in
  let cl_positions := cutline_positions cutset in
  file_bases_for_param <- file_bases r parameter ;;
  let cmds := cmds ++ flat_map (load_cmds (base_path r)) file_bases_for_param in
  fb0 <- first file_bases_for_param ;;
  let cmds := cmds ++ link_cmds file_bases_for_param (plot_of fb0) in
  last_plot <- last_item (map plot_of file_bases_for_param) ;;
  let cmds := cmds ++ field_cmds parameter last_plot in
  let cmds := cmds ++ flat_map (cutplane_cmds set_idx cp_axis cp_pos) file_bases_for_param in
  let cmds := cmds ++ flat_map (cutplane_plot_cmds set_idx) file_bases_for_param in
  cmds <- cutline_loop set_idx cl_axis cl_positions file_bases_for_param cmds ;;
  let unified_1d_plot := unified_plot_name set_idx param_idx fb0 in
  let first_cl_dset := cutline_dset set_idx fb0 in
  let unified_1d_plots := unified_1d_plots ++ [unified_1d_plot] in
  let cmds := cmds ++ plot1d_cmds first_cl_dset unified_1d_plot in
  let '(cmds, curves_for_this_plot, curve_counter) :=
    curve_loop set_idx axis_x parameter unified_1d_plot (y_axis_type r)
               file_bases_for_param cmds curve_counter in
  let csv_full_path := csv_path_of (csv_export_path r) (csv_filename r) set_idx parameter in
  let cmds := cmds ++ export_cmds curves_for_this_plot unified_1d_plot csv_full_path in
  Ret (cmds, unified_1d_plots, curve_counter).

(** The body of [for set_idx, cutset in enumerate(cutplane_cutline_sets, start=1)]. *)
Definition process_set `{SetOrder} (r : request) (st : state) (ic : nat * cutset)
  : outcome state :=
  let '(set_idx, cutset) := ic in
  axis_x <- get_axis_mapping (cutplane_axis cutset) (cutline_axis cutset) ;;
  for_each (enumerate 0 (set_parameters cutset))
           (process_parameter r set_idx cutset axis_x) st.

(** Lines 135-280: the command list built from the collected values. *)
Definition emit `{SetOrder} (r : request) : outcome (list string) :=
  st <- for_each (enumerate 1 (cutplane_cutline_sets r)) (process_set r)
          (header, [], 1) ;;
  Ret (fst (fst st)).

Definition generate_mode1_commands `{SetOrder} (inp : list event)
  : outcome (list string) :=
  handle
    match collect inp with
    | Raise e => Raise e
    | Ret (None, _) => Ret []
    | Ret (Some r, _) => emit r
    end.

End Mode1.

(** ** Mode 2: different nodes with PLT files *)

Module Mode2.

Record request : Type := {
  base_path : string;
  plt_prefix : string;
  nodes_data : list (string * string);
  csv_export_path : string;
  csv_filename : string;
  plot_title : string;
  x_axis_title : string;
  y_axis_title : string;
  y2_axis_title : string;
  legend_x : string;
  legend_y : string;
  png_export_path : string
}.

(** [for i in range(num_nodes)]: a version and a node id per node. *)
Fixpoint input_nodes (n : nat) : io (list (string * string)) :=
  match n with
  | O => io_ret []
  | S k =>
      version <~ input ;;
      node_id <~ input ;;
      rest <~ input_nodes k ;;
      io_ret ((version, node_id) :: rest)
  end.

Definition collect : io request :=
  bp <~ input ;;
  let base_path := with_slash bp in
  plt_prefix <~ input ;;
  n <~ input ;;
  num_nodes <~ io_lift (py_int n) ;;
  nodes_data <~ input_nodes (range_len num_nodes) ;;
  cp <~ input ;;
  let csv_export_path := with_slash cp in
  csv_filename <~ input ;;
  plot_title <~ input ;;
  x_axis_title <~ input ;;
  y_axis_title <~ input ;;
  y2_axis_title <~ input ;;
  legend_x <~ input ;;
  legend_y <~ input ;;
  png_export_path <~ input ;;
  io_ret {| base_path := base_path;
            plt_prefix := plt_prefix;
            nodes_data := nodes_data;
            csv_export_path := csv_export_path;
            csv_filename := csv_filename;
            plot_title := plot_title;
            x_axis_title := x_axis_title;
            y_axis_title := y_axis_title;
            y2_axis_title := y2_axis_title;
            legend_x := legend_x;
            legend_y := legend_y;
            png_export_path := png_export_path |}.

Definition header : list string := banner ++ ["# "%string].

(** The double-quote character of the quoted titles. *)
Definition dq : string := String "034"%char EmptyString.

(** [f"{plt_prefix}_{version}_{node_id}_des"] *)
Definition dataset_of (plt_prefix : string) (vn : string * string) : string :=
  plt_prefix +:+ "_" +:+ fst vn +:+ "_" +:+ snd vn +:+ "_des".

Definition curve_name (i : nat) : string := "Curve_" +:+ str_of_nat i.

Definition colors : list string :=
  ["#ff0000"; "#00ff00"; "#0000ff"; "#ff8000"; "#800080"; "#008080"]%string.

Definition first_load_cmds (r : request) (first_pair : string * string) : list string :=
  let first_filename := dataset_of (plt_prefix r) first_pair +:+ ".plt" in
  let first_dataset := dataset_of (plt_prefix r) first_pair in
  [ "load_file " +:+ base_path r +:+ first_filename;
    "create_plot -1d";
    "select_plots {Plot_1}";
    "# Plot_1"; ""; "# Plot_1"; ""; "# " +:+ first_dataset ]%string.

Definition load_more_cmds (r : request) (vn : string * string) : list string :=
  let filename := dataset_of (plt_prefix r) vn +:+ ".plt" in
  let dataset := dataset_of (plt_prefix r) vn in
  [ "load_file " +:+ base_path r +:+ filename; "# " +:+ dataset ]%string.

Definition y_curves_cmds (all_datasets : string) (n : nat) : list string :=
  [ "create_curve -axisX time -axisY {drain OuterVoltage} -dataset {"
      +:+ all_datasets +:+ "} -plot Plot_1";
    "# " +:+ join " " (map curve_name (seq 1 n)) ]%string.

Definition y2_curves_cmds (all_datasets : string) (tmax_curve_start tmax_curve_end : nat)
  : list string :=
  [ "create_curve -axisX time -axisY2 Tmax -dataset {" +:+ all_datasets +:+ "} -plot Plot_1";
    "# " +:+ join " " (map curve_name
                          (seq tmax_curve_start (tmax_curve_end + 1 - tmax_curve_start))) ]%string.

Definition y2_style_cmds (curve_num : nat) (color : string) : list string :=
  [ "set_curve_prop {" +:+ curve_name curve_num +:+ "} -plot Plot_1 -line_style dash";
    "# 0";
    "set_curve_prop {" +:+ curve_name curve_num +:+ "} -plot Plot_1 -line_width 2";
    "# 0";
    "set_curve_prop {" +:+ curve_name curve_num +:+ "} -plot Plot_1 -color " +:+ color;
    "# 0";
    "set_curve_prop {" +:+ curve_name curve_num +:+ "} -plot Plot_1 -hide_legend";
    "# 0" ]%string.

(** [for i, _ in enumerate(nodes_data)] with [colors[i % len(colors)]]. *)
Definition y2_style_loop (tmax_curve_start : nat) (nodes_data : list (string * string))
    (cmds : list string) : outcome (list string) :=
  for_each (enumerate 0 nodes_data)
    (fun cmds '(i, _) =>
       let curve_num := tmax_curve_start + i in
       color <- index_mod colors i ;;
       Ret (cmds ++ y2_style_cmds curve_num color))
    cmds.

Definition y_style_cmds (curve_num : nat) : list string :=
  [ "set_curve_prop {" +:+ curve_name curve_num +:+ "} -plot Plot_1 -line_width 2";
    "# 0" ]%string.

Definition axis_title_cmds (r : request) : list string :=
  [ "set_axis_prop -plot Plot_1 -axis y2 -title " +:+ dq +:+ y2_axis_title r +:+ dq;
    "# 0";
    "set_axis_prop -plot Plot_1 -axis x -title " +:+ dq +:+ x_axis_title r +:+ dq;
    "# 0";
    "set_axis_prop -plot Plot_1 -axis y -title " +:+ dq +:+ y_axis_title r +:+ dq;
    "# 0" ]%string.

Definition plot_prop_cmds (r : request) : list string :=
  [ "set_plot_prop -plot {Plot_1} -title " +:+ dq +:+ plot_title r +:+ dq;
    "# 0";
    "set_plot_prop -plot {Plot_1} -frame_width 2";
    "# 0" ]%string.

Definition layout_cmds (r : request) : list string :=
  [ "set_legend_prop -plot Plot_1 -position {" +:+ legend_x r +:+ " " +:+ legend_y r +:+ "}";
    "# 0";
    "export_view {" +:+ png_export_path r +:+ "} -format png";
    "# 0";
    "move_plot -plot Plot_1 -position {0 0}";
    "# 0" ]%string.

Definition label_cmds (curve_num : nat) (version : string) : list string :=
  [ "set_curve_prop {" +:+ curve_name curve_num +:+ "} -plot Plot_1 -label "
      +:+ dq +:+ "drain OuterVoltage_" +:+ version +:+ dq;
    "# 0" ]%string.

Definition export_cmds (r : request) (n : nat) : list string :=
  let all_curves := join " " (map curve_name (seq 1 (n * 2))) in
  let csv_full_path := csv_export_path r +:+ csv_filename r +:+ ".csv" in
  [ "export_curves {" +:+ all_curves +:+ "} -plot Plot_1 -filename "
      +:+ csv_full_path +:+ " -format csv";
    "# " +:+ csv_full_path ]%string.

(** Lines 335-459: the command list built from the collected values. *)
Definition emit (r : request) : outcome (list string) :=
  let cmds := header in
  first_pair <- first (nodes_data r) ;;
  let cmds := cmds ++ first_load_cmds r first_pair in
  let cmds := cmds ++ flat_map (load_more_cmds r) (tl (nodes_data r)) in
  let all_datasets := join " " (map (dataset_of (plt_prefix r)) (nodes_data r)) in
  let n := List.length (nodes_data r) in
  let cmds := cmds ++ y_curves_cmds all_datasets n in
  let tmax_curve_start := n + 1 in
  let tmax_curve_end := n * 2 in
  let cmds := cmds ++ y2_curves_cmds all_datasets tmax_curve_start tmax_curve_end in
  cmds <- y2_style_loop tmax_curve_start (nodes_data r) cmds ;;
  let cmds := cmds ++ flat_map (fun '(i, _) => y_style_cmds (i + 1))
                               (enumerate 0 (nodes_data r)) in
  let cmds := cmds ++ axis_title_cmds r in
  let cmds := cmds ++ plot_prop_cmds r in
  let cmds := cmds ++ layout_cmds r in
  let cmds := cmds ++ flat_map (fun '(i, (version, _)) => label_cmds (i + 1) version)
                               (enumerate 0 (nodes_data r)) in
  let cmds := cmds ++ export_cmds r n in
  Ret cmds.

Definition generate_mode2_commands (inp : list event) : outcome (list string) :=
  handle
    match collect inp with
    | Raise e => Raise e
    | Ret (r, _) => emit r
    end.

End Mode2.

(** ** Mode 3: several cutplane/cutline/parameter sets over one list of TDRs *)

Module Mode3.

Record request : Type := {
  base_path : string;
  file_prefix : string;
  current_value : string;
  tdr_codes : list string;
  cutplane_cutline_sets : list cutset;
  y_axis_type : string;
  csv_export_path : string;
  csv_filename : string
}.

Definition collect : io (option request) :=
  t <~ input ;;
  no_of_tdrs <~ io_lift (py_int t) ;;
  bp <~ input ;;
  let base_path := with_slash bp in
  file_prefix <~ input ;;
  current_value <~ input ;;
  codes <~ input_times (range_len no_of_tdrs) ;;
  let tdr_codes := map format_tdr_code codes in
  sets <~ collect_sets tdr_codes [] ;;
  match sets with
  | None => io_ret None
  | Some cutplane_cutline_sets =>
      y_axis_type <~ read_y_axis_type ;;
      cp <~ input ;;
      let csv_export_path := with_slash cp in
      csv_filename <~ input ;;
      io_ret (Some {| base_path := base_path;
                      file_prefix := file_prefix;
                      current_value := current_value;
                      tdr_codes := tdr_codes;
                      cutplane_cutline_sets := cutplane_cutline_sets;
                      y_axis_type := y_axis_type;
                      csv_export_path := csv_export_path;
                      csv_filename := csv_filename |})
  end.

Definition header (set_idx : nat) (parameter : string) : list string :=
  banner ++ ["# --- Set " +:+ str_of_nat set_idx +:+ ", Parameter: " +:+ parameter +:+ " ---"].

(** [f"{current_value}_{parameter}_{code}_des"] *)
Definition dset_of (current_value parameter code : string) : string :=
  current_value +:+ "_" +:+ parameter +:+ "_" +:+ code +:+ "_des".

(** [f"C{set_parameter_counter}({current_value}_{parameter}_{code}_des)"] *)
Definition cutplane_dset (set_parameter_counter : nat) (dset : string) : string :=
  "C" +:+ str_of_nat set_parameter_counter +:+ "(" +:+ dset +:+ ")".

(** [f"C1(C{set_parameter_counter}({current_value}_{parameter}_{code}_des))"] *)
Definition cutline_dset (set_parameter_counter : nat) (dset : string) : string :=
  "C1(C" +:+ str_of_nat set_parameter_counter +:+ "(" +:+ dset +:+ "))".

Definition load_cmds (base_path dset : string) : list string :=
  let fname := dset +:+ ".tdr" in
  let plot := "Plot_" +:+ dset in
  [ "load_file " +:+ base_path +:+ fname +:+ " -fod";
    "create_plot -dataset " +:+ dset;
    "select_plots {" +:+ plot +:+ "}";
    "# " +:+ plot; ""; "# " +:+ plot; ""; "# " +:+ dset ]%string.

Definition link_cmds (first_plot all_plots : string) : list string :=
  [ "select_plots {" +:+ first_plot +:+ "}";
    "# " +:+ first_plot;
    "select_plots {" +:+ all_plots +:+ "}";
    "# " +:+ all_plots;
    "link_plots {" +:+ all_plots +:+ "}";
    "# 1" ]%string.

Definition field_cmds (parameter last_plot last_dset : string) : list string :=
  [ "set_field_prop " +:+ parameter +:+ " -plot " +:+ last_plot
      +:+ " -geom " +:+ last_dset +:+ " -show_bands";
    "# 0" ]%string.

Definition cutplane_cmds (set_parameter_counter : nat) (cp_axis cp_pos dset : string)
  : list string :=
  let plot := "Plot_" +:+ dset in
  [ "select_plots {" +:+ plot +:+ "}";
    "# " +:+ plot;
    "create_cutplane -plot " +:+ plot +:+ " -type " +:+ cp_axis +:+ " -at " +:+ cp_pos;
    "# " +:+ cutplane_dset set_parameter_counter dset ]%string.

Definition cutplane_plot_cmds (set_parameter_counter : nat) (dset : string) : list string :=
  let cp_dset := cutplane_dset set_parameter_counter dset in
  let plot := "Plot_" +:+ dset in
  [ "create_plot -dataset " +:+ cp_dset +:+ " -ref_plot " +:+ plot;
    "select_plots {Plot_" +:+ cp_dset +:+ "}";
    "# Plot_" +:+ cp_dset; ""; "# Plot_" +:+ cp_dset ]%string.

Definition cutline_cmds (set_parameter_counter : nat) (cl_axis cl_pos dset : string)
  : list string :=
  let cp_plot := "Plot_" +:+ cutplane_dset set_parameter_counter dset in
  [ "select_plots {" +:+ cp_plot +:+ "}";
    "# " +:+ cp_plot;
    "create_cutline -plot " +:+ cp_plot +:+ " -type " +:+ cl_axis +:+ " -at " +:+ cl_pos;
    "# " +:+ cutline_dset set_parameter_counter dset ]%string.

(** [for tdr_idx, code in enumerate(tdr_codes)]: the cutlines, with
    [cl_pos = cl_positions[tdr_idx]]. *)
Definition cutline_loop (set_parameter_counter : nat) (cl_axis : string)
    (cl_positions : list string) (dsets : list string) (cmds : list string)
  : outcome (list string) :=
  for_each (enumerate 0 dsets)
    (fun cmds '(tdr_idx, dset) =>
       cl_pos <- item cl_positions tdr_idx ;;
       Ret (cmds ++ cutline_cmds set_parameter_counter cl_axis cl_pos dset))
    cmds.

Definition plot1d_cmds (first_cl_dset plot1d_name : string) : list string :=
  [ "create_plot -dataset " +:+ first_cl_dset +:+ " -1d";
    "select_plots {" +:+ plot1d_name +:+ "}";
    "# " +:+ plot1d_name; ""; "# " +:+ plot1d_name ]%string.

Definition curve_cmds (axis_x parameter cl_dset plot1d_name y_axis_type : string)
    (tdr_idx : nat) : list string :=
  [ "create_curve -axisX " +:+ axis_x +:+ " -axisY " +:+ parameter
      +:+ " -dataset {" +:+ cl_dset +:+ "} -plot " +:+ plot1d_name;
    "# Curve_" +:+ str_of_nat (tdr_idx + 1);
    "set_axis_prop -plot " +:+ plot1d_name +:+ " -axis y -type " +:+ y_axis_type;
    "set_axis_prop -plot " +:+ plot1d_name +:+ " -axis x -range {-0.9 9.0}";
    "# 0" ]%string.

(** [f"{csv_export_path}{csv_filename}_set{set_idx}_param{param_idx+1}_{parameter}.csv"] *)
Definition csv_path_of (csv_export_path csv_filename : string) (set_idx param_idx : nat)
    (parameter : string) : string :=
  csv_export_path +:+ csv_filename +:+ "_set" +:+ str_of_nat set_idx
    +:+ "_param" +:+ str_of_nat (param_idx + 1) +:+ "_" +:+ parameter +:+ ".csv".

Definition export_cmds (n : nat) (plot1d_name csv_full_path : string) : list string :=
  let all_curve_names := join " " (map (fun i => "Curve_" +:+ str_of_nat (i + 1)) (seq 0 n)) in
  [ "select_plots {" +:+ plot1d_name +:+ "}";
    "# " +:+ plot1d_name;
    "export_curves {" +:+ all_curve_names +:+ "} -plot " +:+ plot1d_name
      +:+ " -filename " +:+ csv_full_path +:+ " -format csv";
    "# " +:+ csv_full_path ]%string.

(** The loop state: [cmds], [plot_names] and [set_parameter_counter]. *)
Definition state : Type := (list string * list string * nat)%type.

(** The body of [for param_idx, parameter in enumerate(cutset['parameters'])]. *)
Definition process_parameter `{SetOrder} (r : request) (set_idx : nat) (cutset : cutset)
    (st : state) (ip : nat * string) : outcome state :=
  let '(cmds, plot_names, set_parameter_counter) := st in
  let '(param_idx, parameter) := ip in
  let set_parameter_counter := set_parameter_counter + 1 in
  let cp_axis := cutplane_axis cutset in
  let cp_pos := cutplane_position cutset in
  let cl_axis := cutline_axis cutset in
  let cl_positions := cutline_positions cutset in
  axis_x <- get_axis_mapping cp_axis cl_axis ;;
  let cmds := cmds ++ header set_idx parameter in
  let dsets := map (dset_of (current_value r) parameter) (tdr_codes r) in
  let cmds := cmds ++ flat_map (load_cmds (base_path r)) dsets in
  code0 <- first (tdr_codes r) ;;
  let first_plot := "Plot_" +:+ dset_of (current_value r) parameter code0 in
  let all_plots := join " " (map (fun dset => "Plot_" +:+ dset) dsets) in
  let cmds := cmds ++ link_cmds first_plot all_plots in
  code_last <- last_item (tdr_codes r) ;;
  let last_dset := dset_of (current_value r) parameter code_last in
  let last_plot := "Plot_" +:+ last_dset in
  let cmds := cmds ++ field_cmds parameter last_plot last_dset in
  let cmds := cmds ++ flat_map (cutplane_cmds set_parameter_counter cp_axis cp_pos) dsets in
  let cmds := cmds ++ flat_map (cutplane_plot_cmds set_parameter_counter) dsets in
  cmds <- cutline_loop set_parameter_counter cl_axis cl_positions dsets cmds ;;
  let first_cl_dset :=
    cutline_dset set_parameter_counter (dset_of (current_value r) parameter code0) in
  let plot1d_name := "Plot_" +:+ first_cl_dset in
  let plot_names := plot_names ++ [plot1d_name] in
  let cmds := cmds ++ plot1d_cmds first_cl_dset plot1d_name in
  let cmds := cmds ++ flat_map
                (fun '(tdr_idx, dset) =>
                   curve_cmds axis_x parameter (cutline_dset set_parameter_counter dset)
                              plot1d_name (y_axis_type r) tdr_idx)
                (enumerate 0 dsets) in
  let csv_full_path :=
    csv_path_of (csv_export_path r) (csv_filename r) set_idx param_idx parameter in
  let cmds := cmds ++ export_cmds (List.length (tdr_codes r)) plot1d_name csv_full_path in
  Ret (cmds, plot_names, set_parameter_counter).

(** The body of [for set_idx, cutset in enumerate(cutplane_cutline_sets, start=1)]. *)
Definition process_set `{SetOrder} (r : request) (st : state) (ic : nat * cutset)
  : outcome state :=
  let '(set_idx, cutset) := ic in
  for_each (enumerate 0 (set_parameters cutset)) (process_parameter r set_idx cutset) st.

(** Lines 559-682: the command list built from the collected values. *)
Definition emit `{SetOrder} (r : request) : outcome (list string) :=
  st <- for_each (enumerate 1 (cutplane_cutline_sets r)) (process_set r) ([], [], 0) ;;
  Ret (fst (fst st)).

Definition generate_mode3_commands `{SetOrder} (inp : list event)
  : outcome (list string) :=
  handle
    match collect inp with
    | Raise e => Raise e
    | Ret (None, _) => Ret []
    | Ret (Some r, _) => emit r
    end.

(** The (set, parameter) pairs in iteration order, each with its set index
    (counted from [start]), its set and its index within the set (from 0). *)
Definition pairs_from (start : nat) (sets : list cutset)
  : list (nat * cutset * nat * string) :=
  flat_map (fun ic : nat * cutset =>
              map (fun ip : nat * string => (fst ic, snd ic, fst ip, snd ip))
                  (enumerate 0 (set_parameters (snd ic))))
           (enumerate start sets).

(** As the generator walks them: [enumerate(cutplane_cutline_sets, start=1)]. *)
Definition pairs (sets : list cutset) : list (nat * cutset * nat * string) :=
  pairs_from 1 sets.

(** The axis a set puts on the X axis of its curves. *)
Definition axis_of `{SetOrder} (c : cutset) : string :=
  match get_axis_mapping (cutplane_axis c) (cutline_axis c) with
  | Ret a => a
  | Raise _ => EmptyString
  end.

(** The lines of one (set, parameter) pair, in the order of the loop body,
    for the value [counter] that [set_parameter_counter] has in that pass. *)
Definition pair_cmds `{SetOrder} (r : request) (counter : nat)
    (x : nat * cutset * nat * string) : list string :=
  let '(set_idx, c, param_idx, parameter) := x in
  let dsets := map (dset_of (current_value r) parameter) (tdr_codes r) in
  let code0 := hd EmptyString (tdr_codes r) in
  let code_last := last (tdr_codes r) EmptyString in
  let first_cl_dset := cutline_dset counter (dset_of (current_value r) parameter code0) in
  let plot1d_name := "Plot_" +:+ first_cl_dset in
  header set_idx parameter
  ++ flat_map (load_cmds (base_path r)) dsets
  ++ link_cmds ("Plot_" +:+ dset_of (current_value r) parameter code0)
               (join " " (map (fun dset => "Plot_" +:+ dset) dsets))
  ++ field_cmds parameter ("Plot_" +:+ dset_of (current_value r) parameter code_last)
                (dset_of (current_value r) parameter code_last)
  ++ flat_map (cutplane_cmds counter (cutplane_axis c) (cutplane_position c)) dsets
  ++ flat_map (cutplane_plot_cmds counter) dsets
  ++ flat_map (fun ix : nat * string =>
                 cutline_cmds counter (cutline_axis c)
                   (nth (fst ix) (cutline_positions c) EmptyString) (snd ix))
              (enumerate 0 dsets)
  ++ plot1d_cmds first_cl_dset plot1d_name
  ++ flat_map (fun ix : nat * string =>
                 curve_cmds (axis_of c) parameter (cutline_dset counter (snd ix))
                            plot1d_name (y_axis_type r) (fst ix))
              (enumerate 0 dsets)
  ++ export_cmds (List.length (tdr_codes r)) plot1d_name
       (csv_path_of (csv_export_path r) (csv_filename r) set_idx param_idx parameter).

End Mode3.

(** ** Concrete runs

    Input scripts and requests on which the model is evaluated. *)

Definition typed (lines : list string) : list event := map Line lines.

(** Mode 2 with a node count of zero. *)
Definition mode2_zero_nodes_input : list event :=
  typed [ "/sim"; "DeMOS"; "0"; "/out"; "curves"; "Title"; "Time"; "Voltage";
          "Temperature"; "0.07"; "0.92"; "/tmp/plot.png" ]%string.

Definition mode2_zero_nodes_request : Mode2.request :=
  {| Mode2.base_path := "/sim/";
     Mode2.plt_prefix := "DeMOS";
     Mode2.nodes_data := [];
     Mode2.csv_export_path := "/out/";
     Mode2.csv_filename := "curves";
     Mode2.plot_title := "Title";
     Mode2.x_axis_title := "Time";
     Mode2.y_axis_title := "Voltage";
     Mode2.y2_axis_title := "Temperature";
     Mode2.legend_x := "0.07";
     Mode2.legend_y := "0.92";
     Mode2.png_export_path := "/tmp/plot.png" |}.

(** Mode 2 with two nodes. *)
Definition mode2_two_nodes_request : Mode2.request :=
  {| Mode2.base_path := "/sim/";
     Mode2.plt_prefix := "DeMOS";
     Mode2.nodes_data := [("4.5", "n1250"); ("4.6", "n1251")]%string;
     Mode2.csv_export_path := "/out/";
     Mode2.csv_filename := "curves";
     Mode2.plot_title := "Title";
     Mode2.x_axis_title := "Time";
     Mode2.y_axis_title := "Voltage";
     Mode2.y2_axis_title := "Temperature";
     Mode2.legend_x := "0.07";
     Mode2.legend_y := "0.92";
     Mode2.png_export_path := "/tmp/plot.png" |}.

(** Mode 1, two nodes and two TDR codes, no last TDR, one set, one parameter. *)
Definition mode1_two_by_two_request : Mode1.request :=
  {| Mode1.node_names := ["n1257_I4.6"; "n1258_I4.6"];
     Mode1.tdr_codes := ["0001"; "0002"];
     Mode1.need_last_tdr := "no";
     Mode1.base_path := "/sim/";
     Mode1.current_value := "5e-6";
     Mode1.cutplane_cutline_sets :=
       [ {| cutplane_axis := "x"; cutplane_position := "0.5";
            cutline_axis := "y"; cutline_positions := ["0.1"; "0.2"];
            set_parameters := ["eDensity"] |} ];
     Mode1.y_axis_type := "log";
     Mode1.csv_export_path := "/out/";
     Mode1.csv_filename := "run" |}.

Definition mode1_two_by_two_input : list event :=
  typed [ "2"; "n1257_I4.6"; "n1258_I4.6"; "2"; "1"; "2"; "no"; "/sim"; "5e-6";
          "x"; "0.5"; "y"; "0.1"; "0.2"; "eDensity"; "no"; ""; "/out"; "run" ].



(** Mode 1 where the first set entry names a parameter outside the
    enumeration (X) and the entry typed after it is valid. *)
Definition mode1_unlisted_then_listed_input : list event :=
  typed [ "1"; "n1257_I4.6"; "1"; "1"; "no"; "/sim"; "5e-6";
          "x"; "0.5"; "y"; "0.1"; "eDensity, X";
          "x"; "0.5"; "y"; "0.1"; "eDensity"; "no";
          ""; "/out"; "run" ].

(** Mode 3 with the same two entries. *)
Definition mode3_unlisted_then_listed_input : list event :=
  typed [ "1"; "/sim"; "n1278_I5_"; "5e-6"; "1";
          "x"; "0.5"; "y"; "0.1"; "eDensity, X";
          "x"; "0.5"; "y"; "0.1"; "eDensity"; "no";
          ""; "/out"; "run" ].

(** Mode 1 where the second set entry has equal axes. *)
Definition mode1_same_axis_input : list event :=
  typed [ "1"; "n1257_I4.6"; "1"; "1"; "no"; "/sim"; "5e-6";
          "x"; "0.5"; "y"; "0.1"; "eDensity"; "yes";
          "z"; "0.5"; "Z" ].

(** Mode 3, three TDR codes and two sets with one parameter each. *)
Definition mode3_two_sets_request : Mode3.request :=
  {| Mode3.base_path := "/sim/";
     Mode3.file_prefix := "n1278_I5_";
     Mode3.current_value := "5e-6";
     Mode3.tdr_codes := ["0000"; "0001"; "0002"];
     Mode3.cutplane_cutline_sets :=
       [ {| cutplane_axis := "x"; cutplane_position := "0.5";
            cutline_axis := "y"; cutline_positions := ["0.1"; "0.2"; "0.3"];
            set_parameters := ["eDensity"] |};
         {| cutplane_axis := "z"; cutplane_position := "1.5";
            cutline_axis := "x"; cutline_positions := ["0.4"; "0.5"; "0.6"];
            set_parameters := ["hDensity"] |} ];
     Mode3.y_axis_type := "log";
     Mode3.csv_export_path := "/out/";
     Mode3.csv_filename := "run" |}.

Definition mode3_two_sets_input : list event :=
  typed [ "3"; "/sim"; "n1278_I5_"; "5e-6"; "0"; "1"; "2";
          "x"; "0.5"; "y"; "0.1"; "0.2"; "0.3"; "eDensity"; "yes";
          "z"; "1.5"; "x"; "0.4"; "0.5"; "0.6"; "hDensity"; "no";
          ""; "/out"; "run" ].

(** The answers a user types up to the set loop of Mode 1, followed by the
    rest of the input. *)
Definition mode1_answers (n : string) (node_names : list string) (t : string)
    (codes : list string) (need bp cv : string) (rest : list event) : list event :=
  Line n :: map Line node_names
    ++ Line t :: map Line codes ++ Line need :: Line bp :: Line cv :: rest.

(** The same for Mode 3. *)
Definition mode3_answers (t bp fp cv : string) (codes : list string)
    (rest : list event) : list event :=
  Line t :: Line bp :: Line fp :: Line cv :: map Line codes ++ rest.

(** The answers to an axis prompt: any number of answers that are not an
    axis, each asked again, then the answer [a]. *)
Definition axis_answers (invalid : list string) (a : string) (rest : list event)
  : list event :=
  map Line invalid ++ Line a :: rest.

(** The answers of one pass of the set loop up to its second axis. *)
Definition axes_answers (invalid_a : list string) (a pos : string)
    (invalid_b : list string) (b : string) (rest : list event) : list event :=
  axis_answers invalid_a a (Line pos :: axis_answers invalid_b b rest).

(** The answers of one pass of the set loop that gets as far as the
    parameters: two axes, the cutplane position, a cutline position per TDR
    code and the parameter text. *)
Definition set_answers (invalid_a : list string) (a pos : string)
    (invalid_b : list string) (b : string) (positions : list string) (params : string)
    (rest : list event) : list event :=
  axes_answers invalid_a a pos invalid_b b (map Line positions ++ Line params :: rest).

(** [invalid_params = [p for p in param_list if p not in parameters]] *)
Definition invalid_params_of (params : string) : list string :=
  filter (fun p => negb (str_in p parameters)) (parse_parameters params).

(** Another possible iteration order of a set: the reverse of the listing. *)
Definition reversed_order : SetOrder := {|
  set_iter := fun l => List.rev l;
  set_iter_perm := fun l => Permutation_sym (Permutation_rev l)
|}.

(** A name as [parse_parameters] leaves it: not empty, without a comma, and
    without white space at either end. *)
Definition clean_parameter (p : string) : Prop :=
  truthy p = true
  /\ has_no ","%char p = true
  /\ starts_with_space p = false
  /\ ends_with_space p = false.

(** A Mode 3 request with another file prefix, everything else kept. *)
Definition with_file_prefix (r : Mode3.request) (file_prefix : string) : Mode3.request :=
  {| Mode3.base_path := Mode3.base_path r;
     Mode3.file_prefix := file_prefix;
     Mode3.current_value := Mode3.current_value r;
     Mode3.tdr_codes := Mode3.tdr_codes r;
     Mode3.cutplane_cutline_sets := Mode3.cutplane_cutline_sets r;
     Mode3.y_axis_type := Mode3.y_axis_type r;
     Mode3.csv_export_path := Mode3.csv_export_path r;
     Mode3.csv_filename := Mode3.csv_filename r |}.

(** ** Mode 1 as a whole: the lines of a pair and of a run of pairs *)

(** [need_last_tdr in ['yes', 'y']] *)
Definition wants_last_tdr (r : Mode1.request) : bool :=
  str_in (Mode1.need_last_tdr r) ["yes"; "y"].

(** [node_names[0].split('_')[0]] for a list of nodes that is not empty. *)
Definition last_prefix_of (nodes : list string) : string :=
  hd EmptyString (split "_"%char (hd EmptyString nodes)).

(** The file bases of a parameter when there is a node to take the prefix from. *)
Definition mode1_file_bases_of (r : Mode1.request) (parameter : string) : list string :=
  Mode1.node_file_bases r parameter
  ++ (if wants_last_tdr r
      then [Mode1.current_value r +:+ "_" +:+ parameter +:+ "_"
              +:+ last_prefix_of (Mode1.node_names r)]
      else []).

(** How many files each parameter loads: one per node and TDR code, and the
    last TDR when asked for. *)
Definition mode1_files_per_parameter (r : Mode1.request) : nat :=
  List.length (Mode1.tdr_codes r) * List.length (Mode1.node_names r)
  + (if wants_last_tdr r then 1 else 0).

(** The [export_curves] line of a pair whose first curve has number [counter]. *)
Definition mode1_export_line (r : Mode1.request) (counter : nat)
    (x : nat * cutset * nat * string) : string :=
  let '(set_idx, c, param_idx, parameter) := x in
  let fbs := mode1_file_bases_of r parameter in
  "export_curves {"
    +:+ join " " (map (fun i => "Curve_" +:+ str_of_nat i) (seq counter (List.length fbs)))
    +:+ "} -plot " +:+ Mode1.unified_plot_name set_idx param_idx (hd EmptyString fbs)
    +:+ " -filename "
    +:+ Mode1.csv_path_of (Mode1.csv_export_path r) (Mode1.csv_filename r) set_idx parameter
    +:+ " -format csv".

(** The lines of one (set, parameter) pair, in the order of the loop body,
    when [curve_counter] has the value [counter] on entry. *)
Definition mode1_pair_cmds `{SetOrder} (r : Mode1.request) (counter : nat)
    (x : nat * cutset * nat * string) : list string :=
  let '(set_idx, c, param_idx, parameter) := x in
  let fbs := mode1_file_bases_of r parameter in
  let fb0 := hd EmptyString fbs in
  let plot := Mode1.unified_plot_name set_idx param_idx fb0 in
  flat_map (load_cmds (Mode1.base_path r)) fbs
  ++ Mode1.link_cmds fbs (Mode1.plot_of fb0)
  ++ Mode1.field_cmds parameter (Mode1.plot_of (last fbs fb0))
  ++ flat_map (Mode1.cutplane_cmds set_idx (cutplane_axis c) (cutplane_position c)) fbs
  ++ flat_map (Mode1.cutplane_plot_cmds set_idx) fbs
  ++ flat_map (fun ix : nat * string =>
                 Mode1.cutline_cmds set_idx (cutline_axis c)
                   (nth (fst ix mod List.length (cutline_positions c))
                        (cutline_positions c) EmptyString)
                   (snd ix))
              (enumerate 0 fbs)
  ++ Mode1.plot1d_cmds (Mode1.cutline_dset set_idx fb0) plot
  ++ flat_map (fun ix : nat * string =>
                 Mode1.curve_cmds (Mode3.axis_of c) parameter
                   (Mode1.cutline_dset set_idx (snd ix)) plot
                   (Mode1.y_axis_type r) (fst ix))
              (enumerate counter fbs)
  ++ Mode1.export_cmds
       (map (fun i => "Curve_" +:+ str_of_nat i) (seq counter (List.length fbs)))
       plot
       (Mode1.csv_path_of (Mode1.csv_export_path r) (Mode1.csv_filename r)
                          set_idx parameter).

(** The lines of successive pairs, the counter moving on by the number of
    files of a parameter after each. *)
Fixpoint mode1_pairs_cmds `{SetOrder} (r : Mode1.request) (counter : nat)
    (prs : list (nat * cutset * nat * string)) : list string :=
  match prs with
  | [] => []
  | x :: rest =>
      mode1_pair_cmds r counter x
      ++ mode1_pairs_cmds r (counter + mode1_files_per_parameter r) rest
  end.

(** A Mode 1 request with other node names, everything else kept. *)
Definition with_node_names (r : Mode1.request) (node_names : list string)
  : Mode1.request :=
  {| Mode1.node_names := node_names;
     Mode1.tdr_codes := Mode1.tdr_codes r;
     Mode1.need_last_tdr := Mode1.need_last_tdr r;
     Mode1.base_path := Mode1.base_path r;
     Mode1.current_value := Mode1.current_value r;
     Mode1.cutplane_cutline_sets := Mode1.cutplane_cutline_sets r;
     Mode1.y_axis_type := Mode1.y_axis_type r;
     Mode1.csv_export_path := Mode1.csv_export_path r;
     Mode1.csv_filename := Mode1.csv_filename r |}.

(** Mode 1, one node, two TDR codes, one set with two parameters. *)
Definition mode1_two_parameters_request : Mode1.request :=
  {| Mode1.node_names := ["n1257_I4.6"];
     Mode1.tdr_codes := ["0001"; "0002"];
     Mode1.need_last_tdr := "no";
     Mode1.base_path := "/sim/";
     Mode1.current_value := "5e-6";
     Mode1.cutplane_cutline_sets :=
       [ {| cutplane_axis := "x"; cutplane_position := "0.5";
            cutline_axis := "y"; cutline_positions := ["0.1"; "0.2"];
            set_parameters := ["eDensity"; "hDensity"] |} ];
     Mode1.y_axis_type := "log";
     Mode1.csv_export_path := "/out/";
     Mode1.csv_filename := "run" |}.

(** ** The workflow around the generators

    [run_single_workflow]: the mode is read, one generator runs, and when it
    returned commands they are printed and, on request, written to a file.
    The result of the model is the value returned and the file the call
    leaves behind, if any, as name and content.  Opening the file or writing
    to it can fail; the function catches that error (lines 739-740), and
    the value returned is the same. *)

(** What becomes of the write at lines 735-737. *)
Inductive write_outcome : Type :=
| OpenFails                    (* [open] raises: no file is made *)
| WriteFails (written : nat)   (* a [write] raises: the text stops early *)
| Written.                     (* every line is written *)

(** The file system as lines 735-737 meet it: the outcome of writing a text
    under a name. *)
Class FileSystem : Type := {
  write_file : string -> string -> write_outcome
}.

(** A file system on which opening the file with the empty name fails and
    every other write goes through. *)
Definition refusing_empty_name : FileSystem :=
  {| write_file := fun fname _ =>
                     if String.eqb fname EmptyString then OpenFails else Written |}.

(** The first [n] characters of [s], all of [s] when it is shorter. *)
Fixpoint str_take (n : nat) (s : string) : string :=
  match n, s with
  | S k, String c r => String c (str_take k r)
  | _, _ => EmptyString
  end.

Record workflow_result : Type := {
  completed : bool;
  saved : option (string * string)
}.

Definition not_completed : workflow_result :=
  {| completed := false; saved := None |}.

Definition newline : string := String "010"%char EmptyString.

(** [for cmd in commands: f.write(cmd + "\n")] *)
Fixpoint file_text (commands : list string) : string :=
  match commands with
  | [] => EmptyString
  | cmd :: rest => (cmd +:+ newline) +:+ file_text rest
  end.

(** Lines 734-740: the file left behind by
    [try: with open(fname, 'w') as f: ... except Exception: print(...)]. *)
Definition save_commands `{FileSystem} (fname : string) (commands : list string)
  : option (string * string) :=
  match write_file fname (file_text commands) with
  | OpenFails => None
  | WriteFails written => Some (fname, str_take written (file_text commands))
  | Written => Some (fname, file_text commands)
  end.

(** Lines 721-742: what follows the generator, on the input it left. *)
Definition after_generation `{FileSystem} (commands : list string) (rest : list event)
  : outcome workflow_result :=
  match commands with
  | [] => Ret not_completed
  | _ :: _ =>
      match input rest with
      | Raise e => Raise e
      | Ret (save, rest') =>
          if String.eqb (lower save) "y" then
            match input rest' with
            | Raise e => Raise e
            | Ret (fname, _) =>
                Ret {| completed := true; saved := save_commands fname commands |}
            end
          else Ret {| completed := true; saved := None |}
      end
  end.

(** A generator seen from its caller: the handled exceptions have become
    the empty list, the others pass.  [rest] is the input the generator left;
    it is read only when there are commands, that is, only after a run
    without exception. *)
Definition generated `{FileSystem} (body : outcome (list string)) (rest : list event)
  : outcome workflow_result :=
  match handle body with
  | Raise e => Raise e
  | Ret commands => after_generation commands rest
  end.

(** The handler of [run_single_workflow]:
    [except (ValueError, KeyboardInterrupt): return False]. *)
Definition handle_workflow (body : outcome workflow_result) : outcome workflow_result :=
  match body with
  | Raise ValueError => Ret not_completed
  | Raise KeyboardInterrupt => Ret not_completed
  | other => other
  end.

Definition run_single_workflow `{SetOrder} `{FileSystem} (inp : list event)
  : outcome workflow_result :=
  handle_workflow
    match input inp with
    | Raise e => Raise e
    | Ret (mode, rest) =>
        if String.eqb mode "1" then
          match Mode1.collect rest with
          | Raise e => generated (Raise e) []
          | Ret (None, rest') => generated (Ret []) rest'
          | Ret (Some r, rest') => generated (Mode1.emit r) rest'
          end
        else if String.eqb mode "2" then
          match Mode2.collect rest with
          | Raise e => generated (Raise e) []
          | Ret (r, rest') => generated (Mode2.emit r) rest'
          end
        else if String.eqb mode "3" then
          match Mode3.collect rest with
          | Raise e => generated (Raise e) []
          | Ret (None, rest') => generated (Ret []) rest'
          | Ret (Some r, rest') => generated (Mode3.emit r) rest'
          end
        else Ret not_completed
    end.

(** A run of the selected generator that got through its dialogue: the
    commands it returns and the input it leaves to its caller. *)
Inductive commands_of `{SetOrder}
  : string -> list event -> list string -> list event -> Prop :=
| commands_of_mode1 (inp rest : list event) (r : Mode1.request) (cmds : list string) :
    Mode1.collect inp = Ret (Some r, rest) ->
    Mode1.emit r = Ret cmds ->
    commands_of "1" inp cmds rest
| commands_of_mode2 (inp rest : list event) (r : Mode2.request) (cmds : list string) :
    Mode2.collect inp = Ret (r, rest) ->
    Mode2.emit r = Ret cmds ->
    commands_of "2" inp cmds rest
| commands_of_mode3 (inp rest : list event) (r : Mode3.request) (cmds : list string) :
    Mode3.collect inp = Ret (Some r, rest) ->
    Mode3.emit r = Ret cmds ->
    commands_of "3" inp cmds rest.

(** The Mode 2 dialogue with two nodes, followed by the answers to the
    prompts of the workflow. *)
Definition mode2_two_nodes_input : list event :=
  typed [ "/sim"; "DeMOS"; "2"; "4.5"; "n1250"; "4.6"; "n1251"; "/out"; "curves";
          "Title"; "Time"; "Voltage"; "Temperature"; "0.07"; "0.92"; "/tmp/plot.png" ]%string.

(** * Properties *)

(** ** Strings *)

Lemma append_nil_r (s : string) : s +:+ EmptyString = s.
Proof. induction s as [|c s IH]; simpl; [reflexivity | now rewrite IH]. Qed.

Lemma append_assoc (a b c : string) : (a +:+ b) +:+ c = a +:+ b +:+ c.
Proof. induction a as [|x a IH]; simpl; [reflexivity | now rewrite IH]. Qed.

Lemma length_append (a b : string) :
  String.length (a +:+ b) = String.length a + String.length b.
Proof. induction a as [|x a IH]; simpl; [reflexivity | now rewrite IH]. Qed.

Lemma str_forall_append (p : ascii -> bool) (a b : string) :
  str_forall p (a +:+ b) = str_forall p a && str_forall p b.
Proof.
  induction a as [|x a IH]; simpl; [reflexivity |].
  now rewrite IH, andb_assoc.
Qed.

Lemma startswith_append (p s : string) : startswith p (p +:+ s) = true.
Proof.
  induction p as [|c p IH]; simpl; [reflexivity |].
  now rewrite Ascii.eqb_refl, IH.
Qed.

Lemma is_digit_not_sign (c : ascii) : is_digit c = true -> is_sign c = false.
Proof.
  destruct c as [[] [] [] [] [] [] [] []]; vm_compute; intro H;
    first [reflexivity | discriminate H].
Qed.

(** ** Naming utility *)

Lemma zfill_two_digits (s : string) :
  is_digits s = true -> String.length s <= 2 -> zfill 2 s = zeroPad_spec 2 s.
Proof.
  intros Hd Hl.
  destruct s as [|a [|b [|c r]]]; simpl in Hl; try lia; try reflexivity.
  unfold zfill, zeroPad_spec; simpl.
  unfold is_digits in Hd. simpl in Hd.
  apply andb_prop in Hd. destruct Hd as [Hd _].
  now rewrite (is_digit_not_sign a Hd).
Qed.

(** C7.  For a string of at most two characters, all of them decimal digits,
    [format_tdr_code] is "00" followed by the string padded with zeros to two
    digits; the result has exactly four characters, all digits, the first two
    being "00".  In particular "2" gives "0002" and "15" gives "0015". *)
Theorem format_tdr_code_two_digit_input (s : string) :
  is_digits s = true ->
  String.length s <= 2 ->
  format_tdr_code s = "00" +:+ zeroPad_spec 2 s
  /\ String.length (format_tdr_code s) = 4
  /\ is_digits (format_tdr_code s) = true
  /\ startswith "00" (format_tdr_code s) = true
  /\ format_tdr_code "2" = "0002"%string
  /\ format_tdr_code "15" = "0015"%string.
Proof.
  intros Hd Hl.
  unfold format_tdr_code. rewrite (zfill_two_digits s Hd Hl).
  split; [reflexivity |].
  split.
  { unfold zeroPad_spec. rewrite !length_append.
    destruct s as [|a [|b [|c r]]]; simpl in *; lia. }
  split.
  { unfold zeroPad_spec, is_digits in *. rewrite !str_forall_append, Hd.
    destruct s as [|a [|b [|c r]]]; simpl in Hl; try lia; reflexivity. }
  repeat split; reflexivity.
Qed.

Lemma format_tdr_code_two_digit_input_witness :
  format_tdr_code "7" = "00" +:+ zeroPad_spec 2 "7"
  /\ String.length (format_tdr_code "7") = 4
  /\ is_digits (format_tdr_code "7") = true
  /\ startswith "00" (format_tdr_code "7") = true
  /\ format_tdr_code "2" = "0002"%string
  /\ format_tdr_code "15" = "0015"%string.
Proof.
  apply (format_tdr_code_two_digit_input "7"); [reflexivity | simpl; lia].
Defined.

Lemma set_iter_singleton `{SetOrder} (x : string) : set_iter [x] = [x].
Proof. apply Permutation_length_1_inv, Permutation_sym, set_iter_perm. Qed.

Lemma set_iter_not_nil `{SetOrder} (l : list string) : l <> [] -> set_iter l <> [].
Proof.
  intros Hl He. apply Hl.
  apply Permutation_nil. rewrite <- He. apply set_iter_perm.
Qed.

(** Two axes removed from three leave at least one: the lookup [[0]] is safe,
    and what it returns is one of X, Y, Z and neither of the removed ones. *)
Lemma get_axis_mapping_returns `{SetOrder} (a b : string) :
  exists c, get_axis_mapping a b = Ret c
            /\ In c all_axes /\ c <> upper a /\ c <> upper b.
Proof.
  unfold get_axis_mapping.
  assert (Hne : set_diff all_axes [upper a; upper b] <> []).
  { unfold set_diff, all_axes, str_in. cbn [filter existsb].
    destruct (String.eqb_spec "X" (upper a)), (String.eqb_spec "X" (upper b)),
             (String.eqb_spec "Y" (upper a)), (String.eqb_spec "Y" (upper b)),
             (String.eqb_spec "Z" (upper a)), (String.eqb_spec "Z" (upper b));
      cbn [negb orb]; try discriminate; congruence. }
  destruct (set_iter (set_diff all_axes [upper a; upper b])) as [|c l] eqn:E.
  - exfalso. now apply (set_iter_not_nil _ Hne).
  - exists c. split; [reflexivity |].
    assert (Hin : In c (set_diff all_axes [upper a; upper b])).
    { apply (Permutation_in c (set_iter_perm _)). rewrite E. now left. }
    unfold set_diff in Hin. apply filter_In in Hin. destruct Hin as [Hin Hb].
    split; [exact Hin |].
    unfold str_in in Hb. simpl in Hb.
    rewrite orb_false_r in Hb. apply negb_true_iff, orb_false_iff in Hb.
    destruct Hb as [Ha Hb].
    split; now apply String.eqb_neq.
Qed.

(** C8.  For axis letters a and b (x, y or z in either case) that differ when
    compared without case, [get_axis_mapping a b] returns the one element of
    X, Y, Z that is neither of them, whatever the iteration order of the set. *)
Theorem get_axis_mapping_complement (SO : SetOrder) (a b : string) :
  In a axis_letters ->
  In b axis_letters ->
  upper a <> upper b ->
  exists c,
    get_axis_mapping a b = Ret c
    /\ In c all_axes
    /\ c <> upper a
    /\ c <> upper b
    /\ (forall d, In d all_axes -> d <> upper a -> d <> upper b -> d = c).
Proof.
  intros Ha Hb Hab.
  destruct (get_axis_mapping_returns a b) as [c (Hc & Hin & Hca & Hcb)].
  exists c. repeat split; try assumption.
  intros d Hd Hda Hdb.
  unfold axis_letters in Ha, Hb. unfold all_axes in Hin, Hd.
  simpl in Ha, Hb, Hin, Hd.
  repeat match goal with
         | H : _ \/ _ |- _ => destruct H as [H | H]
         | H : False |- _ => destruct H
         end; subst; vm_compute in Hab, Hca, Hcb, Hda, Hdb;
    first [reflexivity | congruence].
Qed.

Lemma get_axis_mapping_complement_witness :
  exists c,
    @get_axis_mapping listed_order "x" "Y" = Ret c
    /\ In c all_axes
    /\ c <> upper "x"
    /\ c <> upper "Y"
    /\ (forall d, In d all_axes -> d <> upper "x" -> d <> upper "Y" -> d = c).
Proof.
  apply (get_axis_mapping_complement listed_order "x" "Y").
  - simpl; auto.
  - simpl; auto 10.
  - vm_compute; discriminate.
Defined.

Lemma split_not_nil (sep : ascii) (s : string) : split sep s <> [].
Proof.
  induction s as [|c s IH]; simpl; [discriminate |].
  destruct (Ascii.eqb c sep); [discriminate |].
  destruct (split sep s); [contradiction | discriminate].
Qed.

Lemma join_split (sep : ascii) (s : string) :
  join (String sep EmptyString) (split sep s) = s.
Proof.
  induction s as [|c s IH]; [reflexivity |].
  simpl. destruct (Ascii.eqb_spec c sep) as [-> | Hne].
  - pose proof (split_not_nil sep s) as Hn.
    unfold join in *. simpl.
    destruct (split sep s) as [|h t]; [contradiction |].
    simpl. now rewrite <- IH.
  - pose proof (split_not_nil sep s) as Hn.
    unfold join in *.
    destruct (split sep s) as [|h t]; [contradiction |].
    simpl in *. destruct t as [|h' t]; simpl in *; now rewrite <- IH.
Qed.

Lemma split_has_no_sep (sep : ascii) (s : string) :
  Forall (fun seg => has_no sep seg = true) (split sep s).
Proof.
  induction s as [|c s IH]; simpl.
  - constructor; [reflexivity | constructor].
  - destruct (Ascii.eqb c sep) eqn:E.
    + constructor; [reflexivity | exact IH].
    + destruct (split sep s) as [|h t].
      * constructor; [| constructor]. unfold has_no; simpl. now rewrite E.
      * inversion IH as [|? ? Hh Ht]; subst.
        constructor; [| exact Ht].
        unfold has_no in *; simpl. now rewrite E, Hh.
Qed.

Lemma lstrip_decompose (s : string) :
  exists l, s = l +:+ lstrip s
            /\ all_space l = true
            /\ starts_with_space (lstrip s) = false.
Proof.
  induction s as [|c s (l & Hs & Hl & Hst)].
  - exists EmptyString. repeat split.
  - simpl. destruct (is_space c) eqn:E.
    + exists (String c l). simpl. repeat split.
      * now rewrite <- Hs.
      * unfold all_space in *; simpl. now rewrite E, Hl.
      * exact Hst.
    + exists EmptyString. simpl. repeat split. exact E.
Qed.

Lemma rstrip_decompose (s : string) :
  exists r, s = rstrip s +:+ r
            /\ all_space r = true
            /\ ends_with_space (rstrip s) = false.
Proof.
  induction s as [|c s (r & Hs & Hr & He)].
  - exists EmptyString. repeat split.
  - simpl. destruct (rstrip s) as [|d t] eqn:E.
    + destruct (is_space c) eqn:Ec.
      * exists (String c r). simpl in *. repeat split.
        -- now rewrite Hs.
        -- unfold all_space in *; simpl. now rewrite Ec, Hr.
      * exists r. simpl in *. repeat split; [now rewrite Hs | exact Hr | exact Ec].
    + exists r. simpl in *. repeat split; [now rewrite Hs | exact Hr |].
      destruct t; exact He.
Qed.

Lemma rstrip_keeps_start (s : string) :
  starts_with_space s = false -> starts_with_space (rstrip s) = false.
Proof.
  destruct s as [|c s]; simpl; [reflexivity |].
  intro Hc. destruct (rstrip s); [rewrite Hc |]; exact Hc || reflexivity.
Qed.

(** [strip] removes white space at both ends and nothing else. *)
Lemma strip_decompose (s : string) :
  exists l r, s = l +:+ strip s +:+ r
              /\ all_space l = true /\ all_space r = true
              /\ starts_with_space (strip s) = false
              /\ ends_with_space (strip s) = false.
Proof.
  destruct (lstrip_decompose s) as (l & Hs & Hl & Hst).
  destruct (rstrip_decompose (lstrip s)) as (r & Hs' & Hr & He).
  exists l, r. unfold strip. repeat split; try assumption.
  - now rewrite <- Hs', <- Hs.
  - now apply rstrip_keeps_start.
Qed.

Lemma map_filter_strip (l : list string) :
  map strip (filter (fun param => truthy (strip param)) l)
  = filter truthy (map strip l).
Proof.
  induction l as [|x l IH]; simpl; [reflexivity |].
  destruct (truthy (strip x)); simpl; now rewrite IH.
Qed.

(** C9.  [parse_parameters] is: split on commas, trim each segment, drop the
    empty ones, keeping order and repetitions.  The segments are the
    comma-free pieces whose comma-joined text is the input, and trimming
    removes white space at both ends only.  The example of the
    specification, and one with a repeated name, are evaluated. *)
Theorem parse_parameters_split_trim_drop (raw : string) :
  parse_parameters raw = parseParameterList_spec raw
  /\ join "," (split ","%char raw) = raw
  /\ Forall (fun seg => has_no ","%char seg = true) (split ","%char raw)
  /\ (forall seg, exists l r,
         seg = l +:+ strip seg +:+ r
         /\ all_space l = true /\ all_space r = true
         /\ starts_with_space (strip seg) = false
         /\ ends_with_space (strip seg) = false)
  /\ parse_parameters " eDensity ,hDensity, ,X"
     = ["eDensity"; "hDensity"; "X"]%string
  /\ parse_parameters "eDensity,eDensity" = ["eDensity"; "eDensity"]%string.
Proof.
  split; [apply map_filter_strip |].
  split; [apply join_split |].
  split; [apply split_has_no_sep |].
  split; [apply strip_decompose |].
  split; reflexivity.
Qed.

(** ** Loops *)

Lemma filter_flat_map {A B : Type} (p : B -> bool) (f : A -> list B) (l : list A) :
  filter p (flat_map f l) = flat_map (fun x => filter p (f x)) l.
Proof.
  induction l as [|x l IH]; simpl; [reflexivity |].
  now rewrite filter_app, IH.
Qed.

Lemma flat_map_nil_ext {A B : Type} (f : A -> list B) (l : list A) :
  (forall x, f x = []) -> flat_map f l = [].
Proof.
  intro Hf. induction l as [|x l IH]; simpl; [reflexivity |].
  now rewrite Hf, IH.
Qed.

(** A loop over [enumerate] whose body uses the index only is a loop over
    the indices. *)
Lemma flat_map_enumerate_index {A B : Type} (g : nat -> list B) (l : list A) (k : nat) :
  flat_map (fun ix : nat * A => g (fst ix)) (enumerate k l)
  = flat_map g (seq k (List.length l)).
Proof.
  unfold enumerate. revert k.
  induction l as [|x l IH]; intro k; simpl; [reflexivity |].
  now rewrite IH.
Qed.

Lemma enumerate_cons {A : Type} (k : nat) (x : A) (l : list A) :
  enumerate k (x :: l) = (k, x) :: enumerate (S k) l.
Proof. reflexivity. Qed.

Lemma enumerate_length {A : Type} (k : nat) (l : list A) :
  List.length (enumerate k l) = List.length l.
Proof.
  unfold enumerate. rewrite length_combine, length_seq. apply Nat.min_id.
Qed.

Lemma enumerate_nth_error {A : Type} (k : nat) (l : list A) (i : nat) (x : A) :
  nth_error l i = Some x -> nth_error (enumerate k l) i = Some (k + i, x).
Proof.
  revert k i. induction l as [|y l IH]; intros k [|i] H;
    try rewrite enumerate_cons; simpl in H |- *; try discriminate.
  - injection H as ->. now rewrite Nat.add_0_r.
  - rewrite (IH (S k) i H). f_equal. f_equal. lia.
Qed.

(** A loop whose body never raises returns, and appends what each pass emits. *)
Lemma for_each_append {A B : Type} (l : list A) (body : list B -> A -> outcome (list B))
    (g : A -> list B) (cmds : list B) :
  (forall c x, In x l -> body c x = Ret (c ++ g x)) ->
  for_each l body cmds = Ret (cmds ++ flat_map g l).
Proof.
  revert cmds. induction l as [|x l IH]; intros cmds Hb; simpl.
  - now rewrite app_nil_r.
  - rewrite (Hb cmds x (or_introl eq_refl)). simpl.
    rewrite IH by (intros c y Hy; apply Hb; now right).
    now rewrite app_assoc.
Qed.

Lemma index_mod_nth {A : Type} (l : list A) (i : nat) (d : A) :
  l <> [] -> index_mod l i = Ret (nth (i mod List.length l) l d).
Proof.
  intro Hl. unfold index_mod, item.
  destruct (List.length l) as [|n] eqn:E.
  - apply length_zero_iff_nil in E. contradiction.
  - assert (Hlt : i mod S n < List.length l).
    { rewrite E. apply Nat.mod_upper_bound. discriminate. }
    destruct (nth_error l (i mod S n)) as [y|] eqn:En.
    + now rewrite (nth_error_nth _ _ d En).
    + apply nth_error_None in En. lia.
Qed.

(** ** Mode 2 *)

(** The colour of the Y2 curve of the node at position [i]. *)
Lemma y2_style_loop_returns (start : nat) (nodes : list (string * string))
    (cmds : list string) :
  Mode2.y2_style_loop start nodes cmds
  = Ret (cmds ++ flat_map
                   (fun ix : nat * (string * string) =>
                      Mode2.y2_style_cmds (start + fst ix)
                        (nth (fst ix mod 6) Mode2.colors EmptyString))
                   (enumerate 0 nodes)).
Proof.
  unfold Mode2.y2_style_loop. apply for_each_append.
  intros c [i vn] _. simpl.
  rewrite (index_mod_nth Mode2.colors i EmptyString) by discriminate.
  reflexivity.
Qed.

(** With at least one node, Mode 2 returns this list. *)
Lemma mode2_emit_returns (r : Mode2.request) (p : string * string)
    (ps : list (string * string)) :
  Mode2.nodes_data r = p :: ps ->
  let nodes := Mode2.nodes_data r in
  let n := List.length nodes in
  let all_datasets := join " " (map (Mode2.dataset_of (Mode2.plt_prefix r)) nodes) in
  Mode2.emit r
  = Ret (Mode2.header
         ++ Mode2.first_load_cmds r p
         ++ flat_map (Mode2.load_more_cmds r) ps
         ++ Mode2.y_curves_cmds all_datasets n
         ++ Mode2.y2_curves_cmds all_datasets (n + 1) (n * 2)
         ++ flat_map (fun ix : nat * (string * string) =>
                        Mode2.y2_style_cmds (n + 1 + fst ix)
                          (nth (fst ix mod 6) Mode2.colors EmptyString))
                     (enumerate 0 nodes)
         ++ flat_map (fun ix : nat * (string * string) => Mode2.y_style_cmds (fst ix + 1))
                     (enumerate 0 nodes)
         ++ Mode2.axis_title_cmds r
         ++ Mode2.plot_prop_cmds r
         ++ Mode2.layout_cmds r
         ++ flat_map (fun ix : nat * (string * string) =>
                        Mode2.label_cmds (fst ix + 1) (fst (snd ix)))
                     (enumerate 0 nodes)
         ++ Mode2.export_cmds r n).
Proof.
  intros Hn nodes n all_datasets. unfold Mode2.emit.
  subst nodes n all_datasets. rewrite Hn. cbn [first bind tl].
  rewrite y2_style_loop_returns. cbn [bind].
  repeat rewrite <- app_assoc.
  f_equal. repeat (apply f_equal2; [reflexivity |]).
  apply f_equal2; [apply flat_map_ext; now intros [i [v nd]] |].
  repeat (apply f_equal2; [reflexivity |]).
  apply f_equal2; [apply flat_map_ext; now intros [i [v nd]] | reflexivity].
Qed.

(** C10.  When the collected list of (version, node) pairs is empty (a node
    count of zero or less was typed), [nodes_data[0]] raises [IndexError];
    the handler of the generator covers [ValueError] and
    [KeyboardInterrupt] only, so the call does not return the empty list:
    the [IndexError] leaves [generate_mode2_commands]. *)
Theorem mode2_no_nodes_raises_index_error (inp rest : list event) (r : Mode2.request) :
  Mode2.collect inp = Ret (r, rest) ->
  Mode2.nodes_data r = [] ->
  Mode2.emit r = Raise IndexError
  /\ handle (Raise IndexError) = Raise IndexError
  /\ Mode2.generate_mode2_commands inp = Raise IndexError
  /\ Mode2.generate_mode2_commands inp <> Ret [].
Proof.
  intros Hc Hn.
  assert (He : Mode2.emit r = Raise IndexError).
  { unfold Mode2.emit. now rewrite Hn. }
  assert (Hg : Mode2.generate_mode2_commands inp = Raise IndexError).
  { unfold Mode2.generate_mode2_commands. now rewrite Hc, He. }
  repeat split; try assumption. rewrite Hg. discriminate.
Qed.

Lemma mode2_no_nodes_raises_index_error_witness :
  Mode2.emit mode2_zero_nodes_request = Raise IndexError
  /\ handle (Raise IndexError) = Raise IndexError
  /\ Mode2.generate_mode2_commands mode2_zero_nodes_input = Raise IndexError
  /\ Mode2.generate_mode2_commands mode2_zero_nodes_input <> Ret [].
Proof.
  apply (mode2_no_nodes_raises_index_error mode2_zero_nodes_input []
           mode2_zero_nodes_request); reflexivity.
Defined.

(** Filtering the emitted groups by keyword: a fixed group is evaluated, a
    loop is filtered pass by pass. *)
Ltac filter_groups :=
  repeat rewrite filter_app;
  repeat rewrite filter_flat_map.

(** A loop none of whose passes emits a line with the keyword contributes nothing. *)
Ltac drop_loops :=
  repeat match goal with
         | |- context [flat_map (fun x => filter ?p (@?g x)) ?l] =>
             rewrite (flat_map_nil_ext (fun x => filter p (g x)) l)
               by (intros; reflexivity)
         end.

Lemma seq_split_halves (n : nat) : seq 1 n ++ seq (n + 1) n = seq 1 (n * 2).
Proof.
  replace (n * 2) with (n + n) by lia.
  rewrite seq_app. now rewrite Nat.add_comm.
Qed.

(** C4.  With N >= 1 (version, node) pairs Mode 2 returns a list that
    loads one file per pair, in order, and holds exactly two [create_curve]
    commands.  Both name the same N datasets, one per pair and in the order
    of the pairs, each {pltPrefix}_{version}_{node}_des, so that each command
    creates N curves: the comment after the first names curves 1..N (Y
    axis), the comment after the second names curves N+1..2N (Y2 axis),
    together the curves 1..2N.  The [set_curve_prop] commands are, in
    order: for every Y2 curve N+1+i the four commands dash line style, line
    width 2, colour number (i mod 6) of the palette, hidden legend; for every
    Y curve i+1 the line width command alone; later, for every Y curve, its
    label.  The list ends with the one [export_curves] command, which names
    curves 1..2N, and the comment with the CSV path. *)
Theorem mode2_curves_numbering_and_styling (r : Mode2.request) :
  Mode2.nodes_data r <> [] ->
  let nodes := Mode2.nodes_data r in
  let n := List.length nodes in
  let dataset := fun vn : string * string =>
                   Mode2.plt_prefix r +:+ "_" +:+ fst vn +:+ "_" +:+ snd vn +:+ "_des" in
  let datasets := join " " (map dataset nodes) in
  let curve := fun i : nat => "Curve_" +:+ str_of_nat i in
  let prop := fun (i : nat) (what : string) =>
                "set_curve_prop {" +:+ curve i +:+ "} -plot Plot_1 " +:+ what in
  let csv := Mode2.csv_export_path r +:+ Mode2.csv_filename r +:+ ".csv" in
  exists cmds pre mid,
    Mode2.emit r = Ret cmds
    /\ count_cmd "create_curve" cmds = 2
    /\ count_cmd "export_curves" cmds = 1
    /\ cmds = pre
              ++ [ "create_curve -axisX time -axisY {drain OuterVoltage} -dataset {"
                     +:+ datasets +:+ "} -plot Plot_1";
                   "# " +:+ join " " (map curve (seq 1 n));
                   "create_curve -axisX time -axisY2 Tmax -dataset {"
                     +:+ datasets +:+ "} -plot Plot_1";
                   "# " +:+ join " " (map curve (seq (n + 1) n)) ]
              ++ mid
              ++ [ "export_curves {" +:+ join " " (map curve (seq 1 (n * 2)))
                     +:+ "} -plot Plot_1 -filename " +:+ csv +:+ " -format csv";
                   "# " +:+ csv ]
    /\ filter (startswith "create_curve ") cmds
       = [ "create_curve -axisX time -axisY {drain OuterVoltage} -dataset {"
             +:+ datasets +:+ "} -plot Plot_1";
           "create_curve -axisX time -axisY2 Tmax -dataset {"
             +:+ datasets +:+ "} -plot Plot_1" ]
    /\ List.length (map dataset nodes) = n
    /\ filter (startswith "load_file ") cmds
       = map (fun vn => "load_file " +:+ Mode2.base_path r +:+ (dataset vn +:+ ".plt")) nodes
    /\ seq 1 n ++ seq (n + 1) n = seq 1 (n * 2)
    /\ filter (startswith "set_curve_prop ") cmds
       = flat_map (fun i => [ prop (n + 1 + i) "-line_style dash";
                              prop (n + 1 + i) "-line_width 2";
                              prop (n + 1 + i)
                                ("-color " +:+ nth (i mod 6) Mode2.colors EmptyString);
                              prop (n + 1 + i) "-hide_legend" ])
                  (seq 0 n)
         ++ flat_map (fun i => [ prop (i + 1) "-line_width 2" ]) (seq 0 n)
         ++ flat_map (fun ix : nat * (string * string) =>
                        [ prop (fst ix + 1)
                            ("-label " +:+ Mode2.dq +:+ "drain OuterVoltage_"
                               +:+ fst (snd ix) +:+ Mode2.dq) ])
                     (enumerate 0 nodes).
Proof.
  intros Hne nodes n dataset datasets curve prop csv.
  destruct (Mode2.nodes_data r) as [|p ps] eqn:Hn; [contradiction |].
  pose proof (mode2_emit_returns r p ps Hn) as He. cbv zeta in He.
  rewrite Hn in He. fold nodes in He. fold n in He.
  eexists. exists (Mode2.header ++ Mode2.first_load_cmds r p
                   ++ flat_map (Mode2.load_more_cmds r) ps).
  exists (flat_map (fun ix : nat * (string * string) =>
                      Mode2.y2_style_cmds (n + 1 + fst ix)
                        (nth (fst ix mod 6) Mode2.colors EmptyString))
                   (enumerate 0 nodes)
          ++ flat_map (fun ix : nat * (string * string) => Mode2.y_style_cmds (fst ix + 1))
                      (enumerate 0 nodes)
          ++ Mode2.axis_title_cmds r
          ++ Mode2.plot_prop_cmds r
          ++ Mode2.layout_cmds r
          ++ flat_map (fun ix : nat * (string * string) =>
                         Mode2.label_cmds (fst ix + 1) (fst (snd ix)))
                      (enumerate 0 nodes)).
  split; [subst nodes; exact He |].
  split.
  { unfold count_cmd. filter_groups. drop_loops. reflexivity. }
  split.
  { unfold count_cmd. filter_groups. drop_loops. reflexivity. }
  split.
  { unfold Mode2.y_curves_cmds, Mode2.y2_curves_cmds, Mode2.export_cmds.
    replace (n * 2 + 1 - (n + 1)) with n by lia.
    repeat rewrite <- app_assoc. reflexivity. }
  split.
  { filter_groups. drop_loops. reflexivity. }
  split; [apply length_map |].
  split.
  { filter_groups.
    rewrite <- (filter_flat_map _ (Mode2.load_more_cmds r)).
    drop_loops.
    repeat match goal with
           | |- context [filter ?q ?G] =>
               lazymatch G with
               | Mode2.first_load_cmds _ _ => fail
               | flat_map (Mode2.load_more_cmds _) _ => fail
               | _ => change (filter q G) with (@nil string)
               end
           end.
    cbn [app]. rewrite !app_nil_r. subst nodes.
    change (map ?f (p :: ps)) with (f p :: map f ps).
    change (filter (startswith "load_file ") (Mode2.first_load_cmds r p))
      with ["load_file " +:+ Mode2.base_path r +:+ (dataset p +:+ ".plt")].
    cbn [app]. f_equal.
    rewrite filter_flat_map.
    clear. induction ps as [|q qs IH]; [reflexivity |].
    cbn [flat_map map].
    change (filter (startswith "load_file ") (Mode2.load_more_cmds r q))
      with ["load_file " +:+ Mode2.base_path r +:+ (dataset q +:+ ".plt")].
    cbn [app]. now rewrite IH. }
  split; [apply seq_split_halves |].
  filter_groups.
  rewrite (flat_map_nil_ext (fun x => filter _ (Mode2.load_more_cmds r x)))
    by (intros; reflexivity).
  repeat match goal with
         | |- context [filter ?q ?G] =>
             lazymatch G with
             | Mode2.y2_style_cmds _ _ => fail
             | Mode2.y_style_cmds _ => fail
             | Mode2.label_cmds _ _ => fail
             | _ => change (filter q G) with (@nil string)
             end
         end.
  cbn [app]. unfold n.
  do 2 rewrite <- (flat_map_enumerate_index _ nodes 0).
  subst nodes.
  repeat (apply f_equal2; [apply flat_map_ext; intros [i [v nd]]; reflexivity |]).
  rewrite app_nil_r.
  apply flat_map_ext; intros [i [v nd]]; reflexivity.
Qed.

Lemma mode2_curves_numbering_and_styling_witness :
  exists cmds,
    Mode2.emit mode2_two_nodes_request = Ret cmds
    /\ count_cmd "create_curve" cmds = 2
    /\ count_cmd "export_curves" cmds = 1
    /\ filter (startswith "create_curve ") cmds
       = [ "create_curve -axisX time -axisY {drain OuterVoltage} -dataset {DeMOS_4.5_n1250_des DeMOS_4.6_n1251_des} -plot Plot_1";
           "create_curve -axisX time -axisY2 Tmax -dataset {DeMOS_4.5_n1250_des DeMOS_4.6_n1251_des} -plot Plot_1" ]
    /\ filter (startswith "load_file ") cmds
       = [ "load_file /sim/DeMOS_4.5_n1250_des.plt";
           "load_file /sim/DeMOS_4.6_n1251_des.plt" ].
Proof.
  destruct (mode2_curves_numbering_and_styling mode2_two_nodes_request)
    as (cmds & _ & _ & He & Hc & Hx & _ & Hcurves & _ & Hloads & _); [discriminate |].
  exists cmds. repeat split; assumption.
Defined.

(** ** Mode 1 *)

Lemma last_item_last {A : Type} (l : list A) (d : A) :
  l <> [] -> last_item l = Ret (last l d).
Proof.
  intro Hl. unfold last_item.
  destruct (List.rev l) as [|x t] eqn:E.
  - apply (f_equal (@List.rev A)) in E. rewrite rev_involutive in E. contradiction.
  - apply (f_equal (@List.rev A)) in E. rewrite rev_involutive in E. simpl in E.
    subst l. now rewrite last_last.
Qed.

Lemma mode1_curve_fold (set_idx : nat) (axis_x parameter plot yt : string)
    (fbs cmds curves : list string) (counter : nat) :
  fold_left
    (fun '(cmds, curves_for_this_plot, curve_counter) file_base =>
       (cmds ++ Mode1.curve_cmds axis_x parameter (Mode1.cutline_dset set_idx file_base)
                                 plot yt curve_counter,
        curves_for_this_plot ++ ["Curve_" +:+ str_of_nat curve_counter],
        S curve_counter))
    fbs (cmds, curves, counter)
  = (cmds ++ flat_map (fun ix : nat * string =>
                         Mode1.curve_cmds axis_x parameter
                           (Mode1.cutline_dset set_idx (snd ix)) plot yt (fst ix))
                      (enumerate counter fbs),
     curves ++ map (fun i => "Curve_" +:+ str_of_nat i) (seq counter (List.length fbs)),
     counter + List.length fbs).
Proof.
  revert cmds curves counter.
  induction fbs as [|fb fbs IH]; intros cmds curves counter.
  - simpl. now rewrite !app_nil_r, Nat.add_0_r.
  - rewrite enumerate_cons. cbn [fold_left flat_map List.length seq map fst snd].
    rewrite IH. rewrite <- !app_assoc. cbn [app].
    now rewrite Nat.add_succ_r.
Qed.

(** The curve loop numbers its curves from the counter it starts with, one
    number per file base, and leaves the counter after the last number. *)
Lemma mode1_curve_loop_returns (set_idx : nat) (axis_x parameter plot yt : string)
    (fbs cmds : list string) (counter : nat) :
  Mode1.curve_loop set_idx axis_x parameter plot yt fbs cmds counter
  = (cmds ++ flat_map (fun ix : nat * string =>
                         Mode1.curve_cmds axis_x parameter
                           (Mode1.cutline_dset set_idx (snd ix)) plot yt (fst ix))
                      (enumerate counter fbs),
     map (fun i => "Curve_" +:+ str_of_nat i) (seq counter (List.length fbs)),
     counter + List.length fbs).
Proof. unfold Mode1.curve_loop. now rewrite mode1_curve_fold. Qed.

Lemma mode1_cutline_loop_returns (set_idx : nat) (cl_axis : string)
    (cl_positions fbs cmds : list string) :
  cl_positions <> [] ->
  Mode1.cutline_loop set_idx cl_axis cl_positions fbs cmds
  = Ret (cmds ++ flat_map (fun ix : nat * string =>
                             Mode1.cutline_cmds set_idx cl_axis
                               (nth (fst ix mod List.length cl_positions) cl_positions
                                    EmptyString)
                               (snd ix))
                          (enumerate 0 fbs)).
Proof.
  intro Hp. unfold Mode1.cutline_loop. apply for_each_append.
  intros c [i fb] _. rewrite (index_mod_nth cl_positions i EmptyString Hp).
  reflexivity.
Qed.

(** With no cutline position at all the first lookup divides by zero: the
    loop raises [ZeroDivisionError], which the handler does not cover. *)
Lemma mode1_cutline_loop_no_position (set_idx : nat) (cl_axis fb : string)
    (rest cmds : list string) :
  Mode1.cutline_loop set_idx cl_axis [] (fb :: rest) cmds = Raise ZeroDivisionError
  /\ handle (Raise ZeroDivisionError) = Raise ZeroDivisionError.
Proof. split; reflexivity. Qed.

Lemma last_of_map {A B : Type} (f : A -> B) (l : list A) (d : A) :
  last (map f l) (f d) = f (last l d).
Proof.
  induction l as [|x l IH]; [reflexivity |].
  destruct l as [|y l]; [reflexivity |]. exact IH.
Qed.

(** The lines one parameter adds, given its file bases [fb0 :: rest]. *)
Lemma mode1_process_parameter_returns (r : Mode1.request) (set_idx : nat)
    (cs : cutset) (axis_x : string) (cmds plots : list string) (counter param_idx : nat)
    (parameter fb0 : string) (rest : list string) :
  Mode1.file_bases r parameter = Ret (fb0 :: rest) ->
  cutline_positions cs <> [] ->
  let fbs := fb0 :: rest in
  let plot := Mode1.unified_plot_name set_idx param_idx fb0 in
  Mode1.process_parameter r set_idx cs axis_x (cmds, plots, counter) (param_idx, parameter)
  = Ret (cmds
         ++ flat_map (load_cmds (Mode1.base_path r)) fbs
         ++ Mode1.link_cmds fbs (Mode1.plot_of fb0)
         ++ Mode1.field_cmds parameter (Mode1.plot_of (last fbs fb0))
         ++ flat_map (Mode1.cutplane_cmds set_idx (cutplane_axis cs) (cutplane_position cs)) fbs
         ++ flat_map (Mode1.cutplane_plot_cmds set_idx) fbs
         ++ flat_map (fun ix : nat * string =>
                        Mode1.cutline_cmds set_idx (cutline_axis cs)
                          (nth (fst ix mod List.length (cutline_positions cs))
                               (cutline_positions cs) EmptyString)
                          (snd ix))
                     (enumerate 0 fbs)
         ++ Mode1.plot1d_cmds (Mode1.cutline_dset set_idx fb0) plot
         ++ flat_map (fun ix : nat * string =>
                        Mode1.curve_cmds axis_x parameter
                          (Mode1.cutline_dset set_idx (snd ix)) plot
                          (Mode1.y_axis_type r) (fst ix))
                     (enumerate counter fbs)
         ++ Mode1.export_cmds
              (map (fun i => "Curve_" +:+ str_of_nat i) (seq counter (List.length fbs)))
              plot
              (Mode1.csv_path_of (Mode1.csv_export_path r) (Mode1.csv_filename r)
                                 set_idx parameter),
         plots ++ [plot],
         counter + List.length fbs).
Proof.
  intros Hfb Hpos fbs plot.
  unfold Mode1.process_parameter. rewrite Hfb. cbn [bind first].
  rewrite (last_item_last (map Mode1.plot_of (fb0 :: rest)) (Mode1.plot_of fb0))
    by discriminate.
  cbn [bind].
  rewrite (mode1_cutline_loop_returns _ _ _ _ _ Hpos). cbn [bind].
  rewrite mode1_curve_loop_returns.
  rewrite last_of_map.
  subst fbs plot. repeat rewrite <- app_assoc. reflexivity.
Qed.

(** *** Recognising the 1D plot creations *)

Lemma str_rev_append (a b : string) : str_rev (a +:+ b) = str_rev b +:+ str_rev a.
Proof.
  induction a as [|c a IH]; simpl.
  - now rewrite append_nil_r.
  - now rewrite IH, append_assoc.
Qed.

Lemma str_rev_length (a : string) : String.length (str_rev a) = String.length a.
Proof.
  induction a as [|c a IH]; simpl; [reflexivity |].
  rewrite length_append, IH. simpl. lia.
Qed.

Lemma startswith_append_long (p x y : string) :
  String.length p <= String.length x -> startswith p (x +:+ y) = startswith p x.
Proof.
  revert x. induction p as [|c p IH]; intros x Hl; [reflexivity |].
  destruct x as [|d x]; simpl in Hl; [lia |].
  simpl. rewrite IH by lia. reflexivity.
Qed.

Lemma endswith_append (suf a b : string) :
  String.length suf <= String.length b -> endswith suf (a +:+ b) = endswith suf b.
Proof.
  intro Hl. unfold endswith. rewrite str_rev_append.
  apply startswith_append_long. now rewrite !str_rev_length.
Qed.

Lemma not_create_plot (line : string) :
  startswith "create_plot " line = false -> is_plot1d_cmd line = false.
Proof. unfold is_plot1d_cmd. now intros ->. Qed.

Lemma create_plot_des_not_1d (x : string) :
  is_plot1d_cmd ("create_plot -dataset " +:+ x +:+ "_des") = false.
Proof.
  unfold is_plot1d_cmd.
  rewrite !endswith_append by (rewrite ?length_append; simpl; lia).
  now rewrite andb_false_r.
Qed.

Lemma create_plot_ref_not_1d (x y : string) :
  is_plot1d_cmd ("create_plot -dataset " +:+ x +:+ " -ref_plot " +:+ "Plot_" +:+ y +:+ "_des")
  = false.
Proof.
  unfold is_plot1d_cmd.
  rewrite !endswith_append by (rewrite ?length_append; simpl; lia).
  now rewrite andb_false_r.
Qed.

Lemma create_plot_1d (x : string) :
  is_plot1d_cmd ("create_plot -dataset " +:+ x +:+ " -1d") = true.
Proof.
  unfold is_plot1d_cmd.
  rewrite !endswith_append by (rewrite ?length_append; simpl; lia).
  reflexivity.
Qed.

(** Decides [is_plot1d_cmd] on every line of an emitted group. *)
Ltac decide_plot1d :=
  cbn [filter];
  repeat match goal with
         | |- context [is_plot1d_cmd ?s] =>
             let b := eval cbv in (startswith "create_plot " s) in
             lazymatch b with
             | false => rewrite (not_create_plot s eq_refl)
             | true => first [ rewrite (create_plot_des_not_1d _)
                             | rewrite (create_plot_ref_not_1d _ _)
                             | rewrite (create_plot_1d _) ]
             end
         end.

Lemma mode1_load_no_plot1d (bp fb : string) :
  filter is_plot1d_cmd (load_cmds bp fb) = [].
Proof. unfold load_cmds. decide_plot1d. reflexivity. Qed.

Lemma mode1_link_no_plot1d (fbs : list string) (first_plot : string) :
  filter is_plot1d_cmd (Mode1.link_cmds fbs first_plot) = [].
Proof. unfold Mode1.link_cmds. decide_plot1d. reflexivity. Qed.

Lemma mode1_field_no_plot1d (p last_plot : string) :
  filter is_plot1d_cmd (Mode1.field_cmds p last_plot) = [].
Proof. unfold Mode1.field_cmds. decide_plot1d. reflexivity. Qed.

Lemma mode1_cutplane_no_plot1d (k : nat) (a pos fb : string) :
  filter is_plot1d_cmd (Mode1.cutplane_cmds k a pos fb) = [].
Proof. unfold Mode1.cutplane_cmds. decide_plot1d. reflexivity. Qed.

Lemma mode1_cutplane_plot_no_plot1d (k : nat) (fb : string) :
  filter is_plot1d_cmd (Mode1.cutplane_plot_cmds k fb) = [].
Proof.
  unfold Mode1.cutplane_plot_cmds, Mode1.plot_of. decide_plot1d. reflexivity.
Qed.

Lemma mode1_cutline_no_plot1d (k : nat) (a pos fb : string) :
  filter is_plot1d_cmd (Mode1.cutline_cmds k a pos fb) = [].
Proof. unfold Mode1.cutline_cmds. decide_plot1d. reflexivity. Qed.

Lemma mode1_plot1d_one_plot1d (d plot : string) :
  filter is_plot1d_cmd (Mode1.plot1d_cmds d plot)
  = ["create_plot -dataset " +:+ d +:+ " -1d"].
Proof. unfold Mode1.plot1d_cmds. decide_plot1d. reflexivity. Qed.

Lemma mode1_curve_no_plot1d (ax p d plot yt : string) (k : nat) :
  filter is_plot1d_cmd (Mode1.curve_cmds ax p d plot yt k) = [].
Proof. unfold Mode1.curve_cmds. decide_plot1d. reflexivity. Qed.

Lemma mode1_export_no_plot1d (curves : list string) (plot csv : string) :
  filter is_plot1d_cmd (Mode1.export_cmds curves plot csv) = [].
Proof. unfold Mode1.export_cmds. decide_plot1d. reflexivity. Qed.

Lemma count_plot1d_app (a b : list string) :
  count_plot1d (a ++ b) = count_plot1d a + count_plot1d b.
Proof. unfold count_plot1d. now rewrite filter_app, length_app. Qed.

(** C1.  Mode 1 with two nodes, two TDR codes, the last-TDR answer other than
    yes/y, and one set with two cutline positions and one parameter returns
    the header followed by: four load groups (file bases
    value_parameter_code, once per node and code), one link group whose
    [link_plots] names the four plots, the field group, four cutplane
    groups, four cutplane-plot groups, four cutline groups, one 1D plot
    group, four curve groups numbered 1 to 4 and one export group.  Counted
    by keyword: 4 [load_file], 1 [link_plots], 4 [create_cutplane],
    4 [create_cutline], 4 [create_curve], 1 [export_curves], 9 [create_plot]
    of which exactly one creates a 1D plot; the export writes
    ..._set1_param_{parameter}.csv. *)
Theorem mode1_two_nodes_two_tdrs_one_parameter (SO : SetOrder)
    (n1 n2 c1 c2 flag bp cv cpa cpp cla q1 q2 p yt csvp csvf : string) :
  str_in flag ["yes"; "y"] = false ->
  let r := {| Mode1.node_names := [n1; n2];
              Mode1.tdr_codes := [c1; c2];
              Mode1.need_last_tdr := flag;
              Mode1.base_path := bp;
              Mode1.current_value := cv;
              Mode1.cutplane_cutline_sets :=
                [ {| cutplane_axis := cpa; cutplane_position := cpp;
                     cutline_axis := cla; cutline_positions := [q1; q2];
                     set_parameters := [p] |} ];
              Mode1.y_axis_type := yt;
              Mode1.csv_export_path := csvp;
              Mode1.csv_filename := csvf |} in
  let fb1 := cv +:+ "_" +:+ p +:+ "_" +:+ c1 in
  let fb2 := cv +:+ "_" +:+ p +:+ "_" +:+ c2 in
  let fbs := [fb1; fb2; fb1; fb2] in
  let plot1 := "Plot_" +:+ fb1 +:+ "_des" in
  let plot2 := "Plot_" +:+ fb2 +:+ "_des" in
  let all_plots := plot1 +:+ " " +:+ plot2 +:+ " " +:+ plot1 +:+ " " +:+ plot2 in
  let plot1d := "Plot_C1(C1(" +:+ fb1 +:+ "_des))_S1P0" in
  let csv := csvp +:+ csvf +:+ "_set1_param_" +:+ p +:+ ".csv" in
  exists axis_x cmds,
    get_axis_mapping cpa cla = Ret axis_x
    /\ Mode1.emit r = Ret cmds
    /\ cmds = Mode1.header
              ++ flat_map (load_cmds bp) fbs
              ++ Mode1.link_cmds fbs plot1
              ++ Mode1.field_cmds p plot2
              ++ flat_map (Mode1.cutplane_cmds 1 cpa cpp) fbs
              ++ flat_map (Mode1.cutplane_plot_cmds 1) fbs
              ++ (Mode1.cutline_cmds 1 cla q1 fb1 ++ Mode1.cutline_cmds 1 cla q2 fb2
                  ++ Mode1.cutline_cmds 1 cla q1 fb1 ++ Mode1.cutline_cmds 1 cla q2 fb2)
              ++ Mode1.plot1d_cmds ("C1(C1(" +:+ fb1 +:+ "_des))") plot1d
              ++ (Mode1.curve_cmds axis_x p ("C1(C1(" +:+ fb1 +:+ "_des))") plot1d yt 1
                  ++ Mode1.curve_cmds axis_x p ("C1(C1(" +:+ fb2 +:+ "_des))") plot1d yt 2
                  ++ Mode1.curve_cmds axis_x p ("C1(C1(" +:+ fb1 +:+ "_des))") plot1d yt 3
                  ++ Mode1.curve_cmds axis_x p ("C1(C1(" +:+ fb2 +:+ "_des))") plot1d yt 4)
              ++ Mode1.export_cmds ["Curve_1"; "Curve_2"; "Curve_3"; "Curve_4"] plot1d csv
    /\ count_cmd "load_file" cmds = 4
    /\ count_cmd "link_plots" cmds = 1
    /\ nth_error cmds 40 = Some ("link_plots {" +:+ all_plots +:+ "}")
    /\ count_cmd "create_cutplane" cmds = 4
    /\ count_cmd "create_cutline" cmds = 4
    /\ count_cmd "create_curve" cmds = 4
    /\ count_cmd "create_plot" cmds = 9
    /\ count_plot1d cmds = 1
    /\ count_cmd "export_curves" cmds = 1
    /\ nth_error cmds 123
       = Some ("export_curves {Curve_1 Curve_2 Curve_3 Curve_4} -plot " +:+ plot1d
                 +:+ " -filename " +:+ csv +:+ " -format csv")
    /\ List.length cmds = 125.
Proof.
  intros Hflag r fb1 fb2 fbs plot1 plot2 all_plots plot1d csv.
  destruct (get_axis_mapping_returns cpa cla) as (ax & Hax & _).
  exists ax. eexists.
  split; [exact Hax |].
  split.
  { unfold Mode1.emit.
    cbn [Mode1.cutplane_cutline_sets r enumerate List.length seq combine for_each].
    unfold Mode1.process_set.
    cbn [cutplane_axis cutline_axis set_parameters]. rewrite Hax.
    cbn [bind enumerate List.length seq combine for_each].
    rewrite (mode1_process_parameter_returns r 1 _ ax _ _ 1 0 p fb1 [fb2; fb1; fb2]).
    - cbn [bind fst]. reflexivity.
    - unfold Mode1.file_bases. cbn [Mode1.need_last_tdr r]. rewrite Hflag. reflexivity.
    - discriminate. }
  assert (Hname : Mode1.unified_plot_name 1 0 fb1 = plot1d).
  { unfold Mode1.unified_plot_name, Mode1.cutline_dset.
    rewrite !append_assoc. reflexivity. }
  rewrite Hname.
  split.
  { repeat rewrite <- app_assoc. reflexivity. }
  repeat split; try reflexivity.
  cbn [last Mode1.base_path Mode1.y_axis_type Mode1.csv_export_path Mode1.csv_filename r
       cutline_positions cutline_axis cutplane_axis cutplane_position
       flat_map enumerate List.length seq combine map fst snd].
  repeat rewrite count_plot1d_app. unfold count_plot1d.
  rewrite ?mode1_load_no_plot1d, ?mode1_link_no_plot1d, ?mode1_field_no_plot1d,
    ?mode1_cutplane_no_plot1d, ?mode1_cutplane_plot_no_plot1d,
    ?mode1_cutline_no_plot1d, ?mode1_plot1d_one_plot1d, ?mode1_curve_no_plot1d,
    ?mode1_export_no_plot1d.
  reflexivity.
Qed.

Lemma mode1_two_nodes_two_tdrs_one_parameter_witness :
  exists cmds,
    @Mode1.generate_mode1_commands listed_order mode1_two_by_two_input = Ret cmds
    /\ @Mode1.emit listed_order mode1_two_by_two_request = Ret cmds
    /\ count_cmd "load_file" cmds = 4
    /\ count_cmd "link_plots" cmds = 1
    /\ count_plot1d cmds = 1
    /\ count_cmd "export_curves" cmds = 1.
Proof.
  destruct (mode1_two_nodes_two_tdrs_one_parameter listed_order
              "n1257_I4.6" "n1258_I4.6" "0001" "0002" "no" "/sim/" "5e-6"
              "x" "0.5" "y" "0.1" "0.2" "eDensity" "log" "/out/" "run" eq_refl)
    as (ax & cmds & _ & He & _ & Hl & Hk & _ & _ & _ & _ & _ & H1 & Hx & _).
  exists cmds. split.
  - unfold Mode1.generate_mode1_commands.
    change (Mode1.collect mode1_two_by_two_input)
      with (Ret (Some mode1_two_by_two_request, @nil event)).
    cbn iota. unfold mode1_two_by_two_request. rewrite He. reflexivity.
  - repeat split; assumption.
Defined.


Lemma length_flat_map_fixed {A B : Type} (g : A -> list B) (k : nat) (l : list A) :
  (forall y, List.length (g y) = k) -> List.length (flat_map g l) = k * List.length l.
Proof.
  intro Hk. induction l as [|y l IH]; simpl; [lia |].
  rewrite length_app, Hk, IH. lia.
Qed.

Lemma mode1_node_file_bases_length (r : Mode1.request) (parameter : string) :
  List.length (Mode1.node_file_bases r parameter)
  = List.length (Mode1.tdr_codes r) * List.length (Mode1.node_names r).
Proof.
  unfold Mode1.node_file_bases. apply length_flat_map_fixed.
  intro y. apply length_map.
Qed.



Lemma str_in_In (x : string) (l : list string) : str_in x l = true <-> In x l.
Proof.
  unfold str_in. rewrite existsb_exists. split.
  - intros (y & Hy & He). apply String.eqb_eq in He. now subst.
  - intro H. exists x. split; [exact H | apply String.eqb_refl].
Qed.



(** ** The set loop of Modes 1 and 3 *)

Lemma io_bind_ret {A B : Type} (m : io A) (k : A -> io B) (inp rest : list event) (b : B) :
  io_bind m k inp = Ret (b, rest) ->
  exists a mid, m inp = Ret (a, mid) /\ k a mid = Ret (b, rest).
Proof.
  unfold io_bind. destruct (m inp) as [[a mid]|e]; [| discriminate].
  intro H. now exists a, mid.
Qed.

Lemma consumes_ret {A : Type} (a : A) : consumes (io_ret a).
Proof. intros inp x rest H. injection H as _ <-. lia. Qed.

Lemma consumes_bind {A B : Type} (m : io A) (k : A -> io B) :
  consumes m -> (forall a, consumes (k a)) -> consumes (io_bind m k).
Proof.
  intros Hm Hk inp b rest H.
  apply io_bind_ret in H. destruct H as (a & mid & H1 & H2).
  apply Hm in H1. apply Hk in H2. lia.
Qed.

Lemma input_shorter (inp rest : list event) (s : string) :
  input inp = Ret (s, rest) -> List.length rest < List.length inp.
Proof.
  destruct inp as [|[x|] inp]; simpl; try discriminate.
  intro H. injection H as _ <-. lia.
Qed.

Lemma consumes_input : consumes input.
Proof. intros inp a rest H. apply input_shorter in H. lia. Qed.

Lemma consumes_input_times (n : nat) : consumes (input_times n).
Proof.
  induction n as [|n IH]; simpl.
  - apply consumes_ret.
  - apply consumes_bind; [apply consumes_input |].
    intro x. apply consumes_bind; [exact IH |]. intro xs. apply consumes_ret.
Qed.

Lemma input_times_length (n : nat) (inp rest : list event) (xs : list string) :
  input_times n inp = Ret (xs, rest) -> List.length xs = n.
Proof.
  revert inp rest xs. induction n as [|n IH]; intros inp rest xs H; simpl in H.
  - injection H as <- _. reflexivity.
  - apply io_bind_ret in H. destruct H as (x & mid & _ & H).
    apply io_bind_ret in H. destruct H as (ys & mid' & H & H').
    injection H' as <- _. simpl. now rewrite (IH _ _ _ H).
Qed.

Lemma read_axis_shorter (inp rest : list event) (a : string) :
  read_axis inp = Ret (a, rest) ->
  List.length rest < List.length inp /\ is_axis a = true.
Proof.
  induction inp as [|[s|] inp IH]; simpl; try discriminate.
  destruct (is_axis (lower s)) eqn:E.
  - intro H. injection H as <- <-. split; [lia | exact E].
  - intro H. destruct (IH H). split; [lia | assumption].
Qed.

Lemma filter_nil_all {A : Type} (p : A -> bool) (l : list A) :
  filter p l = [] -> Forall (fun x => p x = false) l.
Proof.
  induction l as [|x l IH]; simpl; [constructor |].
  destruct (p x) eqn:E; [discriminate |].
  intro H. constructor; auto.
Qed.

(** What one pass has read when it reports each of its three results. *)
Lemma read_entry_result (tdr_codes : list string) (inp rest : list event) (e : entry) :
  read_entry tdr_codes inp = Ret (e, rest) ->
  List.length rest < List.length inp
  /\ match e with
     | SameAxis => True
     | NotListed invalid_params =>
         invalid_params <> []
         /\ Forall (fun p => ~ In p parameters) invalid_params
     | Accepted c => accepted_set tdr_codes c
     end.
Proof.
  unfold read_entry. intro H.
  apply io_bind_ret in H. destruct H as (cp & i1 & Hcp & H).
  apply read_axis_shorter in Hcp. destruct Hcp as [L1 Acp].
  apply io_bind_ret in H. destruct H as (cpp & i2 & Hcpp & H).
  apply input_shorter in Hcpp.
  apply io_bind_ret in H. destruct H as (cl & i3 & Hcl & H).
  apply read_axis_shorter in Hcl. destruct Hcl as [L3 Acl].
  destruct (String.eqb_spec cl cp) as [Heq | Hne].
  - injection H as <- <-. split; [lia | exact I].
  - apply io_bind_ret in H. destruct H as (pos & i4 & Hpos & H).
    pose proof (consumes_input_times _ _ _ _ Hpos) as L4.
    apply input_times_length in Hpos.
    apply io_bind_ret in H. destruct H as (pin & i5 & Hpin & H).
    apply input_shorter in Hpin.
    destruct (filter (fun p => negb (str_in p parameters)) (parse_parameters pin))
      as [|bad bads] eqn:Hf.
    + injection H as <- <-. split; [lia |].
      unfold accepted_set. cbn [cutplane_axis cutline_axis cutline_positions set_parameters].
      repeat split; try assumption.
      apply filter_nil_all in Hf.
      eapply Forall_impl; [| exact Hf]. intros p Hp. cbv beta in Hp.
      apply negb_false_iff in Hp. now apply str_in_In.
    + injection H as <- <-. split; [lia |]. split; [discriminate |].
      rewrite <- Hf. apply Forall_forall. intros p Hp.
      apply filter_In in Hp. destruct Hp as [_ Hp].
      apply negb_true_iff in Hp. intro Hin. apply str_in_In in Hin. congruence.
Qed.

(** The bound on the number of passes does not matter once it covers the input. *)
Lemma collect_sets_loop_bound (f1 f2 : nat) (tdr_codes : list string)
    (acc : list cutset) (inp : list event) :
  List.length inp <= f1 -> List.length inp <= f2 ->
  collect_sets_loop f1 tdr_codes acc inp = collect_sets_loop f2 tdr_codes acc inp.
Proof.
  revert f2 acc inp. induction f1 as [|f1 IH]; intros f2 acc inp H1 H2.
  - destruct inp; [| simpl in H1; lia].
    destruct f2; reflexivity.
  - destruct f2 as [|f2].
    + destruct inp; [reflexivity | simpl in H2; lia].
    + cbn [collect_sets_loop]. unfold io_bind at 1 3.
      destruct (read_entry tdr_codes inp) as [[e rest]|x] eqn:E; [| reflexivity].
      apply read_entry_result in E. destruct E as [L _].
      destruct e as [| bad | c].
      * reflexivity.
      * apply IH; lia.
      * unfold io_bind.
        destruct (input rest) as [[more rest']|x] eqn:Em; [| reflexivity].
        apply input_shorter in Em.
        destruct (negb (str_in (lower more) ["yes"; "y"])); [reflexivity |].
        apply IH; lia.
Qed.

(** The loop, one pass unfolded. *)
Lemma collect_sets_unfold (tdr_codes : list string) (acc : list cutset) (inp : list event) :
  collect_sets tdr_codes acc inp
  = match read_entry tdr_codes inp with
    | Raise x => Raise x
    | Ret (SameAxis, rest) => Ret (None, rest)
    | Ret (NotListed _, rest) => collect_sets tdr_codes acc rest
    | Ret (Accepted c, rest) =>
        match input rest with
        | Raise x => Raise x
        | Ret (more, rest') =>
            if negb (str_in (lower more) ["yes"; "y"])
            then Ret (Some (acc ++ [c]), rest')
            else collect_sets tdr_codes (acc ++ [c]) rest'
        end
    end.
Proof.
  unfold collect_sets.
  destruct inp as [|ev inp]; [reflexivity |].
  cbn [List.length collect_sets_loop]. unfold io_bind at 1.
  destruct (read_entry tdr_codes (ev :: inp)) as [[e rest]|x] eqn:E; [| reflexivity].
  apply read_entry_result in E. destruct E as [L _]. cbn [List.length] in L.
  destruct e as [| bad | c].
  - reflexivity.
  - apply collect_sets_loop_bound; lia.
  - unfold io_bind.
    destruct (input rest) as [[more rest']|x] eqn:Em; [| reflexivity].
    apply input_shorter in Em.
    destruct (negb (str_in (lower more) ["yes"; "y"])); [reflexivity |].
    apply collect_sets_loop_bound; lia.
Qed.

(** Every set the loop returns was accepted by a pass. *)
Lemma collect_sets_accepted (tdr_codes : list string) (inp : list event) :
  forall acc sets rest,
    collect_sets tdr_codes acc inp = Ret (Some sets, rest) ->
    Forall (accepted_set tdr_codes) acc ->
    Forall (accepted_set tdr_codes) sets.
Proof.
  remember (List.length inp) as n eqn:Hn.
  revert inp Hn. induction n as [n IH] using lt_wf_ind.
  intros inp Hn acc sets rest H Hacc.
  rewrite collect_sets_unfold in H.
  destruct (read_entry tdr_codes inp) as [[e mid]|x] eqn:E; [| discriminate].
  apply read_entry_result in E. destruct E as [L He].
  destruct e as [| bad | c].
  - discriminate.
  - eapply (IH (List.length mid)); [lia | reflexivity | exact H | exact Hacc].
  - assert (Hacc' : Forall (accepted_set tdr_codes) (acc ++ [c])).
    { apply Forall_app. split; [exact Hacc | now constructor]. }
    destruct (input mid) as [[more mid']|x] eqn:Em; [| discriminate].
    apply input_shorter in Em.
    destruct (negb (str_in (lower more) ["yes"; "y"])).
    + injection H as <- _. exact Hacc'.
    + eapply (IH (List.length mid')); [lia | reflexivity | exact H | exact Hacc'].
Qed.

(** Peels one [<~] off a successful run. *)
Ltac io_step H :=
  let a := fresh "v" in
  let mid := fresh "inp" in
  let Ha := fresh "Hv" in
  apply io_bind_ret in H; destruct H as (a & mid & Ha & H).

Lemma mode1_collect_accepted (inp rest : list event) (r : Mode1.request) :
  Mode1.collect inp = Ret (Some r, rest) ->
  Forall (accepted_set (Mode1.tdr_codes r)) (Mode1.cutplane_cutline_sets r).
Proof.
  unfold Mode1.collect. intro H.
  do 9 io_step H. io_step H.
  match goal with
  | Hs : collect_sets _ [] _ = Ret (?v, _) |- _ =>
      destruct v as [sets|]; [| discriminate H];
      pose proof (collect_sets_accepted _ _ _ _ _ Hs (Forall_nil _)) as Hacc
  end.
  do 3 io_step H. injection H as <- _. exact Hacc.
Qed.

Lemma mode3_collect_accepted (inp rest : list event) (r : Mode3.request) :
  Mode3.collect inp = Ret (Some r, rest) ->
  Forall (accepted_set (Mode3.tdr_codes r)) (Mode3.cutplane_cutline_sets r).
Proof.
  unfold Mode3.collect. intro H.
  do 6 io_step H. io_step H.
  match goal with
  | Hs : collect_sets _ [] _ = Ret (?v, _) |- _ =>
      destruct v as [sets|]; [| discriminate H];
      pose proof (collect_sets_accepted _ _ _ _ _ Hs (Forall_nil _)) as Hacc
  end.
  do 3 io_step H. injection H as <- _. exact Hacc.
Qed.

(** *** The dialogue, answer by answer *)

Lemma io_bind_input {B : Type} (k : string -> io B) (s : string) (rest : list event) :
  io_bind input k (Line s :: rest) = k s rest.
Proof. reflexivity. Qed.

Lemma io_bind_lift {A B : Type} (k : A -> io B) (a : A) (rest : list event) :
  io_bind (io_lift (Ret a)) k rest = k a rest.
Proof. reflexivity. Qed.

Lemma input_times_typed (l : list string) (rest : list event) :
  input_times (List.length l) (map Line l ++ rest) = Ret (l, rest).
Proof.
  induction l as [|x l IH]; [reflexivity |].
  cbn [List.length input_times map app]. rewrite io_bind_input.
  unfold io_bind. now rewrite IH.
Qed.

Lemma io_bind_input_times {B : Type} (k : list string -> io B) (n : nat)
    (l : list string) (rest : list event) :
  List.length l = n ->
  io_bind (input_times n) k (map Line l ++ rest) = k l rest.
Proof. intros <-. unfold io_bind. now rewrite input_times_typed. Qed.

Lemma read_axis_answers (invalid : list string) (a : string) (rest : list event) :
  Forall (fun t => is_axis (lower t) = false) invalid ->
  is_axis (lower a) = true ->
  read_axis (axis_answers invalid a rest) = Ret (lower a, rest).
Proof.
  intros Hbad Ha. unfold axis_answers.
  induction Hbad as [|t bad Ht _ IH]; cbn [map app read_axis].
  - now rewrite Ha.
  - now rewrite Ht.
Qed.

Lemma io_bind_read_axis {B : Type} (k : string -> io B) (invalid : list string)
    (a : string) (rest : list event) :
  Forall (fun t => is_axis (lower t) = false) invalid ->
  is_axis (lower a) = true ->
  io_bind read_axis k (axis_answers invalid a rest) = k (lower a) rest.
Proof. intros Hbad Ha. unfold io_bind. now rewrite read_axis_answers. Qed.

(** A pass whose two axes are equal, in whatever letter case, is the early
    return, and what follows is not read. *)
Lemma read_entry_same_axis (codes invalid_a invalid_b : list string) (a pos b : string)
    (rest : list event) :
  Forall (fun t => is_axis (lower t) = false) invalid_a ->
  Forall (fun t => is_axis (lower t) = false) invalid_b ->
  is_axis (lower a) = true ->
  lower b = lower a ->
  read_entry codes (axes_answers invalid_a a pos invalid_b b rest) = Ret (SameAxis, rest).
Proof.
  intros Hia Hib Ha Hb. unfold read_entry, axes_answers.
  rewrite (io_bind_read_axis _ invalid_a a _ Hia Ha), io_bind_input.
  rewrite (io_bind_read_axis _ invalid_b b _ Hib) by (now rewrite Hb).
  rewrite Hb. now rewrite String.eqb_refl.
Qed.

(** A pass with two different axes reads its positions and parameters, and
    is accepted exactly when no parameter is outside the enumeration. *)
Lemma read_entry_set_answers (codes invalid_a invalid_b : list string) (a pos b : string)
    (positions : list string) (params : string) (rest : list event) :
  Forall (fun t => is_axis (lower t) = false) invalid_a ->
  Forall (fun t => is_axis (lower t) = false) invalid_b ->
  is_axis (lower a) = true ->
  is_axis (lower b) = true ->
  lower b <> lower a ->
  List.length positions = List.length codes ->
  read_entry codes (set_answers invalid_a a pos invalid_b b positions params rest)
  = Ret (match invalid_params_of params with
         | [] => Accepted {| cutplane_axis := lower a;
                             cutplane_position := pos;
                             cutline_axis := lower b;
                             cutline_positions := positions;
                             set_parameters := parse_parameters params |}
         | bad :: more => NotListed (bad :: more)
         end, rest).
Proof.
  intros Hia Hib Ha Hb Hab Hlen. unfold read_entry, set_answers, axes_answers.
  rewrite (io_bind_read_axis _ invalid_a a _ Hia Ha), io_bind_input.
  rewrite (io_bind_read_axis _ invalid_b b _ Hib Hb).
  destruct (String.eqb_spec (lower b) (lower a)) as [E | _]; [contradiction |].
  unfold input_each. rewrite (io_bind_input_times _ _ positions) by exact Hlen.
  rewrite io_bind_input. unfold invalid_params_of.
  destruct (filter (fun p => negb (str_in p parameters)) (parse_parameters params));
    reflexivity.
Qed.

(** Mode 1 and Mode 3 up to the set loop: what is collected afterwards
    depends on the rest of the input through the set loop only, and the
    early return of the loop is the early return of the generator. *)
Lemma mode1_collect_answers (n : string) (node_names : list string) (t : string)
    (codes : list string) (need bp cv : string) (zn zt : Z) :
  py_int n = Ret zn -> List.length node_names = range_len zn ->
  py_int t = Ret zt -> List.length codes = range_len zt ->
  exists K : option (list cutset) -> io (option Mode1.request),
    K None = io_ret None
    /\ forall rest,
         Mode1.collect (mode1_answers n node_names t codes need bp cv rest)
         = io_bind (collect_sets (map format_tdr_code codes) []) K rest.
Proof.
  intros Hn Hnodes Ht Hcodes. eexists. split; cycle 1.
  - intro rest. unfold Mode1.collect, mode1_answers.
    rewrite io_bind_input, Hn, io_bind_lift.
    rewrite (io_bind_input_times _ _ node_names) by exact Hnodes.
    rewrite io_bind_input, Ht, io_bind_lift.
    rewrite (io_bind_input_times _ _ codes) by exact Hcodes.
    rewrite !io_bind_input. reflexivity.
  - reflexivity.
Qed.

Lemma mode3_collect_answers (t bp fp cv : string) (codes : list string) (zt : Z) :
  py_int t = Ret zt -> List.length codes = range_len zt ->
  exists K : option (list cutset) -> io (option Mode3.request),
    K None = io_ret None
    /\ forall rest,
         Mode3.collect (mode3_answers t bp fp cv codes rest)
         = io_bind (collect_sets (map format_tdr_code codes) []) K rest.
Proof.
  intros Ht Hcodes. eexists. split; cycle 1.
  - intro rest. unfold Mode3.collect, mode3_answers.
    rewrite io_bind_input, Ht, io_bind_lift.
    rewrite !io_bind_input.
    rewrite (io_bind_input_times _ _ codes) by exact Hcodes.
    reflexivity.
  - reflexivity.
Qed.

(** C5 (as the code has it).  In the set loop of Modes 1 and 3:
    - a pass whose cutline axis equals its cutplane axis, in whatever letter
      case, ends the loop with the early [return []], whatever sets were
      accepted before and whatever follows; the generator then returns the
      empty list, not a partial one;
    - a pass with two different axes that names a parameter outside the
      enumeration is dropped, and the loop goes on with the next pass on the
      remaining input, keeping the sets accepted so far; the generator
      returns what it returns without the answers of the dropped pass:
      generation does not stop;
    - a pass with two different axes and listed parameters only is
      appended, and the answer to the next prompt decides whether the loop
      goes on;
    - every set from which commands are built has two different axes and
      parameters of the enumeration only, so nothing is emitted for a
      rejected pass.
    The runs at the end show both outcomes. *)
Theorem set_entry_rejection (SO : SetOrder) :
  (forall codes acc invalid_a a pos invalid_b b rest,
      Forall (fun t => is_axis (lower t) = false) invalid_a ->
      Forall (fun t => is_axis (lower t) = false) invalid_b ->
      is_axis (lower a) = true ->
      lower b = lower a ->
      read_entry codes (axes_answers invalid_a a pos invalid_b b rest)
      = Ret (SameAxis, rest)
      /\ collect_sets codes acc (axes_answers invalid_a a pos invalid_b b rest)
         = Ret (None, rest))
  /\ (forall codes acc invalid_a a pos invalid_b b positions params rest,
         Forall (fun t => is_axis (lower t) = false) invalid_a ->
         Forall (fun t => is_axis (lower t) = false) invalid_b ->
         is_axis (lower a) = true ->
         is_axis (lower b) = true ->
         lower b <> lower a ->
         List.length positions = List.length codes ->
         let entry := set_answers invalid_a a pos invalid_b b positions params rest in
         let c := {| cutplane_axis := lower a; cutplane_position := pos;
                     cutline_axis := lower b; cutline_positions := positions;
                     set_parameters := parse_parameters params |} in
         (invalid_params_of params <> [] ->
          read_entry codes entry = Ret (NotListed (invalid_params_of params), rest)
          /\ collect_sets codes acc entry = collect_sets codes acc rest)
         /\ (invalid_params_of params = [] ->
             read_entry codes entry = Ret (Accepted c, rest)
             /\ (forall more rest',
                    rest = Line more :: rest' ->
                    collect_sets codes acc entry
                    = if str_in (lower more) ["yes"; "y"]
                      then collect_sets codes (acc ++ [c]) rest'
                      else Ret (Some (acc ++ [c]), rest'))))
  /\ (forall n node_names t codes need bp cv zn zt,
         py_int n = Ret zn -> List.length node_names = range_len zn ->
         py_int t = Ret zt -> List.length codes = range_len zt ->
         (forall sets_input rest,
             collect_sets (map format_tdr_code codes) [] sets_input = Ret (None, rest) ->
             Mode1.generate_mode1_commands
               (mode1_answers n node_names t codes need bp cv sets_input)
             = Ret [])
         /\ (forall sets_input sets_input',
                collect_sets (map format_tdr_code codes) [] sets_input
                = collect_sets (map format_tdr_code codes) [] sets_input' ->
                Mode1.generate_mode1_commands
                  (mode1_answers n node_names t codes need bp cv sets_input)
                = Mode1.generate_mode1_commands
                    (mode1_answers n node_names t codes need bp cv sets_input')))
  /\ (forall t bp fp cv codes zt,
         py_int t = Ret zt -> List.length codes = range_len zt ->
         (forall sets_input rest,
             collect_sets (map format_tdr_code codes) [] sets_input = Ret (None, rest) ->
             Mode3.generate_mode3_commands (mode3_answers t bp fp cv codes sets_input)
             = Ret [])
         /\ (forall sets_input sets_input',
                collect_sets (map format_tdr_code codes) [] sets_input
                = collect_sets (map format_tdr_code codes) [] sets_input' ->
                Mode3.generate_mode3_commands (mode3_answers t bp fp cv codes sets_input)
                = Mode3.generate_mode3_commands
                    (mode3_answers t bp fp cv codes sets_input')))
  /\ (forall codes acc inp rest,
      read_entry codes inp = Ret (SameAxis, rest) ->
      collect_sets codes acc inp = Ret (None, rest))
  /\ (forall inp rest,
         Mode1.collect inp = Ret (None, rest) ->
         Mode1.generate_mode1_commands inp = Ret [])
  /\ (forall inp rest,
         Mode3.collect inp = Ret (None, rest) ->
         Mode3.generate_mode3_commands inp = Ret [])
  /\ (forall codes acc inp invalid_params rest,
         read_entry codes inp = Ret (NotListed invalid_params, rest) ->
         invalid_params <> []
         /\ Forall (fun p => ~ In p parameters) invalid_params
         /\ collect_sets codes acc inp = collect_sets codes acc rest)
  /\ (forall inp r rest,
         Mode1.collect inp = Ret (Some r, rest) ->
         Forall (accepted_set (Mode1.tdr_codes r)) (Mode1.cutplane_cutline_sets r)
         /\ Mode1.generate_mode1_commands inp = handle (Mode1.emit r))
  /\ (forall inp r rest,
         Mode3.collect inp = Ret (Some r, rest) ->
         Forall (accepted_set (Mode3.tdr_codes r)) (Mode3.cutplane_cutline_sets r)
         /\ Mode3.generate_mode3_commands inp = handle (Mode3.emit r))
  /\ Mode1.generate_mode1_commands mode1_same_axis_input = Ret []
  /\ (exists cmds,
         Mode1.generate_mode1_commands mode1_unlisted_then_listed_input = Ret cmds
         /\ count_cmd "export_curves" cmds = 1).
Proof.
  split.
  { intros codes acc invalid_a a pos invalid_b b rest Hia Hib Ha Hb.
    pose proof (read_entry_same_axis codes invalid_a invalid_b a pos b rest
                  Hia Hib Ha Hb) as Hr.
    split; [exact Hr |]. rewrite collect_sets_unfold, Hr. reflexivity. }
  split.
  { intros codes acc invalid_a a pos invalid_b b positions params rest
           Hia Hib Ha Hb Hab Hlen entry c.
    pose proof (read_entry_set_answers codes invalid_a invalid_b a pos b positions
                  params rest Hia Hib Ha Hb Hab Hlen) as Hr.
    fold entry in Hr.
    split.
    - intro Hbad.
      destruct (invalid_params_of params) as [|bad more] eqn:Hi; [contradiction |].
      split; [exact Hr |]. rewrite collect_sets_unfold, Hr. reflexivity.
    - intro Hgood. rewrite Hgood in Hr. split; [exact Hr |].
      intros more rest' ->. rewrite collect_sets_unfold, Hr. cbn [input].
      destruct (str_in (lower more) ["yes"; "y"]); reflexivity. }
  split.
  { intros n node_names t codes need bp cv zn zt Hn Hnodes Ht Hcodes.
    destruct (mode1_collect_answers n node_names t codes need bp cv zn zt
                Hn Hnodes Ht Hcodes) as (K & HK & Hcol).
    split.
    - intros sets_input rest Hs. unfold Mode1.generate_mode1_commands.
      rewrite Hcol. unfold io_bind. rewrite Hs, HK. reflexivity.
    - intros i1 i2 Hs. unfold Mode1.generate_mode1_commands.
      rewrite !Hcol. unfold io_bind. now rewrite Hs. }
  split.
  { intros t bp fp cv codes zt Ht Hcodes.
    destruct (mode3_collect_answers t bp fp cv codes zt Ht Hcodes) as (K & HK & Hcol).
    split.
    - intros sets_input rest Hs. unfold Mode3.generate_mode3_commands.
      rewrite Hcol. unfold io_bind. rewrite Hs, HK. reflexivity.
    - intros i1 i2 Hs. unfold Mode3.generate_mode3_commands.
      rewrite !Hcol. unfold io_bind. now rewrite Hs. }
  split.
  { intros codes acc inp rest H. rewrite collect_sets_unfold, H. reflexivity. }
  split.
  { intros inp rest H. unfold Mode1.generate_mode1_commands. now rewrite H. }
  split.
  { intros inp rest H. unfold Mode3.generate_mode3_commands. now rewrite H. }
  split.
  { intros codes acc inp bad rest H.
    pose proof (read_entry_result _ _ _ _ H) as (_ & Hne & Hbad).
    repeat split; try assumption.
    rewrite collect_sets_unfold, H. reflexivity. }
  split.
  { intros inp r rest H. split; [now apply (mode1_collect_accepted inp rest) |].
    unfold Mode1.generate_mode1_commands. now rewrite H. }
  split.
  { intros inp r rest H. split; [now apply (mode3_collect_accepted inp rest) |].
    unfold Mode3.generate_mode3_commands. now rewrite H. }
  split.
  { unfold Mode1.generate_mode1_commands.
    change (Mode1.collect mode1_same_axis_input) with (@Ret (option Mode1.request * list event) (None, [])).
    reflexivity. }
  destruct (get_axis_mapping_returns "x" "y") as (ax & Hax & _).
  eexists. split.
  - unfold Mode1.generate_mode1_commands.
    match goal with
    | |- context [Mode1.collect ?i] =>
        let v := eval vm_compute in (Mode1.collect i) in
        change (Mode1.collect i) with v
    end.
    cbn iota. unfold Mode1.emit.
    cbn [Mode1.cutplane_cutline_sets enumerate List.length seq combine for_each].
    unfold Mode1.process_set.
    cbn [cutplane_axis cutline_axis set_parameters]. rewrite Hax.
    vm_compute. reflexivity.
  - vm_compute. reflexivity.
Qed.

Lemma set_entry_rejection_witness :
  @Mode1.generate_mode1_commands listed_order
    (mode1_answers "1" ["n1257_I4.6"] "1" ["1"] "no" "/sim" "5e-6"
       (axes_answers ["plane"] "Z" "0.5" [] "z" [Line "never read"]))
  = Ret []
  /\ @Mode3.generate_mode3_commands listed_order
       (mode3_answers "1" "/sim" "n1278_I5_" "5e-6" ["1"]
          (set_answers [] "x" "0.5" ["w"; ""] "y" ["0.1"] "eDensity, X"
             (typed ["x"; "0.5"; "y"; "0.1"; "eDensity"; "no"; ""; "/out"; "run"])))
     = @Mode3.generate_mode3_commands listed_order
         (mode3_answers "1" "/sim" "n1278_I5_" "5e-6" ["1"]
            (typed ["x"; "0.5"; "y"; "0.1"; "eDensity"; "no"; ""; "/out"; "run"])).
Proof.
  destruct (set_entry_rejection listed_order) as (Hsame & Hset & Hm1 & Hm3 & _).
  split.
  - apply (proj1 (Hm1 "1" ["n1257_I4.6"] "1" ["1"] "no" "/sim" "5e-6" 1%Z 1%Z
                    eq_refl eq_refl eq_refl eq_refl)
             (axes_answers ["plane"] "Z" "0.5" [] "z" [Line "never read"])
             [Line "never read"]).
    refine (proj2 (Hsame (map format_tdr_code ["1"]) [] ["plane"] "Z" "0.5" [] "z"
                     [Line "never read"] _ _ eq_refl eq_refl));
      repeat constructor.
  - apply (proj2 (Hm3 "1" "/sim" "n1278_I5_" "5e-6" ["1"] 1%Z eq_refl eq_refl)).
    refine (proj2 (proj1 (Hset (map format_tdr_code ["1"]) [] [] "x" "0.5" ["w"; ""] "y"
                            ["0.1"] "eDensity, X" _ _ _ eq_refl eq_refl _ eq_refl) _));
      try discriminate; repeat constructor.
Defined.

(** C5, the claim as worded, fails: in Mode 1 and in Mode 3 a first set entry
    that names X, which is not in the enumeration, followed by a valid entry
    gives a full command list, not the empty one. *)
Lemma unlisted_parameter_does_not_abort :
  str_in "X" parameters = false
  /\ (exists cmds,
         @Mode1.generate_mode1_commands listed_order mode1_unlisted_then_listed_input
         = Ret cmds
         /\ cmds <> [] /\ count_cmd "export_curves" cmds = 1)
  /\ (exists cmds,
         @Mode3.generate_mode3_commands listed_order mode3_unlisted_then_listed_input
         = Ret cmds
         /\ cmds <> [] /\ count_cmd "export_curves" cmds = 1).
Proof.
  split; [reflexivity |].
  split; eexists; (split; [vm_compute; reflexivity |]); split;
    [discriminate | reflexivity | discriminate | reflexivity].
Qed.

(** ** Mode 3 *)

Lemma enumerate_In_index {A : Type} (k : nat) (l : list A) (i : nat) (x : A) :
  In (i, x) (enumerate k l) -> k <= i < k + List.length l.
Proof.
  revert k. induction l as [|y l IH]; intros k H; [contradiction |].
  rewrite enumerate_cons in H. destruct H as [H | H].
  - injection H as <- _. simpl. lia.
  - apply IH in H. simpl. lia.
Qed.

Lemma enumerate_app {A : Type} (k : nat) (a b : list A) :
  enumerate k (a ++ b) = enumerate k a ++ enumerate (k + List.length a) b.
Proof.
  revert k. induction a as [|x a IH]; intro k.
  - simpl. now rewrite Nat.add_0_r.
  - cbn [app]. rewrite !enumerate_cons, IH. cbn [app List.length].
    now rewrite Nat.add_succ_r.
Qed.

Lemma mode3_cutline_loop_returns (k : nat) (cl_axis : string)
    (cl_positions dsets cmds : list string) :
  List.length dsets <= List.length cl_positions ->
  Mode3.cutline_loop k cl_axis cl_positions dsets cmds
  = Ret (cmds ++ flat_map (fun ix : nat * string =>
                             Mode3.cutline_cmds k cl_axis
                               (nth (fst ix) cl_positions EmptyString) (snd ix))
                          (enumerate 0 dsets)).
Proof.
  intro Hl. unfold Mode3.cutline_loop. apply for_each_append.
  intros c [i d] Hin. apply enumerate_In_index in Hin.
  unfold item. rewrite (nth_error_nth' cl_positions EmptyString) by lia.
  reflexivity.
Qed.

(** No wrap-around: a TDR code without a position of its own index stops
    the loop with [IndexError]. *)
Lemma mode3_cutline_loop_raises (k : nat) (cl_axis : string)
    (cl_positions dsets : list string) (start : nat) (cmds : list string) :
  start <= List.length cl_positions ->
  List.length cl_positions < start + List.length dsets ->
  for_each (enumerate start dsets)
    (fun cmds '(tdr_idx, dset) =>
       cl_pos <- item cl_positions tdr_idx ;;
       Ret (cmds ++ Mode3.cutline_cmds k cl_axis cl_pos dset))
    cmds
  = Raise IndexError.
Proof.
  revert start cmds. induction dsets as [|d dsets IH]; intros start cmds H1 H2.
  - simpl in H2. lia.
  - rewrite enumerate_cons. cbn [for_each]. unfold item at 1.
    destruct (nth_error cl_positions start) as [pos|] eqn:E.
    + cbn [bind]. apply IH.
      * assert (start < List.length cl_positions)
          by (apply nth_error_Some; congruence). lia.
      * simpl in H2. lia.
    + reflexivity.
Qed.

Lemma axis_of_returns `{SetOrder} (c : cutset) :
  get_axis_mapping (cutplane_axis c) (cutline_axis c) = Ret (Mode3.axis_of c).
Proof.
  unfold Mode3.axis_of.
  destruct (get_axis_mapping_returns (cutplane_axis c) (cutline_axis c)) as (a & -> & _).
  reflexivity.
Qed.

(** One pass of the inner loop: the counter goes up by one and the lines of
    the pair are appended. *)
Lemma mode3_process_parameter_returns `{SetOrder} (r : Mode3.request)
    (set_idx : nat) (c : cutset) (cmds plots : list string) (counter param_idx : nat)
    (parameter : string) :
  Mode3.tdr_codes r <> [] ->
  List.length (Mode3.tdr_codes r) <= List.length (cutline_positions c) ->
  exists plots',
    Mode3.process_parameter r set_idx c (cmds, plots, counter) (param_idx, parameter)
    = Ret (cmds ++ Mode3.pair_cmds r (counter + 1) (set_idx, c, param_idx, parameter),
           plots', counter + 1).
Proof.
  intros Hne Hlen.
  exists (plots ++ ["Plot_" +:+ Mode3.cutline_dset (counter + 1)
                      (Mode3.dset_of (Mode3.current_value r) parameter
                                     (hd EmptyString (Mode3.tdr_codes r)))]).
  unfold Mode3.process_parameter, Mode3.pair_cmds.
  rewrite axis_of_returns. cbn [bind].
  destruct (Mode3.tdr_codes r) as [|c0 cs] eqn:Hc; [contradiction |].
  cbn [first bind hd].
  rewrite (last_item_last (c0 :: cs) EmptyString) by discriminate.
  cbn [bind].
  rewrite mode3_cutline_loop_returns by (now rewrite length_map).
  cbn [bind]. repeat rewrite <- app_assoc.
  apply (f_equal (@Ret _)).
  apply f_equal2; [apply f_equal2; [| reflexivity] | reflexivity].
  repeat (apply f_equal2; [reflexivity |]).
  apply f_equal2; [| reflexivity].
  apply flat_map_ext. now intros [i d].
Qed.

(** The inner loop over the parameters of one set: the counter advances by
    one per parameter, from the value it had on entry. *)
Lemma mode3_inner_loop `{SetOrder} (r : Mode3.request) (set_idx : nat) (c : cutset) :
  Mode3.tdr_codes r <> [] ->
  List.length (Mode3.tdr_codes r) <= List.length (cutline_positions c) ->
  forall (params : list string) (j : nat) (cmds plots : list string) (counter : nat),
  exists plots',
    for_each (enumerate j params) (Mode3.process_parameter r set_idx c)
             (cmds, plots, counter)
    = Ret (cmds ++ flat_map (fun x => Mode3.pair_cmds r (fst x) (snd x))
                     (enumerate (counter + 1)
                        (map (fun ip : nat * string => (set_idx, c, fst ip, snd ip))
                             (enumerate j params))),
           plots', counter + List.length params).
Proof.
  intros Hne Hlen params.
  induction params as [|p ps IH]; intros j cmds plots counter.
  - exists plots. simpl. now rewrite app_nil_r, Nat.add_0_r.
  - rewrite enumerate_cons. cbn [for_each map].
    destruct (mode3_process_parameter_returns r set_idx c cmds plots counter j p Hne Hlen)
      as (plots1 & ->).
    cbn [bind]. rewrite enumerate_cons. cbn [flat_map fst snd].
    destruct (IH (S j) (cmds ++ Mode3.pair_cmds r (counter + 1) (set_idx, c, j, p))
                 plots1 (counter + 1)) as (plots2 & ->).
    exists plots2. rewrite <- app_assoc.
    replace (S (counter + 1)) with (counter + 1 + 1) by lia.
    replace (counter + 1 + List.length ps) with (counter + List.length (p :: ps))
      by (simpl; lia).
    reflexivity.
Qed.

(** The outer loop: one counter runs through all (set, parameter) pairs. *)
Lemma mode3_outer_loop `{SetOrder} (r : Mode3.request) :
  Mode3.tdr_codes r <> [] ->
  forall (sets : list cutset) (s : nat) (cmds plots : list string) (counter : nat),
    (forall c, In c sets ->
               List.length (Mode3.tdr_codes r) <= List.length (cutline_positions c)) ->
    exists plots',
      for_each (enumerate s sets) (Mode3.process_set r) (cmds, plots, counter)
      = Ret (cmds ++ flat_map (fun x => Mode3.pair_cmds r (fst x) (snd x))
                       (enumerate (counter + 1) (Mode3.pairs_from s sets)),
             plots', counter + List.length (Mode3.pairs_from s sets)).
Proof.
  intros Hne sets.
  induction sets as [|c cs IH]; intros s cmds plots counter Hall.
  - exists plots. simpl. now rewrite app_nil_r, Nat.add_0_r.
  - rewrite enumerate_cons. cbn [for_each]. unfold Mode3.process_set at 1.
    destruct (mode3_inner_loop r s c Hne (Hall c (or_introl eq_refl))
                (set_parameters c) 0 cmds plots counter) as (plots1 & ->).
    cbn [bind].
    match goal with
    | |- context [for_each _ _ (?cmds1, _, ?counter1)] =>
        destruct (IH (S s) cmds1 plots1 counter1
                     (fun c' Hc' => Hall c' (or_intror Hc'))) as (plots2 & ->)
    end.
    exists plots2. unfold Mode3.pairs_from. rewrite enumerate_cons.
    cbn [flat_map fst snd].
    rewrite enumerate_app, flat_map_app, length_app, length_map, enumerate_length.
    rewrite <- app_assoc.
    replace (counter + List.length (set_parameters c) + 1)
      with (counter + 1 + List.length (set_parameters c)) by lia.
    now rewrite Nat.add_assoc.
Qed.

(** Mode 3 returns the lines of its pairs in order, the i-th pair (from 0)
    with counter value i + 1. *)
Lemma mode3_emit_returns `{SetOrder} (r : Mode3.request) :
  Mode3.tdr_codes r <> [] ->
  (forall c, In c (Mode3.cutplane_cutline_sets r) ->
             List.length (Mode3.tdr_codes r) <= List.length (cutline_positions c)) ->
  Mode3.emit r
  = Ret (flat_map (fun x => Mode3.pair_cmds r (fst x) (snd x))
                  (enumerate 1 (Mode3.pairs (Mode3.cutplane_cutline_sets r)))).
Proof.
  intros Hne Hall. unfold Mode3.emit.
  destruct (mode3_outer_loop r Hne (Mode3.cutplane_cutline_sets r) 1 [] [] 0 Hall)
    as (plots' & ->).
  reflexivity.
Qed.

(** *** Decimal rendering of the counter *)









(** *** Counting in the lines of a pair *)

Lemma flat_map_map_comp {A B C : Type} (f : A -> B) (g : B -> list C) (l : list A) :
  flat_map g (map f l) = flat_map (fun x => g (f x)) l.
Proof.
  induction l as [|x l IH]; simpl; [reflexivity | now rewrite IH].
Qed.

Lemma length_filter_flat_map_one {A : Type} (q : string -> bool)
    (g : A -> list string) (l : list A) :
  (forall x, List.length (filter q (g x)) = 1) ->
  List.length (filter q (flat_map g l)) = List.length l.
Proof.
  intro Hg. induction l as [|x l IH]; simpl; [reflexivity |].
  now rewrite filter_app, length_app, Hg, IH.
Qed.

Lemma plot1d_by_suffix (line : string) :
  startswith "create_plot " line = true -> is_plot1d_cmd line = endswith " -1d" line.
Proof. unfold is_plot1d_cmd. now intros ->. Qed.

(** Decides [is_plot1d_cmd] on the lines of a group whose text ends in a
    known suffix. *)
Ltac decide_plot1d_suffix :=
  cbn [filter];
  repeat match goal with
         | |- context [is_plot1d_cmd ?s] =>
             let b := eval cbv in (startswith "create_plot " s) in
             lazymatch b with
             | false => rewrite (not_create_plot s eq_refl)
             | true =>
                 rewrite (plot1d_by_suffix s eq_refl);
                 rewrite !endswith_append by (rewrite ?length_append; simpl; lia);
                 match goal with
                 | |- context [endswith ?a ?t] =>
                     let v := eval vm_compute in (endswith a t) in
                     change (endswith a t) with v
                 end
             end
         end.

(** Decides a keyword test on the lines of a group. *)
Ltac decide_keyword :=
  cbn [filter];
  repeat match goal with
         | |- context [startswith ?p ?s] =>
             let b := eval cbv in (startswith p s) in
             change (startswith p s) with b; cbv iota
         end.

Lemma mode3_pair_plot1d `{SetOrder} (r : Mode3.request) (k : nat)
    (x : nat * cutset * nat * string) :
  List.length (filter is_plot1d_cmd (Mode3.pair_cmds r k x)) = 1.
Proof.
  destruct x as [[[si c] pi] p]. unfold Mode3.pair_cmds.
  rewrite !flat_map_map_comp. filter_groups.
  rewrite (flat_map_nil_ext (fun x => filter _ (Mode3.load_cmds _ _)))
    by (intro code; unfold Mode3.load_cmds, Mode3.dset_of; decide_plot1d_suffix;
        reflexivity).
  rewrite (flat_map_nil_ext (fun x => filter _ (Mode3.cutplane_cmds _ _ _ _)))
    by (intro code; unfold Mode3.cutplane_cmds; decide_plot1d_suffix; reflexivity).
  rewrite (flat_map_nil_ext (fun x => filter _ (Mode3.cutplane_plot_cmds _ _)))
    by (intro code; unfold Mode3.cutplane_plot_cmds, Mode3.dset_of;
        decide_plot1d_suffix; reflexivity).
  rewrite (flat_map_nil_ext (fun x => filter _ (Mode3.cutline_cmds _ _ _ _)))
    by (intro ix; unfold Mode3.cutline_cmds; decide_plot1d_suffix; reflexivity).
  rewrite (flat_map_nil_ext (fun x => filter _ (Mode3.curve_cmds _ _ _ _ _ _)))
    by (intro ix; unfold Mode3.curve_cmds; decide_plot1d_suffix; reflexivity).
  unfold Mode3.header, banner, Mode3.link_cmds, Mode3.field_cmds, Mode3.plot1d_cmds,
    Mode3.export_cmds.
  cbn [app]. decide_plot1d_suffix. reflexivity.
Qed.

Lemma mode3_pair_export `{SetOrder} (r : Mode3.request) (k : nat)
    (x : nat * cutset * nat * string) :
  List.length (filter (startswith "export_curves ") (Mode3.pair_cmds r k x)) = 1.
Proof.
  destruct x as [[[si c] pi] p]. unfold Mode3.pair_cmds.
  filter_groups.
  rewrite (flat_map_nil_ext (fun x => filter _ (Mode3.load_cmds _ _)))
    by (intro d; unfold Mode3.load_cmds; decide_keyword; reflexivity).
  rewrite (flat_map_nil_ext (fun x => filter _ (Mode3.cutplane_cmds _ _ _ _)))
    by (intro d; unfold Mode3.cutplane_cmds; decide_keyword; reflexivity).
  rewrite (flat_map_nil_ext (fun x => filter _ (Mode3.cutplane_plot_cmds _ _)))
    by (intro d; unfold Mode3.cutplane_plot_cmds; decide_keyword; reflexivity).
  rewrite (flat_map_nil_ext (fun x => filter _ (Mode3.cutline_cmds _ _ _ _)))
    by (intro ix; unfold Mode3.cutline_cmds; decide_keyword; reflexivity).
  rewrite (flat_map_nil_ext (fun x => filter _ (Mode3.curve_cmds _ _ _ _ _ _)))
    by (intro ix; unfold Mode3.curve_cmds; decide_keyword; reflexivity).
  unfold Mode3.header, banner, Mode3.link_cmds, Mode3.field_cmds, Mode3.plot1d_cmds,
    Mode3.export_cmds.
  cbn [app]. decide_keyword. reflexivity.
Qed.

(** *** The commands of one pair, keyword by keyword *)

Lemma flat_map_singleton {A B : Type} (g : A -> list B) (h : A -> B) (l : list A) :
  (forall x, g x = [h x]) -> flat_map g l = map h l.
Proof.
  intro Hg. induction l as [|x l IH]; [reflexivity |].
  cbn [flat_map map]. now rewrite Hg, IH.
Qed.

Lemma enumerate_map {A B : Type} (f : A -> B) (l : list A) (k : nat) :
  enumerate k (map f l) = map (fun ix : nat * A => (fst ix, f (snd ix))) (enumerate k l).
Proof.
  revert k. induction l as [|x l IH]; intro k; [reflexivity |].
  cbn [map]. rewrite !enumerate_cons. cbn [map fst snd]. now rewrite IH.
Qed.


(** The [create_cutline] commands of a pair: one per TDR code, on the
    cutplane plot of that code under the counter of the pair, at the cutline
    position of the same index. *)
Lemma mode3_pair_create_cutline `{SetOrder} (r : Mode3.request) (k si pi : nat)
    (c : cutset) (p : string) :
  filter (startswith "create_cutline ") (Mode3.pair_cmds r k (si, c, pi, p))
  = map (fun jx : nat * string =>
           "create_cutline -plot Plot_C" +:+ str_of_nat k +:+ "("
             +:+ Mode3.current_value r +:+ "_" +:+ p +:+ "_" +:+ snd jx +:+ "_des)"
             +:+ " -type " +:+ cutline_axis c
             +:+ " -at " +:+ nth (fst jx) (cutline_positions c) EmptyString)
        (enumerate 0 (Mode3.tdr_codes r)).
Proof.
  unfold Mode3.pair_cmds. rewrite !enumerate_map, !flat_map_map_comp. filter_groups.
  rewrite (flat_map_nil_ext (fun x => filter _ (Mode3.load_cmds _ _)))
    by (intro d; unfold Mode3.load_cmds; decide_keyword; reflexivity).
  rewrite (flat_map_nil_ext (fun x => filter _ (Mode3.cutplane_cmds _ _ _ _)))
    by (intro d; unfold Mode3.cutplane_cmds; decide_keyword; reflexivity).
  rewrite (flat_map_nil_ext (fun x => filter _ (Mode3.cutplane_plot_cmds _ _)))
    by (intro d; unfold Mode3.cutplane_plot_cmds; decide_keyword; reflexivity).
  rewrite (flat_map_nil_ext (fun x => filter _ (Mode3.curve_cmds _ _ _ _ _ _)))
    by (intro ix; unfold Mode3.curve_cmds; decide_keyword; reflexivity).
  unfold Mode3.header, banner, Mode3.link_cmds, Mode3.field_cmds, Mode3.plot1d_cmds,
    Mode3.export_cmds.
  cbn [app]. decide_keyword. cbn [app]. rewrite app_nil_r.
  apply flat_map_singleton. intros [j code].
  unfold Mode3.cutline_cmds, Mode3.cutplane_dset, Mode3.dset_of. cbn [fst snd].
  decide_keyword. rewrite !append_assoc. reflexivity.
Qed.



(** The export of a pair: one [export_curves] command on the 1D plot of the
    pair, to the CSV file named after the set index and the parameter index
    plus one, followed by the comment with the path. *)
Lemma mode3_pair_export_line `{SetOrder} (r : Mode3.request) (k si pi : nat)
    (c : cutset) (p : string) :
  let csv := Mode3.csv_export_path r +:+ Mode3.csv_filename r +:+ "_set"
               +:+ str_of_nat si +:+ "_param" +:+ str_of_nat (pi + 1)
               +:+ "_" +:+ p +:+ ".csv" in
  let line := "export_curves {"
                +:+ join " " (map (fun i => "Curve_" +:+ str_of_nat (i + 1))
                                  (seq 0 (List.length (Mode3.tdr_codes r))))
                +:+ "} -plot Plot_C1(C" +:+ str_of_nat k +:+ "("
                +:+ Mode3.current_value r +:+ "_" +:+ p +:+ "_"
                +:+ hd EmptyString (Mode3.tdr_codes r) +:+ "_des))"
                +:+ " -filename " +:+ csv +:+ " -format csv" in
  filter (startswith "export_curves ") (Mode3.pair_cmds r k (si, c, pi, p)) = [line]
  /\ exists pre, Mode3.pair_cmds r k (si, c, pi, p) = pre ++ [line; "# " +:+ csv].
Proof.
  intros csv line. split.
  - unfold Mode3.pair_cmds.
    rewrite !enumerate_map, !flat_map_map_comp. filter_groups.
    rewrite (flat_map_nil_ext (fun x => filter _ (Mode3.load_cmds _ _)))
      by (intro d; unfold Mode3.load_cmds; decide_keyword; reflexivity).
    rewrite (flat_map_nil_ext (fun x => filter _ (Mode3.cutplane_cmds _ _ _ _)))
      by (intro d; unfold Mode3.cutplane_cmds; decide_keyword; reflexivity).
    rewrite (flat_map_nil_ext (fun x => filter _ (Mode3.cutplane_plot_cmds _ _)))
      by (intro d; unfold Mode3.cutplane_plot_cmds; decide_keyword; reflexivity).
    rewrite (flat_map_nil_ext (fun x => filter _ (Mode3.cutline_cmds _ _ _ _)))
      by (intro d; unfold Mode3.cutline_cmds; decide_keyword; reflexivity).
    rewrite (flat_map_nil_ext (fun x => filter _ (Mode3.curve_cmds _ _ _ _ _ _)))
      by (intro ix; unfold Mode3.curve_cmds; decide_keyword; reflexivity).
    unfold Mode3.header, banner, Mode3.link_cmds, Mode3.field_cmds, Mode3.plot1d_cmds,
      Mode3.export_cmds, Mode3.cutline_dset, Mode3.dset_of, Mode3.csv_path_of.
    cbn [app]. decide_keyword. cbn [app].
    subst line csv. cbv beta. rewrite !append_assoc. reflexivity.
  - assert (Hs : forall a b suf : list string,
                 (exists pre, b = pre ++ suf) -> exists pre, a ++ b = pre ++ suf).
    { intros a b suf (pre & ->). exists (a ++ pre). now rewrite app_assoc. }
    unfold Mode3.pair_cmds. do 9 apply Hs.
    unfold Mode3.export_cmds. eexists [_; _]. cbn [app].
    do 2 (apply f_equal2; [reflexivity |]).
    unfold Mode3.cutline_dset, Mode3.dset_of, Mode3.csv_path_of.
    subst line csv. cbv beta. rewrite !append_assoc. reflexivity.
Qed.

(** *** The pairs in iteration order *)

Lemma pairs_from_cons (s : nat) (c : cutset) (cs : list cutset) :
  Mode3.pairs_from s (c :: cs)
  = map (fun ip : nat * string => (s, c, fst ip, snd ip)) (enumerate 0 (set_parameters c))
    ++ Mode3.pairs_from (S s) cs.
Proof. reflexivity. Qed.

(** The parameter at position [q] of the set at position [s] is passed
    after all parameters of the sets before it and the [q] parameters
    before it in its own set; the set index counts from [start]. *)
Lemma mode3_pairs_from_position (sets : list cutset) :
  forall (start s : nat) (c : cutset) (q : nat) (p : string),
    nth_error sets s = Some c ->
    nth_error (set_parameters c) q = Some p ->
    nth_error (Mode3.pairs_from start sets)
              (List.length (concat (map set_parameters (firstn s sets))) + q)
    = Some (start + s, c, q, p).
Proof.
  induction sets as [|c0 cs IH]; intros start [|s] c q p Hs Hq;
    cbn [nth_error] in Hs; try discriminate Hs.
  - injection Hs as ->. rewrite pairs_from_cons. cbn [firstn map concat List.length plus].
    assert (Hlt : q < List.length (set_parameters c))
      by (apply nth_error_Some; congruence).
    rewrite nth_error_app1 by (now rewrite length_map, enumerate_length).
    rewrite (map_nth_error _ _ _ (enumerate_nth_error 0 _ q p Hq)).
    cbn [fst snd plus]. now rewrite Nat.add_0_r.
  - rewrite pairs_from_cons. cbn [firstn map concat]. rewrite length_app.
    rewrite nth_error_app2 by (rewrite length_map, enumerate_length; lia).
    rewrite length_map, enumerate_length.
    replace (List.length (set_parameters c0)
             + List.length (concat (map set_parameters (firstn s cs))) + q
             - List.length (set_parameters c0))
      with (List.length (concat (map set_parameters (firstn s cs))) + q) by lia.
    rewrite (IH (S start) s c q p Hs Hq). do 4 f_equal. lia.
Qed.


(** The pass of the pair: under counter value position + 1. *)
Lemma mode3_pair_counter (sets : list cutset) (s : nat) (c : cutset) (q : nat)
    (p : string) :
  nth_error sets s = Some c ->
  nth_error (set_parameters c) q = Some p ->
  let counter := List.length (concat (map set_parameters (firstn s sets))) + q + 1 in
  nth_error (enumerate 1 (Mode3.pairs sets)) (counter - 1)
  = Some (counter, (s + 1, c, q, p)).
Proof.
  intros Hs Hq counter. subst counter.
  replace (List.length (concat (map set_parameters (firstn s sets))) + q + 1 - 1)
    with (List.length (concat (map set_parameters (firstn s sets))) + q) by lia.
  pose proof (mode3_pairs_from_position sets 1 s c q p Hs Hq) as Hp.
  rewrite (Nat.add_comm 1 s) in Hp. unfold Mode3.pairs.
  rewrite (enumerate_nth_error 1 _ _ _ Hp). now rewrite Nat.add_comm.
Qed.

(** *** No wrap-around *)

Lemma mode3_process_parameter_raises `{SetOrder} (r : Mode3.request) (set_idx : nat)
    (c : cutset) (st : Mode3.state) (ip : nat * string) :
  Mode3.tdr_codes r <> [] ->
  List.length (cutline_positions c) < List.length (Mode3.tdr_codes r) ->
  Mode3.process_parameter r set_idx c st ip = Raise IndexError.
Proof.
  intros Hne Hlen. destruct st as [[cmds plots] counter]. destruct ip as [pi p].
  unfold Mode3.process_parameter.
  rewrite axis_of_returns. cbn [bind].
  destruct (Mode3.tdr_codes r) as [|c0 cs] eqn:Hc; [contradiction |].
  cbn [first bind].
  rewrite (last_item_last (c0 :: cs) EmptyString) by discriminate.
  cbn [bind]. unfold Mode3.cutline_loop.
  rewrite mode3_cutline_loop_raises; [reflexivity | lia |].
  rewrite length_map. lia.
Qed.

(** A set that has a parameter and fewer cutline positions than there are
    TDR codes stops the generation with [IndexError]. *)
Lemma mode3_outer_loop_raises `{SetOrder} (r : Mode3.request) :
  Mode3.tdr_codes r <> [] ->
  forall (sets : list cutset) (s : nat) (st : Mode3.state),
    (exists c, In c sets /\ set_parameters c <> []
               /\ List.length (cutline_positions c) < List.length (Mode3.tdr_codes r)) ->
    for_each (enumerate s sets) (Mode3.process_set r) st = Raise IndexError.
Proof.
  intros Hne sets. induction sets as [|c0 cs IH]; intros s st (c & Hin & Hp & Hlen).
  - contradiction.
  - rewrite enumerate_cons. cbn [for_each]. unfold Mode3.process_set at 1.
    destruct (Nat.lt_ge_cases (List.length (cutline_positions c0))
                              (List.length (Mode3.tdr_codes r))) as [Hshort | Hlong].
    + destruct (set_parameters c0) as [|p0 ps] eqn:Hps.
      * cbn [enumerate List.length seq combine for_each bind]. apply IH.
        exists c. destruct Hin as [<- | Hin]; [congruence |]. now repeat split.
      * rewrite enumerate_cons. cbn [for_each].
        now rewrite (mode3_process_parameter_raises r s c0 st (0, p0) Hne Hshort).
    + destruct st as [[cmds plots] counter].
      destruct (mode3_inner_loop r s c0 Hne Hlong (set_parameters c0) 0 cmds plots counter)
        as (plots' & ->).
      cbn [bind]. apply IH.
      exists c. destruct Hin as [<- | Hin]; [lia |]. now repeat split.
Qed.

(** Filtering the output pair by pair. *)
Lemma mode3_filter_pairs `{SetOrder} (r : Mode3.request) (q : string -> bool)
    (F : nat * (nat * cutset * nat * string) -> list string)
    (l : list (nat * (nat * cutset * nat * string))) :
  (forall k si c pi p, filter q (Mode3.pair_cmds r k (si, c, pi, p)) = F (k, (si, c, pi, p))) ->
  filter q (flat_map (fun x => Mode3.pair_cmds r (fst x) (snd x)) l) = flat_map F l.
Proof.
  intro HF. rewrite filter_flat_map. apply flat_map_ext.
  intros [k [[[si c] pi] p]]. apply HF.
Qed.



(** C6.  Mode 3 with at least one TDR code.
    - When every set has a cutline position for every TDR code, the
      generator returns a command list whose [create_cutline] commands are,
      pair after pair, one per TDR code, the cutline of the TDR code at
      position j taken at the cutline position at the same position j of
      the set; and whose [export_curves] commands, one per pair, write to
      {csvPath}{csvFilename}_set{setIndex}_param{paramIndex+1}_{parameter}.csv,
      each followed by the comment with that path.  For the parameter at
      position q (from 0) of the set at position s (from 0) the file is
      ..._set{s+1}_param{q+1}_{parameter}.csv: the set index starts at 1 and
      the parameter index is printed plus one.
    - When a set with at least one parameter has fewer cutline positions
      than there are TDR codes, the generator stops with [IndexError]: the
      lookup does not wrap around, and the handler does not cover it. *)
Theorem mode3_cutline_index_and_csv_name (SO : SetOrder) (r : Mode3.request) :
  Mode3.tdr_codes r <> [] ->
  let sets := Mode3.cutplane_cutline_sets r in
  let codes := Mode3.tdr_codes r in
  let prs := Mode3.pairs sets in
  let cv := Mode3.current_value r in
  let counter_of := fun s q : nat =>
                      List.length (concat (map set_parameters (firstn s sets))) + q + 1 in
  let csv := fun (si pi : nat) (p : string) =>
               Mode3.csv_export_path r +:+ Mode3.csv_filename r +:+ "_set"
                 +:+ str_of_nat si +:+ "_param" +:+ str_of_nat (pi + 1)
                 +:+ "_" +:+ p +:+ ".csv" in
  let export := fun (k si pi : nat) (p : string) =>
                  "export_curves {"
                    +:+ join " " (map (fun i => "Curve_" +:+ str_of_nat (i + 1))
                                      (seq 0 (List.length codes)))
                    +:+ "} -plot Plot_C1(C" +:+ str_of_nat k +:+ "("
                    +:+ cv +:+ "_" +:+ p +:+ "_" +:+ hd EmptyString codes +:+ "_des))"
                    +:+ " -filename " +:+ csv si pi p +:+ " -format csv" in
  ((forall c, In c sets -> List.length codes <= List.length (cutline_positions c)) ->
   exists cmds,
     Mode3.emit r = Ret cmds
     /\ filter (startswith "create_cutline ") cmds
        = flat_map (fun x : nat * (nat * cutset * nat * string) =>
                      let '(k, (_, c, _, p)) := x in
                      map (fun jx : nat * string =>
                             "create_cutline -plot Plot_C" +:+ str_of_nat k +:+ "("
                               +:+ cv +:+ "_" +:+ p +:+ "_" +:+ snd jx +:+ "_des)"
                               +:+ " -type " +:+ cutline_axis c
                               +:+ " -at " +:+ nth (fst jx) (cutline_positions c) EmptyString)
                          (enumerate 0 codes))
                   (enumerate 1 prs)
     /\ filter (startswith "export_curves ") cmds
        = map (fun x : nat * (nat * cutset * nat * string) =>
                 let '(k, (si, _, pi, p)) := x in export k si pi p)
              (enumerate 1 prs)
     /\ (forall s c q p,
            nth_error sets s = Some c ->
            nth_error (set_parameters c) q = Some p ->
            nth_error (enumerate 1 prs) (counter_of s q - 1)
            = Some (counter_of s q, (s + 1, c, q, p))
            /\ (exists pre post,
                   cmds = pre ++ [ export (counter_of s q) (s + 1) q p;
                                   "# " +:+ Mode3.csv_export_path r +:+ Mode3.csv_filename r
                                     +:+ "_set" +:+ str_of_nat (s + 1)
                                     +:+ "_param" +:+ str_of_nat (q + 1)
                                     +:+ "_" +:+ p +:+ ".csv" ] ++ post)
            /\ (forall j code,
                   nth_error codes j = Some code ->
                   exists pos,
                     nth_error (cutline_positions c) j = Some pos
                     /\ In ("create_cutline -plot Plot_C" +:+ str_of_nat (counter_of s q)
                              +:+ "(" +:+ cv +:+ "_" +:+ p +:+ "_" +:+ code +:+ "_des)"
                              +:+ " -type " +:+ cutline_axis c +:+ " -at " +:+ pos) cmds)))
  /\ ((exists c, In c sets /\ set_parameters c <> []
                 /\ List.length (cutline_positions c) < List.length codes) ->
      Mode3.emit r = Raise IndexError
      /\ handle (Mode3.emit r) = Raise IndexError).
Proof.
  intros Hne sets codes prs cv counter_of csv export.
  split.
  - intro Hall.
    set (cmds := flat_map (fun x => Mode3.pair_cmds r (fst x) (snd x)) (enumerate 1 prs)).
    exists cmds.
    assert (Hpos : forall s c q p,
               nth_error sets s = Some c ->
               nth_error (set_parameters c) q = Some p ->
               nth_error (enumerate 1 prs) (counter_of s q - 1)
               = Some (counter_of s q, (s + 1, c, q, p))).
    { intros s c q p Hs Hq. exact (mode3_pair_counter sets s c q p Hs Hq). }
    assert (Hline : filter (startswith "create_cutline ") cmds
                    = flat_map (fun x : nat * (nat * cutset * nat * string) =>
                      let '(k, (_, c, _, p)) := x in
                      map (fun jx : nat * string =>
                             "create_cutline -plot Plot_C" +:+ str_of_nat k +:+ "("
                               +:+ cv +:+ "_" +:+ p +:+ "_" +:+ snd jx +:+ "_des)"
                               +:+ " -type " +:+ cutline_axis c
                               +:+ " -at " +:+ nth (fst jx) (cutline_positions c) EmptyString)
                          (enumerate 0 codes))
                   (enumerate 1 prs)).
    { apply mode3_filter_pairs. intros k si c pi p.
      exact (mode3_pair_create_cutline r k si pi c p). }
    split; [now apply mode3_emit_returns |].
    split; [exact Hline |].
    split.
    { unfold cmds.
      rewrite (mode3_filter_pairs r _
                 (fun x : nat * (nat * cutset * nat * string) =>
                    let '(k, (si, _, pi, p)) := x in [export k si pi p])).
      - apply flat_map_singleton. now intros [k [[[si c] pi] p]].
      - intros k si c pi p. exact (proj1 (mode3_pair_export_line r k si pi c p)). }
    intros s c q p Hs Hq.
    pose proof (Hpos s c q p Hs Hq) as Hk.
    split; [exact Hk |].
    split.
    { apply nth_error_split in Hk. destruct Hk as (l1 & l2 & Hl & _).
      destruct (proj2 (mode3_pair_export_line r (counter_of s q) (s + 1) q c p))
        as (pre & Hpre).
      unfold cmds. rewrite Hl, flat_map_app. cbn [flat_map fst snd].
      rewrite Hpre.
      exists (flat_map (fun x => Mode3.pair_cmds r (fst x) (snd x)) l1 ++ pre).
      exists (flat_map (fun x => Mode3.pair_cmds r (fst x) (snd x)) l2).
      now rewrite <- !app_assoc. }
    intros j code Hj.
    assert (Hlt : j < List.length (cutline_positions c)).
    { assert (j < List.length codes) by (apply nth_error_Some; congruence).
      pose proof (Hall c (nth_error_In _ _ Hs)). lia. }
    exists (nth j (cutline_positions c) EmptyString).
    split; [now apply nth_error_nth' |].
    apply (proj1 (filter_In (startswith "create_cutline ") _ cmds)). rewrite Hline.
    apply in_flat_map. exists (counter_of s q, (s + 1, c, q, p)).
    split; [exact (nth_error_In _ _ Hk) |].
    apply in_map_iff. exists (j, code). split; [reflexivity |].
    eapply nth_error_In. exact (enumerate_nth_error 0 codes j code Hj).
  - intro Hbad.
    assert (He : Mode3.emit r = Raise IndexError).
    { unfold Mode3.emit.
      now rewrite (mode3_outer_loop_raises r Hne sets 1 ([], [], 0) Hbad). }
    split; [exact He | now rewrite He].
Qed.

Lemma mode3_cutline_index_and_csv_name_witness :
  exists cmds,
    @Mode3.generate_mode3_commands listed_order mode3_two_sets_input = Ret cmds
    /\ In "create_cutline -plot Plot_C2(5e-6_hDensity_0001_des) -type x -at 0.5" cmds
    /\ (exists pre post,
           cmds = pre ++ [ "export_curves {Curve_1 Curve_2 Curve_3} -plot Plot_C1(C2(5e-6_hDensity_0000_des)) -filename /out/run_set2_param1_hDensity.csv -format csv";
                           "# /out/run_set2_param1_hDensity.csv" ] ++ post).
Proof.
  destruct (mode3_cutline_index_and_csv_name listed_order mode3_two_sets_request)
    as (Hok & _); [discriminate |].
  destruct Hok as (cmds & He & _ & _ & Hpair).
  - intros c [<- | [<- | []]]; simpl; lia.
  - exists cmds.
    destruct (Hpair 1 _ 0 "hDensity" eq_refl eq_refl) as (_ & Hexport & Hline).
    split.
    { unfold Mode3.generate_mode3_commands.
      change (Mode3.collect mode3_two_sets_input)
        with (Ret (Some mode3_two_sets_request, @nil event)).
      cbn iota. rewrite He. reflexivity. }
    split; [| exact Hexport].
    destruct (Hline 1 "0001" eq_refl) as (pos & Hpos & Hin).
    injection Hpos as <-. exact Hin.
Defined.

(** * Further properties of the code *)

(** ** Naming utility, beyond its preconditions *)

(** X1.  [get_axis_mapping] never fails, whatever two strings it is given:
    it returns one of X, Y, Z that differs from both arguments in upper
    case, and [get_export_variables] returns that axis followed by the
    parameter as it was passed.  With equal axes two candidates remain and
    the one returned is the one the set happens to list first: Y under one
    iteration order, Z under another. *)
Theorem get_axis_mapping_never_fails (SO : SetOrder) (a b parameter : string) :
  (exists c, get_axis_mapping a b = Ret c
             /\ get_export_variables a b parameter = Ret [c; parameter]
             /\ In c all_axes /\ c <> upper a /\ c <> upper b)
  /\ @get_axis_mapping listed_order "x" "x" = Ret "Y"
  /\ @get_axis_mapping reversed_order "x" "x" = Ret "Z".
Proof.
  split; [| split; reflexivity].
  destruct (get_axis_mapping_returns a b) as (c & Hc & Hin & Ha & Hb).
  exists c. unfold get_export_variables. rewrite Hc. now repeat split.
Qed.

Lemma ascii_upper_lower (c : ascii) : ascii_upper (ascii_lower c) = ascii_upper c.
Proof. destruct c as [[] [] [] [] [] [] [] []]; reflexivity. Qed.

Lemma ascii_upper_upper (c : ascii) : ascii_upper (ascii_upper c) = ascii_upper c.
Proof. destruct c as [[] [] [] [] [] [] [] []]; reflexivity. Qed.

Lemma upper_lower (s : string) : upper (lower s) = upper s.
Proof.
  induction s as [|c s IH]; [reflexivity |].
  unfold upper, lower in *. simpl. now rewrite ascii_upper_lower, IH.
Qed.

Lemma upper_upper (s : string) : upper (upper s) = upper s.
Proof.
  induction s as [|c s IH]; [reflexivity |].
  unfold upper in *. simpl. now rewrite ascii_upper_upper, IH.
Qed.

(** X2.  [get_axis_mapping] does not depend on the order of its two
    arguments nor on their letter case. *)
Theorem get_axis_mapping_symmetric_caseless (SO : SetOrder) (a b : string) :
  get_axis_mapping a b = get_axis_mapping b a
  /\ get_axis_mapping (lower a) (upper b) = get_axis_mapping a b.
Proof.
  unfold get_axis_mapping. split.
  - f_equal. f_equal. unfold set_diff. apply filter_ext. intro x.
    unfold str_in. simpl. now rewrite !orb_false_r, orb_comm.
  - now rewrite upper_lower, upper_upper.
Qed.

(** X3.  [format_tdr_code] does not check its input: the result always
    starts with 00 and has 2 + max(2, length of the input) characters, so an
    input of more than two characters gives a code of more than four, the
    input itself behind 00. *)
Theorem format_tdr_code_shape (s : string) :
  startswith "00" (format_tdr_code s) = true
  /\ String.length (format_tdr_code s) = 2 + Nat.max 2 (String.length s)
  /\ (2 <= String.length s -> format_tdr_code s = "00" +:+ s).
Proof.
  unfold format_tdr_code. split; [reflexivity |]. split.
  - unfold zfill.
    destruct s as [|a [|b r]]; try reflexivity.
    simpl. destruct (is_sign a); reflexivity.
  - intro Hl. unfold zfill.
    destruct s as [|a [|b r]]; simpl in Hl; try lia. reflexivity.
Qed.

(** X6.  The path normalisation [if not p.endswith('/'): p += '/'] always
    yields a path that ends with a slash, and applying it again changes
    nothing. *)
Theorem with_slash_idempotent (p : string) :
  endswith "/" (with_slash p) = true
  /\ with_slash (with_slash p) = with_slash p.
Proof.
  assert (H : endswith "/" (with_slash p) = true).
  { unfold with_slash. destruct (endswith "/" p) eqn:E; [exact E |].
    now rewrite endswith_append by (simpl; lia). }
  split; [exact H |].
  unfold with_slash at 1. now rewrite H.
Qed.

(** X7.  The Y-axis prompt consumes one line and always yields linear or
    log: the lowercased answer when it is one of the two, log for the empty
    answer and for every other answer. *)
Theorem read_y_axis_type_linear_or_log (s : string) (rest : list event) :
  exists y,
    read_y_axis_type (Line s :: rest) = Ret (y, rest)
    /\ (y = "linear" \/ y = "log")
    /\ (lower s = "linear" -> y = "linear")
    /\ (lower s <> "linear" -> y = "log").
Proof.
  unfold read_y_axis_type, io_bind, input, io_ret.
  eexists. split; [reflexivity |].
  destruct (lower s) as [|c t] eqn:E; cbn [truthy].
  - split; [now right |]. split; [intro H; discriminate H | reflexivity].
  - unfold str_in. cbn [existsb].
    destruct (String.eqb_spec (String c t) "linear") as [-> | Hn].
    + cbn [orb]. split; [now left |]. split; [reflexivity |].
      intro H. now contradiction H.
    + destruct (String.eqb_spec (String c t) "log") as [-> | Hn'].
      * cbn [orb]. split; [now right |]. split; [intro H; discriminate H | reflexivity].
      * cbn [orb]. split; [now right |]. split; [intro H; contradiction | reflexivity].
Qed.

(** X8.  The axis prompt repeats until an answer is x, y or z in either
    case: the answers before it are dropped, the accepted one is returned in
    lower case, and the input after it is left for the next prompt. *)
Theorem read_axis_skips_invalid (bad : list string) (s : string) (rest : list event) :
  Forall (fun t => is_axis (lower t) = false) bad ->
  is_axis (lower s) = true ->
  read_axis (map Line bad ++ Line s :: rest) = Ret (lower s, rest).
Proof.
  intros Hbad Hs. induction Hbad as [|t bad Ht _ IH]; simpl.
  - now rewrite Hs.
  - now rewrite Ht.
Qed.

Lemma read_axis_skips_invalid_witness :
  read_axis (map Line ["a"; ""; "xy"] ++ Line "Z" :: [Line "0.5"])
  = Ret (lower "Z", [Line "0.5"]).
Proof.
  apply (read_axis_skips_invalid ["a"; ""; "xy"] "Z" [Line "0.5"]).
  - repeat constructor.
  - reflexivity.
Defined.

(** ** Parsing the parameter list *)

Lemma split_without_sep (sep : ascii) (x : string) :
  has_no sep x = true -> split sep x = [x].
Proof.
  induction x as [|c x IH]; [reflexivity |].
  unfold has_no in *. simpl. intro H. apply andb_prop in H. destruct H as [Hc Hx].
  apply negb_true_iff in Hc. rewrite Hc, (IH Hx). reflexivity.
Qed.

Lemma split_append_sep (sep : ascii) (x rest : string) :
  has_no sep x = true ->
  split sep (x +:+ String sep rest) = x :: split sep rest.
Proof.
  induction x as [|c x IH]; intro H.
  - simpl. now rewrite Ascii.eqb_refl.
  - unfold has_no in *. simpl in H. apply andb_prop in H. destruct H as [Hc Hx].
    apply negb_true_iff in Hc. simpl. rewrite Hc, (IH Hx). reflexivity.
Qed.

(** Splitting what was joined gives the pieces back. *)
Lemma split_join (sep : ascii) (l : list string) :
  l <> [] ->
  Forall (fun x => has_no sep x = true) l ->
  split sep (join (String sep EmptyString) l) = l.
Proof.
  intros Hne Hall. induction Hall as [|x l Hx Hl IH]; [contradiction |].
  destruct l as [|y t].
  - simpl. now apply split_without_sep.
  - unfold join in *.
    change (String.concat (String sep EmptyString) (x :: y :: t))
      with (x +:+ String sep (String.concat (String sep EmptyString) (y :: t))).
    rewrite (split_append_sep sep x _ Hx). f_equal. apply IH. discriminate.
Qed.

Lemma lstrip_clean (p : string) : starts_with_space p = false -> lstrip p = p.
Proof. destruct p as [|c p]; simpl; [reflexivity |]. now intros ->. Qed.

Lemma rstrip_clean (p : string) : ends_with_space p = false -> rstrip p = p.
Proof.
  induction p as [|c p IH]; [reflexivity |].
  destruct p as [|d p].
  - simpl. now intros ->.
  - intro H. change (ends_with_space (String d p) = false) in H.
    specialize (IH H). simpl in IH |- *. rewrite IH. reflexivity.
Qed.

Lemma strip_clean (p : string) :
  starts_with_space p = false -> ends_with_space p = false -> strip p = p.
Proof.
  intros Hs He. unfold strip. rewrite (lstrip_clean p Hs). now apply rstrip_clean.
Qed.

Lemma has_no_strip (sep : ascii) (seg : string) :
  has_no sep seg = true -> has_no sep (strip seg) = true.
Proof.
  intro H. destruct (strip_decompose seg) as (l & r & Hseg & _).
  rewrite Hseg in H. unfold has_no in *.
  rewrite !str_forall_append in H.
  apply andb_prop in H. destruct H as [_ H].
  apply andb_prop in H. now destruct H.
Qed.

Lemma parse_parameters_clean (raw : string) :
  Forall clean_parameter (parse_parameters raw).
Proof.
  unfold parse_parameters.
  pose proof (split_has_no_sep ","%char raw) as Hall.
  induction Hall as [|seg l Hseg _ IH]; simpl; [constructor |].
  destruct (truthy (strip seg)) eqn:E; [| exact IH].
  simpl. constructor; [| exact IH].
  destruct (strip_decompose seg) as (a & b & _ & _ & _ & Hs & He).
  repeat split; try assumption. now apply has_no_strip.
Qed.

Lemma parse_join_clean (l : list string) :
  Forall clean_parameter l -> parse_parameters (join "," l) = l.
Proof.
  intro Hall. unfold parse_parameters.
  destruct l as [|x t]; [reflexivity |].
  rewrite split_join.
  - induction Hall as [|y l (Ht & _ & Hs & He) _ IH]; [reflexivity |].
    simpl. rewrite (strip_clean y Hs He), Ht. simpl.
    now rewrite (strip_clean y Hs He), IH.
  - discriminate.
  - eapply Forall_impl; [| exact Hall]. now intros y (_ & Hc & _).
Qed.

(** X4.  Whatever the text, every name [parse_parameters] returns is
    non-empty, holds no comma and has no white space at either end; joining
    the result with commas and parsing again gives the same list. *)
Theorem parse_parameters_normal_form (raw : string) :
  Forall clean_parameter (parse_parameters raw)
  /\ parse_parameters (join "," (parse_parameters raw)) = parse_parameters raw.
Proof.
  split; [apply parse_parameters_clean |].
  apply parse_join_clean, parse_parameters_clean.
Qed.

(** X5.  Round trip: a list of names that are non-empty, comma-free and
    without white space at their ends is what [parse_parameters] reads back
    from the names joined by commas (the empty list from the empty text). *)
Theorem parse_parameters_of_join (l : list string) :
  Forall clean_parameter l -> parse_parameters (join "," l) = l.
Proof. apply parse_join_clean. Qed.

Lemma parse_parameters_of_join_witness :
  parse_parameters (join "," ["eDensity"; "hDensity"; "ElectricField"])
  = ["eDensity"; "hDensity"; "ElectricField"].
Proof.
  apply (parse_parameters_of_join ["eDensity"; "hDensity"; "ElectricField"]).
  repeat constructor.
Defined.

(** ** The set loop: what it returns *)

Lemma collect_sets_extends (tdr_codes : list string) (inp : list event) :
  forall acc sets rest,
    collect_sets tdr_codes acc inp = Ret (Some sets, rest) ->
    exists new, sets = acc ++ new /\ new <> []
                /\ List.length rest < List.length inp.
Proof.
  remember (List.length inp) as n eqn:Hn.
  revert inp Hn. induction n as [n IH] using lt_wf_ind.
  intros inp Hn acc sets rest H.
  rewrite collect_sets_unfold in H.
  destruct (read_entry tdr_codes inp) as [[e mid]|x] eqn:E; [| discriminate].
  apply read_entry_result in E. destruct E as [L _].
  destruct e as [| bad | c].
  - discriminate.
  - destruct (IH (List.length mid) ltac:(lia) mid eq_refl acc sets rest H)
      as (new & Hs & Hnew & Hl).
    exists new. repeat split; try assumption. lia.
  - destruct (input mid) as [[more mid']|x] eqn:Em; [| discriminate].
    apply input_shorter in Em.
    destruct (negb (str_in (lower more) ["yes"; "y"])).
    + injection H as <- <-. exists [c]. repeat split; [discriminate | lia].
    + destruct (IH (List.length mid') ltac:(lia) mid' eq_refl (acc ++ [c]) sets rest H)
        as (new & Hs & Hnew & Hl).
      exists (c :: new). rewrite Hs, <- app_assoc.
      repeat split; [discriminate | lia].
Qed.

(** X9.  When the set loop ends normally it has appended at least one set
    to those it started with, in the order they were entered, and has
    consumed input; so a request that reaches command generation in Mode 1
    or Mode 3 always holds at least one set. *)
Theorem collected_request_has_a_set :
  (forall codes acc inp sets rest,
      collect_sets codes acc inp = Ret (Some sets, rest) ->
      exists new, sets = acc ++ new /\ new <> []
                  /\ List.length rest < List.length inp)
  /\ (forall inp r rest,
         Mode1.collect inp = Ret (Some r, rest) ->
         Mode1.cutplane_cutline_sets r <> [])
  /\ (forall inp r rest,
         Mode3.collect inp = Ret (Some r, rest) ->
         Mode3.cutplane_cutline_sets r <> []).
Proof.
  split; [intros codes acc inp; apply collect_sets_extends |].
  split.
  - unfold Mode1.collect. intros inp r rest H.
    do 9 io_step H. io_step H.
    match goal with
    | Hs : collect_sets _ [] _ = Ret (?v, _) |- _ =>
        destruct v as [sets|]; [| discriminate H];
        apply collect_sets_extends in Hs; destruct Hs as (new & Hext & Hnew & _)
    end.
    do 3 io_step H. injection H as <- _. cbn [Mode1.cutplane_cutline_sets].
    now rewrite Hext.
  - unfold Mode3.collect. intros inp r rest H.
    do 6 io_step H. io_step H.
    match goal with
    | Hs : collect_sets _ [] _ = Ret (?v, _) |- _ =>
        destruct v as [sets|]; [| discriminate H];
        apply collect_sets_extends in Hs; destruct Hs as (new & Hext & Hnew & _)
    end.
    do 3 io_step H. injection H as <- _. cbn [Mode3.cutplane_cutline_sets].
    now rewrite Hext.
Qed.

(** ** Mode 3: when it returns and when it does not *)


(** Sets without parameters leave the loop state as it is. *)
Lemma mode3_no_pairs `{SetOrder} (r : Mode3.request) (sets : list cutset) :
  forall s st,
    Mode3.pairs_from s sets = [] ->
    for_each (enumerate s sets) (Mode3.process_set r) st = Ret st.
Proof.
  induction sets as [|c cs IH]; intros s st Hp; [reflexivity |].
  rewrite pairs_from_cons in Hp. apply app_eq_nil in Hp. destruct Hp as [Hc Hcs].
  rewrite enumerate_cons. cbn [for_each]. unfold Mode3.process_set at 1.
  destruct (set_parameters c) as [|p ps]; [| discriminate Hc].
  cbn [enumerate List.length seq combine for_each bind]. now apply IH.
Qed.

(** Without a TDR code the first pair stops the generator. *)
Lemma mode3_no_codes `{SetOrder} (r : Mode3.request) (sets : list cutset) :
  Mode3.tdr_codes r = [] ->
  forall s st,
    Mode3.pairs_from s sets <> [] ->
    for_each (enumerate s sets) (Mode3.process_set r) st = Raise IndexError.
Proof.
  intro Hc. induction sets as [|c cs IH]; intros s st Hp; [contradiction |].
  rewrite pairs_from_cons in Hp.
  rewrite enumerate_cons. cbn [for_each]. unfold Mode3.process_set at 1.
  destruct (set_parameters c) as [|p ps].
  - cbn [enumerate List.length seq combine for_each bind]. apply IH. exact Hp.
  - rewrite enumerate_cons. cbn [for_each].
    destruct st as [[cmds plots] k].
    unfold Mode3.process_parameter. rewrite axis_of_returns, Hc. reflexivity.
Qed.

(** X10.  Mode 3 on a request with no (set, parameter) pair, every set
    having an empty parameter list, returns the empty command list; on a
    request with at least one pair and no TDR code it raises [IndexError],
    which the handler lets through. *)
Theorem mode3_empty_cases (SO : SetOrder) (r : Mode3.request) :
  (Mode3.pairs (Mode3.cutplane_cutline_sets r) = [] -> Mode3.emit r = Ret [])
  /\ (Mode3.pairs (Mode3.cutplane_cutline_sets r) <> [] ->
      Mode3.tdr_codes r = [] ->
      Mode3.emit r = Raise IndexError
      /\ handle (Mode3.emit r) = Raise IndexError).
Proof.
  split.
  - intro Hp. unfold Mode3.emit. now rewrite (mode3_no_pairs r _ 1 _ Hp).
  - intros Hp Hc.
    assert (He : Mode3.emit r = Raise IndexError).
    { unfold Mode3.emit. now rewrite (mode3_no_codes r _ Hc 1 _ Hp). }
    split; [exact He | now rewrite He].
Qed.

(** X11.  Every Mode 3 dialogue that is completed with at least one TDR
    code yields a command list: no exception leaves the generator, and
    the list holds one [export_curves] command and one 1D plot creation
    per (set, parameter) pair entered. *)
Theorem mode3_completed_dialogue_returns (SO : SetOrder) (inp rest : list event)
    (r : Mode3.request) :
  Mode3.collect inp = Ret (Some r, rest) ->
  Mode3.tdr_codes r <> [] ->
  exists cmds,
    Mode3.generate_mode3_commands inp = Ret cmds
    /\ count_cmd "export_curves" cmds
       = List.length (Mode3.pairs (Mode3.cutplane_cutline_sets r))
    /\ count_plot1d cmds = List.length (Mode3.pairs (Mode3.cutplane_cutline_sets r)).
Proof.
  intros Hc Hne.
  pose proof (mode3_collect_accepted inp rest r Hc) as Hacc.
  assert (Hall : forall c, In c (Mode3.cutplane_cutline_sets r) ->
                           List.length (Mode3.tdr_codes r)
                           <= List.length (cutline_positions c)).
  { intros c Hin. rewrite Forall_forall in Hacc.
    destruct (Hacc c Hin) as (_ & _ & _ & Hl & _). lia. }
  pose proof (mode3_emit_returns r Hne Hall) as He.
  eexists. split.
  - unfold Mode3.generate_mode3_commands. rewrite Hc, He. reflexivity.
  - split.
    + unfold count_cmd. rewrite length_filter_flat_map_one.
      * apply enumerate_length.
      * intro x. apply mode3_pair_export.
    + unfold count_plot1d. rewrite length_filter_flat_map_one.
      * apply enumerate_length.
      * intro x. apply mode3_pair_plot1d.
Qed.

Lemma mode3_completed_dialogue_returns_witness :
  exists cmds,
    @Mode3.generate_mode3_commands listed_order mode3_two_sets_input = Ret cmds
    /\ count_cmd "export_curves" cmds = 2
    /\ count_plot1d cmds = 2.
Proof.
  apply (mode3_completed_dialogue_returns listed_order mode3_two_sets_input []
           mode3_two_sets_request); [reflexivity | discriminate].
Defined.

Lemma for_each_ext {A S : Type} (l : list A) (f g : S -> A -> outcome S) (s : S) :
  (forall s x, f s x = g s x) -> for_each l f s = for_each l g s.
Proof.
  intro H. revert s. induction l as [|x l IH]; intro s; simpl; [reflexivity |].
  rewrite H. destruct (g s x); simpl; [apply IH | reflexivity].
Qed.

(** X12.  The file prefix asked for in Mode 3 has no effect: the generated
    commands are the same for every file prefix. *)
Theorem mode3_file_prefix_unused (SO : SetOrder) (r : Mode3.request) (fp : string) :
  Mode3.emit (with_file_prefix r fp) = Mode3.emit r.
Proof.
  unfold Mode3.emit, Mode3.process_set, Mode3.process_parameter. reflexivity.
Qed.

(** ** Mode 1 as a whole *)

Lemma mode1_file_bases_ok (r : Mode1.request) (parameter : string) :
  Mode1.node_names r <> [] ->
  Mode1.tdr_codes r <> [] ->
  Mode1.file_bases r parameter = Ret (mode1_file_bases_of r parameter)
  /\ (exists fb0 rest, mode1_file_bases_of r parameter = fb0 :: rest)
  /\ List.length (mode1_file_bases_of r parameter) = mode1_files_per_parameter r.
Proof.
  intros Hn Hc.
  unfold Mode1.file_bases, mode1_file_bases_of, mode1_files_per_parameter,
    wants_last_tdr, last_prefix_of.
  pose proof (mode1_node_file_bases_length r parameter) as Hlen.
  assert (Hfb : exists fb0 rest, Mode1.node_file_bases r parameter = fb0 :: rest).
  { unfold Mode1.node_file_bases.
    destruct (Mode1.node_names r) as [|n0 ns]; [contradiction |].
    destruct (Mode1.tdr_codes r) as [|c0 cs]; [contradiction |].
    simpl. eauto. }
  destruct Hfb as (fb0 & rest & Hfb).
  split; [| split].
  - destruct (str_in (Mode1.need_last_tdr r) ["yes"; "y"]).
    + destruct (Mode1.node_names r) as [|n0 ns]; [contradiction |].
      cbn [first bind hd].
      pose proof (split_not_nil "_"%char n0) as Hs.
      destruct (split "_"%char n0) as [|pfx more]; [contradiction |].
      reflexivity.
    + now rewrite app_nil_r.
  - rewrite Hfb. simpl. eauto.
  - rewrite length_app, Hlen.
    destruct (str_in (Mode1.need_last_tdr r) ["yes"; "y"]); reflexivity.
Qed.

(** One pass of the inner loop of Mode 1. *)
Lemma mode1_pass `{SetOrder} (r : Mode1.request) (set_idx : nat) (c : cutset)
    (cmds plots : list string) (counter param_idx : nat) (parameter : string) :
  Mode1.node_names r <> [] ->
  Mode1.tdr_codes r <> [] ->
  cutline_positions c <> [] ->
  exists plots',
    Mode1.process_parameter r set_idx c (Mode3.axis_of c) (cmds, plots, counter)
                            (param_idx, parameter)
    = Ret (cmds ++ mode1_pair_cmds r counter (set_idx, c, param_idx, parameter),
           plots', counter + mode1_files_per_parameter r).
Proof.
  intros Hn Hc Hp.
  destruct (mode1_file_bases_ok r parameter Hn Hc) as (Hfb & (fb0 & rest & Hcons) & Hlen).
  rewrite Hcons in Hfb.
  pose proof (mode1_process_parameter_returns r set_idx c (Mode3.axis_of c) cmds plots
                counter param_idx parameter fb0 rest Hfb Hp) as Hret.
  cbv zeta in Hret. rewrite Hret. eexists.
  unfold mode1_pair_cmds. rewrite Hcons in *. cbn [hd].
  rewrite <- Hlen. reflexivity.
Qed.

Lemma mode1_inner_loop `{SetOrder} (r : Mode1.request) (set_idx : nat) (c : cutset) :
  Mode1.node_names r <> [] ->
  Mode1.tdr_codes r <> [] ->
  cutline_positions c <> [] ->
  forall (params : list string) (j : nat) (cmds plots : list string) (counter : nat),
  exists plots',
    for_each (enumerate j params) (Mode1.process_parameter r set_idx c (Mode3.axis_of c))
             (cmds, plots, counter)
    = Ret (cmds ++ mode1_pairs_cmds r counter
                     (map (fun ip : nat * string => (set_idx, c, fst ip, snd ip))
                          (enumerate j params)),
           plots', counter + mode1_files_per_parameter r * List.length params).
Proof.
  intros Hn Hc Hp params.
  induction params as [|p ps IH]; intros j cmds plots counter.
  - exists plots. simpl. now rewrite app_nil_r, Nat.mul_0_r, Nat.add_0_r.
  - rewrite enumerate_cons. cbn [for_each map mode1_pairs_cmds fst snd].
    destruct (mode1_pass r set_idx c cmds plots counter j p Hn Hc Hp) as (plots1 & ->).
    cbn [bind].
    destruct (IH (S j) (cmds ++ mode1_pair_cmds r counter (set_idx, c, j, p)) plots1
                 (counter + mode1_files_per_parameter r)) as (plots2 & ->).
    exists plots2. rewrite <- app_assoc. cbn [List.length].
    f_equal. f_equal. lia.
Qed.

Lemma mode1_pairs_cmds_app `{SetOrder} (r : Mode1.request) (a b : list (nat * cutset * nat * string)) :
  forall counter,
    mode1_pairs_cmds r counter (a ++ b)
    = mode1_pairs_cmds r counter a
      ++ mode1_pairs_cmds r (counter + mode1_files_per_parameter r * List.length a) b.
Proof.
  induction a as [|x a IH]; intro counter.
  - simpl. now rewrite Nat.mul_0_r, Nat.add_0_r.
  - cbn [app mode1_pairs_cmds List.length]. rewrite IH, <- app_assoc.
    do 2 f_equal. f_equal. lia.
Qed.

Lemma mode1_outer_loop `{SetOrder} (r : Mode1.request) :
  Mode1.node_names r <> [] ->
  Mode1.tdr_codes r <> [] ->
  forall (sets : list cutset) (s : nat) (cmds plots : list string) (counter : nat),
    (forall c, In c sets -> cutline_positions c <> []) ->
    exists plots',
      for_each (enumerate s sets) (Mode1.process_set r) (cmds, plots, counter)
      = Ret (cmds ++ mode1_pairs_cmds r counter (Mode3.pairs_from s sets),
             plots',
             counter + mode1_files_per_parameter r
                       * List.length (Mode3.pairs_from s sets)).
Proof.
  intros Hn Hc sets.
  induction sets as [|c cs IH]; intros s cmds plots counter Hall.
  - exists plots. simpl. now rewrite app_nil_r, Nat.mul_0_r, Nat.add_0_r.
  - rewrite enumerate_cons. cbn [for_each]. unfold Mode1.process_set at 1.
    rewrite axis_of_returns. cbn [bind].
    destruct (mode1_inner_loop r s c Hn Hc (Hall c (or_introl eq_refl))
                (set_parameters c) 0 cmds plots counter) as (plots1 & ->).
    cbn [bind].
    match goal with
    | |- context [for_each _ _ (?cmds1, _, ?counter1)] =>
        destruct (IH (S s) cmds1 plots1 counter1
                     (fun c' Hc' => Hall c' (or_intror Hc'))) as (plots2 & ->)
    end.
    exists plots2. rewrite pairs_from_cons, mode1_pairs_cmds_app.
    rewrite length_app, !length_map, !enumerate_length, <- app_assoc.
    f_equal. f_equal. lia.
Qed.

(** Mode 1 returns the header and then the lines of its pairs in order. *)
Lemma mode1_emit_returns `{SetOrder} (r : Mode1.request) :
  Mode1.node_names r <> [] ->
  Mode1.tdr_codes r <> [] ->
  (forall c, In c (Mode1.cutplane_cutline_sets r) -> cutline_positions c <> []) ->
  Mode1.emit r
  = Ret (Mode1.header
         ++ mode1_pairs_cmds r 1 (Mode3.pairs (Mode1.cutplane_cutline_sets r))).
Proof.
  intros Hn Hc Hall. unfold Mode1.emit.
  destruct (mode1_outer_loop r Hn Hc (Mode1.cutplane_cutline_sets r) 1
              Mode1.header [] 1 Hall) as (plots' & ->).
  reflexivity.
Qed.

Lemma mode1_file_bases_of_length (r : Mode1.request) (parameter : string) :
  List.length (mode1_file_bases_of r parameter) = mode1_files_per_parameter r.
Proof.
  unfold mode1_file_bases_of, mode1_files_per_parameter.
  rewrite length_app, mode1_node_file_bases_length.
  destruct (wants_last_tdr r); reflexivity.
Qed.

Lemma mode1_pair_exports `{SetOrder} (r : Mode1.request) (k : nat)
    (x : nat * cutset * nat * string) :
  filter (startswith "export_curves ") (mode1_pair_cmds r k x) = [mode1_export_line r k x].
Proof.
  destruct x as [[[si c] pi] p]. unfold mode1_pair_cmds, mode1_export_line.
  filter_groups.
  rewrite (flat_map_nil_ext (fun x => filter _ (load_cmds _ _)))
    by (intro d; unfold load_cmds; decide_keyword; reflexivity).
  rewrite (flat_map_nil_ext (fun x => filter _ (Mode1.cutplane_cmds _ _ _ _)))
    by (intro d; unfold Mode1.cutplane_cmds; decide_keyword; reflexivity).
  rewrite (flat_map_nil_ext (fun x => filter _ (Mode1.cutplane_plot_cmds _ _)))
    by (intro d; unfold Mode1.cutplane_plot_cmds; decide_keyword; reflexivity).
  rewrite (flat_map_nil_ext (fun x => filter _ (Mode1.cutline_cmds _ _ _ _)))
    by (intro ix; unfold Mode1.cutline_cmds; decide_keyword; reflexivity).
  rewrite (flat_map_nil_ext (fun x => filter _ (Mode1.curve_cmds _ _ _ _ _ _)))
    by (intro ix; unfold Mode1.curve_cmds; decide_keyword; reflexivity).
  unfold Mode1.link_cmds, Mode1.field_cmds, Mode1.plot1d_cmds, Mode1.export_cmds.
  cbn [app]. decide_keyword. reflexivity.
Qed.

Lemma mode1_pair_curves `{SetOrder} (r : Mode1.request) (k : nat)
    (x : nat * cutset * nat * string) :
  List.length (filter (startswith "create_curve ") (mode1_pair_cmds r k x))
  = mode1_files_per_parameter r.
Proof.
  destruct x as [[[si c] pi] p]. unfold mode1_pair_cmds.
  filter_groups.
  rewrite (flat_map_nil_ext (fun x => filter _ (load_cmds _ _)))
    by (intro d; unfold load_cmds; decide_keyword; reflexivity).
  rewrite (flat_map_nil_ext (fun x => filter _ (Mode1.cutplane_cmds _ _ _ _)))
    by (intro d; unfold Mode1.cutplane_cmds; decide_keyword; reflexivity).
  rewrite (flat_map_nil_ext (fun x => filter _ (Mode1.cutplane_plot_cmds _ _)))
    by (intro d; unfold Mode1.cutplane_plot_cmds; decide_keyword; reflexivity).
  rewrite (flat_map_nil_ext (fun x => filter _ (Mode1.cutline_cmds _ _ _ _)))
    by (intro ix; unfold Mode1.cutline_cmds; decide_keyword; reflexivity).
  rewrite !length_app.
  rewrite <- filter_flat_map, length_filter_flat_map_one
    by (intro ix; unfold Mode1.curve_cmds; decide_keyword; reflexivity).
  rewrite enumerate_length, mode1_file_bases_of_length.
  unfold Mode1.link_cmds, Mode1.field_cmds, Mode1.plot1d_cmds, Mode1.export_cmds.
  decide_keyword. simpl. lia.
Qed.

Lemma mode1_pair_loads `{SetOrder} (r : Mode1.request) (k : nat)
    (x : nat * cutset * nat * string) :
  List.length (filter (startswith "load_file ") (mode1_pair_cmds r k x))
  = mode1_files_per_parameter r.
Proof.
  destruct x as [[[si c] pi] p]. unfold mode1_pair_cmds.
  filter_groups.
  rewrite (flat_map_nil_ext (fun x => filter _ (Mode1.cutplane_cmds _ _ _ _)))
    by (intro d; unfold Mode1.cutplane_cmds; decide_keyword; reflexivity).
  rewrite (flat_map_nil_ext (fun x => filter _ (Mode1.cutplane_plot_cmds _ _)))
    by (intro d; unfold Mode1.cutplane_plot_cmds; decide_keyword; reflexivity).
  rewrite (flat_map_nil_ext (fun x => filter _ (Mode1.cutline_cmds _ _ _ _)))
    by (intro ix; unfold Mode1.cutline_cmds; decide_keyword; reflexivity).
  rewrite (flat_map_nil_ext (fun x => filter _ (Mode1.curve_cmds _ _ _ _ _ _)))
    by (intro ix; unfold Mode1.curve_cmds; decide_keyword; reflexivity).
  rewrite !length_app.
  rewrite <- filter_flat_map, length_filter_flat_map_one
    by (intro d; unfold load_cmds; decide_keyword; reflexivity).
  rewrite mode1_file_bases_of_length.
  unfold Mode1.link_cmds, Mode1.field_cmds, Mode1.plot1d_cmds, Mode1.export_cmds.
  decide_keyword. simpl. lia.
Qed.

Lemma mode1_pairs_filter_one `{SetOrder} (r : Mode1.request) (q : string -> bool)
    (line : nat -> nat * cutset * nat * string -> string) :
  (forall k x, filter q (mode1_pair_cmds r k x) = [line k x]) ->
  forall prs m k,
    filter q (mode1_pairs_cmds r (k + m * mode1_files_per_parameter r) prs)
    = map (fun jx => line (k + fst jx * mode1_files_per_parameter r) (snd jx))
          (enumerate m prs).
Proof.
  intros Hq prs. induction prs as [|x prs IH]; intros m k; [reflexivity |].
  rewrite enumerate_cons. cbn [mode1_pairs_cmds map fst snd].
  rewrite filter_app, Hq. cbn [app]. f_equal.
  rewrite <- (IH (S m) k). do 2 f_equal. simpl. lia.
Qed.

Lemma mode1_pairs_filter_count `{SetOrder} (r : Mode1.request) (q : string -> bool)
    (n : nat) :
  (forall k x, List.length (filter q (mode1_pair_cmds r k x)) = n) ->
  forall prs k,
    List.length (filter q (mode1_pairs_cmds r k prs)) = n * List.length prs.
Proof.
  intros Hq prs. induction prs as [|x prs IH]; intro k; simpl; [lia |].
  rewrite filter_app, length_app, Hq, IH. lia.
Qed.

(** X13.  Mode 1 numbers its curves through the whole run: with at least
    one node and one TDR code and a cutline position in every set, each
    (set, parameter) pair loads N files, N being nodes x TDR codes plus one
    when the last TDR is asked for, and creates N curves; the pair at
    position j (from 0) exports the curves numbered 1 + j N to (j + 1) N.
    The counter is never reset between parameters or sets. *)
Theorem mode1_curve_counter_runs_through (SO : SetOrder) (r : Mode1.request) :
  Mode1.node_names r <> [] ->
  Mode1.tdr_codes r <> [] ->
  (forall c, In c (Mode1.cutplane_cutline_sets r) -> cutline_positions c <> []) ->
  let N := mode1_files_per_parameter r in
  let prs := Mode3.pairs (Mode1.cutplane_cutline_sets r) in
  exists cmds,
    Mode1.emit r = Ret cmds
    /\ filter (startswith "export_curves ") cmds
       = map (fun jx => mode1_export_line r (1 + fst jx * N) (snd jx)) (enumerate 0 prs)
    /\ (forall p, List.length (mode1_file_bases_of r p) = N)
    /\ count_cmd "create_curve" cmds = N * List.length prs
    /\ count_cmd "load_file" cmds = N * List.length prs.
Proof.
  intros Hn Hc Hall N prs.
  eexists. split; [now apply mode1_emit_returns |].
  split.
  { rewrite filter_app. change (filter (startswith "export_curves ") Mode1.header)
      with (@nil string). cbn [app].
    exact (mode1_pairs_filter_one r _ (mode1_export_line r) (mode1_pair_exports r) prs 0 1). }
  split; [intro p; apply mode1_file_bases_of_length |].
  split.
  - unfold count_cmd. rewrite filter_app, length_app.
    rewrite (mode1_pairs_filter_count r _ N (mode1_pair_curves r)). reflexivity.
  - unfold count_cmd. rewrite filter_app, length_app.
    rewrite (mode1_pairs_filter_count r _ N (mode1_pair_loads r)). reflexivity.
Qed.

Lemma mode1_curve_counter_runs_through_witness :
  exists cmds,
    @Mode1.emit listed_order mode1_two_parameters_request = Ret cmds
    /\ filter (startswith "export_curves ") cmds
       = [ "export_curves {Curve_1 Curve_2} -plot Plot_C1(C1(5e-6_eDensity_0001_des))_S1P0 -filename /out/run_set1_param_eDensity.csv -format csv";
           "export_curves {Curve_3 Curve_4} -plot Plot_C1(C1(5e-6_hDensity_0001_des))_S1P1 -filename /out/run_set1_param_hDensity.csv -format csv" ]
    /\ count_cmd "create_curve" cmds = 4.
Proof.
  destruct (mode1_curve_counter_runs_through listed_order mode1_two_parameters_request)
    as (cmds & He & Hx & _ & Hc & _).
  - discriminate.
  - discriminate.
  - intros c [<- | []]. discriminate.
  - exists cmds. split; [exact He |]. split; [exact Hx | exact Hc].
Defined.

Lemma flat_map_const {A B C : Type} (l : list C) (a : list A) (b : list B) :
  List.length a = List.length b ->
  flat_map (fun _ => l) a = flat_map (fun _ => l) b.
Proof.
  revert b. induction a as [|x a IH]; intros [|y b] H; simpl in *; try discriminate.
  - reflexivity.
  - f_equal. apply IH. lia.
Qed.

Lemma file_bases_with_node_names (r : Mode1.request) (nodes' : list string)
    (parameter : string) :
  List.length nodes' = List.length (Mode1.node_names r) ->
  (wants_last_tdr r = true ->
   last_prefix_of nodes' = last_prefix_of (Mode1.node_names r)) ->
  Mode1.file_bases (with_node_names r nodes') parameter = Mode1.file_bases r parameter.
Proof.
  intros Hlen Hpre. unfold Mode1.file_bases, Mode1.node_file_bases.
  cbn [with_node_names Mode1.need_last_tdr Mode1.node_names Mode1.tdr_codes
       Mode1.current_value].
  rewrite (flat_map_const _ nodes' (Mode1.node_names r) Hlen).
  unfold wants_last_tdr in Hpre.
  destruct (str_in (Mode1.need_last_tdr r) ["yes"; "y"]); [| reflexivity].
  specialize (Hpre eq_refl). unfold last_prefix_of in Hpre.
  destruct nodes' as [|n0' ns'], (Mode1.node_names r) as [|n0 ns];
    simpl in Hlen; try discriminate; [reflexivity |].
  cbn [first bind hd] in *.
  pose proof (split_not_nil "_"%char n0') as H1.
  pose proof (split_not_nil "_"%char n0) as H2.
  destruct (split "_"%char n0') as [|a ta]; [contradiction |].
  destruct (split "_"%char n0) as [|b tb]; [contradiction |].
  cbn [first bind hd] in *. now subst.
Qed.

(** X14.  In Mode 1 the node names themselves never reach the output: the
    command list depends on how many nodes there are and, when the last TDR
    is asked for, on the text of the first node before its first
    underscore.  Two requests that agree on these and on everything else
    give the same result, so every node loads the same files again. *)
Theorem mode1_node_names_only_counted (SO : SetOrder) (r : Mode1.request)
    (nodes' : list string) :
  List.length nodes' = List.length (Mode1.node_names r) ->
  (wants_last_tdr r = true ->
   last_prefix_of nodes' = last_prefix_of (Mode1.node_names r)) ->
  Mode1.emit (with_node_names r nodes') = Mode1.emit r.
Proof.
  intros Hlen Hpre. unfold Mode1.emit. f_equal.
  cbn [with_node_names Mode1.cutplane_cutline_sets].
  apply for_each_ext. intros st [si c]. unfold Mode1.process_set.
  destruct (get_axis_mapping (cutplane_axis c) (cutline_axis c)) as [ax|e];
    [| reflexivity].
  cbn [bind]. apply for_each_ext. intros [[cmds plots] k] [pi p].
  unfold Mode1.process_parameter.
  rewrite (file_bases_with_node_names r nodes' p Hlen Hpre). reflexivity.
Qed.

Lemma mode1_node_names_only_counted_witness :
  @Mode1.emit listed_order
    (with_node_names mode1_two_by_two_request ["first_node"; "second_node"])
  = @Mode1.emit listed_order mode1_two_by_two_request.
Proof.
  apply (mode1_node_names_only_counted listed_order mode1_two_by_two_request
           ["first_node"; "second_node"]).
  - reflexivity.
  - discriminate.
Defined.

(** When every pass over a parameter raises the same exception, the first
    pair stops the generator with it; sets without parameters are passed. *)
Lemma mode1_first_pair_raises `{SetOrder} (r : Mode1.request) (e : exn)
    (sets : list cutset) :
  (forall c, In c sets ->
     forall si ax st ip, Mode1.process_parameter r si c ax st ip = Raise e) ->
  forall s st,
    Mode3.pairs_from s sets <> [] ->
    for_each (enumerate s sets) (Mode1.process_set r) st = Raise e.
Proof.
  induction sets as [|c cs IH]; intros Hall s st Hp; [contradiction |].
  rewrite pairs_from_cons in Hp.
  rewrite enumerate_cons. cbn [for_each]. unfold Mode1.process_set at 1.
  rewrite axis_of_returns. cbn [bind].
  destruct (set_parameters c) as [|p ps].
  - cbn [enumerate List.length seq combine for_each bind].
    apply IH; [intros c' Hc'; apply Hall; now right | exact Hp].
  - rewrite enumerate_cons. cbn [for_each].
    now rewrite (Hall c (or_introl eq_refl)).
Qed.

(** X15.  Mode 1 with at least one (set, parameter) pair stops with an
    exception the handler does not cover when there is nothing to load:
    without any node, and without any TDR code unless the last TDR is asked
    for, the first file base is missing and [IndexError] is raised; with
    nodes, no TDR code and the last TDR asked for, the sets have no cutline
    position and the cutline lookup raises [ZeroDivisionError]. *)
Theorem mode1_nothing_to_load (SO : SetOrder) (r : Mode1.request) :
  Mode3.pairs (Mode1.cutplane_cutline_sets r) <> [] ->
  (Mode1.node_names r = [] -> handle (Mode1.emit r) = Raise IndexError)
  /\ (Mode1.tdr_codes r = [] -> wants_last_tdr r = false ->
      handle (Mode1.emit r) = Raise IndexError)
  /\ (Mode1.node_names r <> [] -> Mode1.tdr_codes r = [] -> wants_last_tdr r = true ->
      (forall c, In c (Mode1.cutplane_cutline_sets r) -> cutline_positions c = []) ->
      handle (Mode1.emit r) = Raise ZeroDivisionError).
Proof.
  intro Hp. unfold Mode1.emit, wants_last_tdr.
  split; [| split].
  - intro Hn. rewrite (mode1_first_pair_raises r IndexError); [reflexivity | | exact Hp].
    intros c _ si ax [[cmds plots] k] [pi p].
    unfold Mode1.process_parameter, Mode1.file_bases, Mode1.node_file_bases.
    rewrite Hn. destruct (str_in (Mode1.need_last_tdr r) ["yes"; "y"]); reflexivity.
  - intros Hc Hf. rewrite (mode1_first_pair_raises r IndexError); [reflexivity | | exact Hp].
    intros c _ si ax [[cmds plots] k] [pi p].
    unfold Mode1.process_parameter, Mode1.file_bases, Mode1.node_file_bases.
    rewrite Hf, Hc. cbn [map bind].
    rewrite (flat_map_nil_ext (fun _ : string => @nil string)) by reflexivity.
    reflexivity.
  - intros Hn Hc Hf Hpos.
    rewrite (mode1_first_pair_raises r ZeroDivisionError); [reflexivity | | exact Hp].
    intros c Hin si ax [[cmds plots] k] [pi p].
    unfold Mode1.process_parameter, Mode1.file_bases, Mode1.node_file_bases.
    rewrite Hf, Hc, (Hpos c Hin). cbn [map].
    rewrite (flat_map_nil_ext (fun _ : string => @nil string)) by reflexivity.
    destruct (Mode1.node_names r) as [|n0 ns]; [contradiction |].
    cbn [first bind].
    pose proof (split_not_nil "_"%char n0) as Hs.
    destruct (split "_"%char n0) as [|pfx more]; [contradiction |].
    reflexivity.
Qed.

(** X16.  Every Mode 1 dialogue that is completed with at least one node
    and one TDR code yields a command list that starts with the four header
    lines and holds one [export_curves] command per (set, parameter) pair:
    no exception leaves the generator. *)
Theorem mode1_completed_dialogue_returns (SO : SetOrder) (inp rest : list event)
    (r : Mode1.request) :
  Mode1.collect inp = Ret (Some r, rest) ->
  Mode1.node_names r <> [] ->
  Mode1.tdr_codes r <> [] ->
  exists body,
    Mode1.generate_mode1_commands inp = Ret (Mode1.header ++ body)
    /\ count_cmd "export_curves" (Mode1.header ++ body)
       = List.length (Mode3.pairs (Mode1.cutplane_cutline_sets r)).
Proof.
  intros Hcol Hn Hc.
  pose proof (mode1_collect_accepted inp rest r Hcol) as Hacc.
  assert (Hall : forall c, In c (Mode1.cutplane_cutline_sets r) ->
                           cutline_positions c <> []).
  { intros c Hin. rewrite Forall_forall in Hacc.
    destruct (Hacc c Hin) as (_ & _ & _ & Hl & _).
    intro Hz. rewrite Hz in Hl. simpl in Hl.
    symmetry in Hl. apply length_zero_iff_nil in Hl. contradiction. }
  pose proof (mode1_emit_returns r Hn Hc Hall) as He.
  exists (mode1_pairs_cmds r 1 (Mode3.pairs (Mode1.cutplane_cutline_sets r))).
  split.
  - unfold Mode1.generate_mode1_commands. rewrite Hcol, He. reflexivity.
  - unfold count_cmd. rewrite filter_app, length_app.
    change (startswith ("export_curves" +:+ " ")) with (startswith "export_curves ").
    rewrite (mode1_pairs_filter_one r _ (mode1_export_line r) (mode1_pair_exports r)
               (Mode3.pairs (Mode1.cutplane_cutline_sets r)) 0 1).
    rewrite length_map, enumerate_length. reflexivity.
Qed.

Lemma mode1_completed_dialogue_returns_witness :
  exists body,
    @Mode1.generate_mode1_commands listed_order mode1_two_by_two_input
    = Ret (Mode1.header ++ body)
    /\ count_cmd "export_curves" (Mode1.header ++ body) = 1.
Proof.
  apply (mode1_completed_dialogue_returns listed_order mode1_two_by_two_input []
           mode1_two_by_two_request); [reflexivity | discriminate | discriminate].
Defined.

Lemma mode1_nothing_to_load_witness :
  handle (@Mode1.emit listed_order (with_node_names mode1_two_by_two_request []))
  = Raise IndexError.
Proof.
  refine (proj1 (mode1_nothing_to_load listed_order
                   (with_node_names mode1_two_by_two_request []) _) eq_refl).
  discriminate.
Defined.

(** ** Mode 2 as a whole *)

(** X17.  A completed Mode 2 dialogue yields a command list exactly when at
    least one node was entered; the list then has 32 + 14 N lines for N
    nodes, N of them [load_file] commands. *)
Theorem mode2_returns_iff_nodes (inp rest : list event) (r : Mode2.request) :
  Mode2.collect inp = Ret (r, rest) ->
  ((exists cmds, Mode2.generate_mode2_commands inp = Ret cmds) <-> Mode2.nodes_data r <> [])
  /\ (forall cmds,
         Mode2.generate_mode2_commands inp = Ret cmds ->
         List.length cmds = 32 + 14 * List.length (Mode2.nodes_data r)
         /\ count_cmd "load_file" cmds = List.length (Mode2.nodes_data r)).
Proof.
  intro Hc. unfold Mode2.generate_mode2_commands. rewrite Hc.
  destruct (Mode2.nodes_data r) as [|p ps] eqn:Hn.
  - assert (He : Mode2.emit r = Raise IndexError)
      by (unfold Mode2.emit; now rewrite Hn).
    rewrite He. split.
    + split; [intros (cmds & H); discriminate H | intro H; now contradiction H].
    + intros cmds H. discriminate H.
  - pose proof (mode2_emit_returns r p ps Hn) as He. cbv zeta in He.
    rewrite He. rewrite Hn. split.
    + split; [discriminate | intros _; eexists; reflexivity].
    + intros cmds H. cbn [handle] in H.
      assert (Hinj : forall a b : list string, Ret a = Ret b -> a = b)
        by (intros a b E; now injection E).
      apply Hinj in H. subst cmds. split.
      * rewrite !length_app.
        rewrite (length_flat_map_fixed (Mode2.load_more_cmds r) 2) by reflexivity.
        rewrite (length_flat_map_fixed _ 8) by reflexivity.
        rewrite (length_flat_map_fixed _ 2) by reflexivity.
        rewrite (length_flat_map_fixed _ 2) by reflexivity.
        rewrite !enumerate_length. simpl. lia.
      * unfold count_cmd. filter_groups.
        rewrite <- (filter_flat_map _ (Mode2.load_more_cmds r)).
        rewrite !length_app.
        rewrite length_filter_flat_map_one
          by (intro x; unfold Mode2.load_more_cmds; decide_keyword; reflexivity).
        drop_loops.
        unfold Mode2.header, banner, Mode2.first_load_cmds, Mode2.y_curves_cmds,
          Mode2.y2_curves_cmds, Mode2.axis_title_cmds, Mode2.plot_prop_cmds,
          Mode2.layout_cmds, Mode2.export_cmds.
        cbn [app]. decide_keyword. simpl. lia.
Qed.

Lemma mode2_returns_iff_nodes_witness :
  ((exists cmds, Mode2.generate_mode2_commands mode2_zero_nodes_input = Ret cmds)
   <-> Mode2.nodes_data mode2_zero_nodes_request <> [])
  /\ (forall cmds,
         Mode2.generate_mode2_commands mode2_zero_nodes_input = Ret cmds ->
         List.length cmds = 32 + 14 * List.length (Mode2.nodes_data mode2_zero_nodes_request)
         /\ count_cmd "load_file" cmds
            = List.length (Mode2.nodes_data mode2_zero_nodes_request)).
Proof.
  apply (mode2_returns_iff_nodes mode2_zero_nodes_input [] mode2_zero_nodes_request).
  reflexivity.
Defined.

(** ** Counts and interruptions *)













(** ** The workflow around the generators *)

Lemma workflow_after_commands `{SetOrder} `{FileSystem} (mode : string)
    (inp rest : list event) (cmds : list string) :
  commands_of mode inp cmds rest ->
  run_single_workflow (Line mode :: inp) = handle_workflow (after_generation cmds rest).
Proof.
  intro Hg. unfold run_single_workflow. cbn [input].
  destruct Hg as [inp rest r cmds Hc He | inp rest r cmds Hc He | inp rest r cmds Hc He];
    cbv beta iota; cbn [String.eqb Ascii.eqb Bool.eqb];
    rewrite Hc; unfold generated; rewrite He; reflexivity.
Qed.






(** X20.  The workflow returns False and leaves no file when the mode typed
    is not exactly 1, 2 or 3 (nothing more is read), when the first count
    of the chosen generator is one [int] does not accept, and when the user
    interrupts the mode prompt or the first prompt of a generator. *)
Theorem workflow_not_completed (SO : SetOrder) (FS : FileSystem) (mode s : string)
    (rest : list event) :
  mode <> "1" -> mode <> "2" -> mode <> "3" ->
  py_int s = Raise ValueError ->
  run_single_workflow (Line mode :: rest) = Ret not_completed
  /\ run_single_workflow (Line "1" :: Line s :: rest) = Ret not_completed
  /\ run_single_workflow (Line "3" :: Line s :: rest) = Ret not_completed
  /\ (forall base prefix,
        run_single_workflow (Line "2" :: Line base :: Line prefix :: Line s :: rest)
        = Ret not_completed)
  /\ run_single_workflow (Interrupt :: rest) = Ret not_completed
  /\ run_single_workflow (Line "1" :: Interrupt :: rest) = Ret not_completed
  /\ run_single_workflow (Line "2" :: Interrupt :: rest) = Ret not_completed
  /\ run_single_workflow (Line "3" :: Interrupt :: rest) = Ret not_completed.
Proof.
  intros H1 H2 H3 Hs.
  split.
  { unfold run_single_workflow. cbn [input].
    destruct (String.eqb_spec mode "1"); [contradiction |].
    destruct (String.eqb_spec mode "2"); [contradiction |].
    destruct (String.eqb_spec mode "3"); [contradiction |].
    reflexivity. }
  unfold run_single_workflow, Mode1.collect, Mode2.collect, Mode3.collect.
  unfold io_bind, input, io_lift. rewrite Hs.
  repeat split; reflexivity.
Qed.

Lemma workflow_not_completed_witness :
  @run_single_workflow listed_order refusing_empty_name [Line " 1"; Line "2"]
  = Ret not_completed
  /\ @run_single_workflow listed_order refusing_empty_name
       [Line "1"; Line "two"; Line "n1"]
     = Ret not_completed
  /\ @run_single_workflow listed_order refusing_empty_name
       [Line "3"; Line (String "031"%char "2"); Line "/sim"]
     = Ret not_completed.
Proof.
  assert (H : py_int "two" = Raise ValueError) by reflexivity.
  assert (H' : py_int (String "031"%char "2") = Raise ValueError) by reflexivity.
  split; [| split].
  - refine (proj1 (workflow_not_completed listed_order refusing_empty_name
                     " 1" "two" [Line "2"] _ _ _ H));
      discriminate.
  - refine (proj1 (proj2 (workflow_not_completed listed_order refusing_empty_name
                            " 1" "two" [Line "n1"] _ _ _ H)));
      discriminate.
  - refine (proj1 (proj2 (proj2 (workflow_not_completed listed_order refusing_empty_name
                                   " 1" (String "031"%char "2") [Line "/sim"]
                                   _ _ _ H'))));
      discriminate.
Defined.

(** X21.  After a generator returned a non-empty command list, the workflow
    asks whether to save.  Only an answer that is y in either case is
    followed by the file-name prompt and the attempt to write one line per
    command: when the file cannot be opened the workflow still returns True
    and leaves no file, when a write fails it returns True and the file
    holds the start of the text, otherwise the file holds the whole text.
    Any other answer (yes, for one) completes without a file and leaves the
    rest of the input unread.  An interrupt at either prompt makes the
    workflow return False although the commands were produced; the end of
    the input there raises [EOFError]. *)
Theorem workflow_save_prompt (SO : SetOrder) (FS : FileSystem) (mode : string)
    (inp rest : list event) (cmds : list string) :
  commands_of mode inp cmds rest ->
  cmds <> [] ->
  (forall answer fname more,
      rest = Line answer :: Line fname :: more ->
      lower answer = "y" ->
      (write_file fname (file_text cmds) = Written ->
       run_single_workflow (Line mode :: inp)
       = Ret {| completed := true; saved := Some (fname, file_text cmds) |})
      /\ (write_file fname (file_text cmds) = OpenFails ->
          run_single_workflow (Line mode :: inp)
          = Ret {| completed := true; saved := None |})
      /\ (forall written,
             write_file fname (file_text cmds) = WriteFails written ->
             run_single_workflow (Line mode :: inp)
             = Ret {| completed := true;
                      saved := Some (fname, str_take written (file_text cmds)) |}))
  /\ (forall answer more,
        rest = Line answer :: more ->
        lower answer <> "y" ->
        run_single_workflow (Line mode :: inp)
        = Ret {| completed := true; saved := None |})
  /\ (forall more,
        rest = Interrupt :: more ->
        run_single_workflow (Line mode :: inp) = Ret not_completed)
  /\ (forall answer more,
        rest = Line answer :: Interrupt :: more ->
        lower answer = "y" ->
        run_single_workflow (Line mode :: inp) = Ret not_completed)
  /\ (rest = [] -> run_single_workflow (Line mode :: inp) = Raise EOFError)
  /\ (forall answer,
        rest = [Line answer] ->
        lower answer = "y" ->
        run_single_workflow (Line mode :: inp) = Raise EOFError).
Proof.
  intros Hg Hne. rewrite (workflow_after_commands mode inp rest cmds Hg).
  destruct cmds as [|c cs]; [contradiction |].
  unfold after_generation.
  split; [| repeat split].
  - intros answer fname more -> Ha. cbn [input]. rewrite Ha.
    cbn [String.eqb Ascii.eqb Bool.eqb handle_workflow]. unfold save_commands.
    split; [| split].
    + now intros ->.
    + now intros ->.
    + now intros written ->.
  - intros answer more -> Ha. cbn [input].
    destruct (String.eqb_spec (lower answer) "y"); [contradiction | reflexivity].
  - now intros more ->.
  - intros answer more -> Ha. cbn [input]. now rewrite Ha.
  - now intros ->.
  - intros answer -> Ha. cbn [input]. now rewrite Ha.
Qed.

Lemma workflow_save_prompt_witness :
  exists cmds,
    List.length cmds = 60
    /\ @run_single_workflow listed_order refusing_empty_name
         (Line "2" :: mode2_two_nodes_input ++ [Line "Y"; Line "out.tcl"])
       = Ret {| completed := true; saved := Some ("out.tcl", file_text cmds) |}
    /\ @run_single_workflow listed_order refusing_empty_name
         (Line "2" :: mode2_two_nodes_input ++ [Line "y"; Line ""])
       = Ret {| completed := true; saved := None |}
    /\ @run_single_workflow listed_order refusing_empty_name
         (Line "2" :: mode2_two_nodes_input ++ [Line "yes"; Line "out.tcl"])
       = Ret {| completed := true; saved := None |}.
Proof.
  destruct (Mode2.emit mode2_two_nodes_request) as [cmds | e] eqn:He;
    [| vm_compute in He; discriminate He].
  exists cmds.
  assert (Hne : cmds <> []).
  { intro Hz. rewrite Hz in He. vm_compute in He. discriminate He. }
  split; [| split; [| split]].
  - vm_compute in He. injection He as <-. reflexivity.
  - refine (proj1 (proj1 (workflow_save_prompt listed_order refusing_empty_name "2"
                     (mode2_two_nodes_input ++ [Line "Y"; Line "out.tcl"])
                     [Line "Y"; Line "out.tcl"] cmds _ Hne)
              "Y" "out.tcl" [] eq_refl eq_refl) eq_refl).
    exact (@commands_of_mode2 listed_order
             (mode2_two_nodes_input ++ [Line "Y"; Line "out.tcl"])
             [Line "Y"; Line "out.tcl"] mode2_two_nodes_request cmds eq_refl He).
  - refine (proj1 (proj2 (proj1 (workflow_save_prompt listed_order refusing_empty_name "2"
                     (mode2_two_nodes_input ++ [Line "y"; Line ""])
                     [Line "y"; Line ""] cmds _ Hne)
              "y" "" [] eq_refl eq_refl)) eq_refl).
    exact (@commands_of_mode2 listed_order
             (mode2_two_nodes_input ++ [Line "y"; Line ""])
             [Line "y"; Line ""] mode2_two_nodes_request cmds eq_refl He).
  - refine (proj1 (proj2 (workflow_save_prompt listed_order refusing_empty_name "2"
                     (mode2_two_nodes_input ++ [Line "yes"; Line "out.tcl"])
                     [Line "yes"; Line "out.tcl"] cmds _ Hne))
              "yes" [Line "out.tcl"] eq_refl _).
    + exact (@commands_of_mode2 listed_order
               (mode2_two_nodes_input ++ [Line "yes"; Line "out.tcl"])
               [Line "yes"; Line "out.tcl"] mode2_two_nodes_request cmds eq_refl He).
    + discriminate.
Defined.

(** X22.  The text written to the file holds the commands one per line:
    when no command contains a line feed, splitting the text at line feeds
    gives the commands back, followed by the empty piece after the last
    line feed. *)
Theorem file_text_lines (cmds : list string) :
  Forall (fun cmd => has_no "010"%char cmd = true) cmds ->
  split "010"%char (file_text cmds) = cmds ++ [EmptyString].
Proof.
  intro Hall. induction Hall as [|c cs Hc Hcs IH]; [reflexivity |].
  cbn [file_text app]. unfold newline. rewrite append_assoc.
  change (String "010"%char EmptyString +:+ file_text cs)
    with (String "010"%char (file_text cs)).
  rewrite (split_append_sep _ _ _ Hc). now rewrite IH.
Qed.

Lemma file_text_lines_witness :
  split "010"%char (file_text ["load_file /sim/a.tdr"; ""; "# 0"])
  = ["load_file /sim/a.tdr"; ""; "# 0"] ++ [EmptyString].
Proof.
  apply (file_text_lines ["load_file /sim/a.tdr"; ""; "# 0"]).
  repeat constructor.
Defined.

(** X23.  A Mode 2 dialogue completed with no node makes the workflow itself
    stop with [IndexError]: neither the handler of the generator nor the
    handler of the workflow covers it, and nothing is saved. *)
Theorem workflow_mode2_no_nodes_raises (SO : SetOrder) (FS : FileSystem)
    (inp rest : list event) (r : Mode2.request) :
  Mode2.collect inp = Ret (r, rest) ->
  Mode2.nodes_data r = [] ->
  run_single_workflow (Line "2" :: inp) = Raise IndexError.
Proof.
  intros Hc Hn. unfold run_single_workflow. cbn [input].
  cbv beta iota. cbn [String.eqb Ascii.eqb Bool.eqb].
  rewrite Hc. unfold generated, Mode2.emit. rewrite Hn. reflexivity.
Qed.

Lemma workflow_mode2_no_nodes_raises_witness :
  @run_single_workflow listed_order refusing_empty_name
    (Line "2" :: mode2_zero_nodes_input)
  = Raise IndexError.
Proof.
  apply (workflow_mode2_no_nodes_raises listed_order refusing_empty_name
           mode2_zero_nodes_input [] mode2_zero_nodes_request); reflexivity.
Defined.

